(** * A-share data access layer: session guard, facade, trading calendar

    Shallow embedding of the Python sources
      - [src/utils.py]                 (the Baostock login context manager),
      - [src/baostock_data_source.py]  (the data source facade),
      - [src/tools/base.py], [src/tools/date_utils.py], [src/tools/helpers.py],
      - [src/tools/stock_market.py], [src/tools/financial_reports.py],
        [src/tools/indices.py], [src/tools/market_overview.py],
        [src/tools/macroeconomic.py]  (the tools over the facade)
    and the properties of the data access layer checked against them.

    Conventions of the embedding.
      - A Python [str] is a [string]: a sequence of 8-bit characters, a
        non-ASCII literal of the source being its UTF-8 bytes.  Character
        classes ([isdigit], [\d], [lower], [strip], [(?i)]) are the ASCII
        ones.
      - Python integers are [Z].
      - A computation is a function from the state of the process (the
        descriptor table, the record of provider calls, the clock) to an
        outcome and a new state.  An exception leaves the state as it was
        when it was raised; nothing is rolled back.
      - [logger] calls write to the logging handlers only and are left out.
      - The [os] calls on descriptors and the clock are total.
      - The provider is a stub: each of its calls returns a status object
        or raises, and every call is recorded.
      - A frame is built from rows that hold one cell per column; the
        functions of [datetime] follow the reference implementation of
        the standard library.

    The definitions come first, file by file of the source; the
    properties follow. *)

From Stdlib Require Import ZArith List String Ascii Bool Lia DecimalString.
From Stdlib Require Import Sorting.Sorted Sorting.Permutation.
Import ListNotations.

Local Open Scope string_scope.
Local Open Scope Z_scope.

(* ===================================================================== *)
(** ** Exceptions and outcomes *)

(** The exception classes the layer distinguishes.  [LoginError] and
    [NoDataFoundError] derive from [DataSourceError]
    ([src/data_source_interface.py]); [ValueError], [KeyError],
    [OverflowError] and [ReError] are the built-in ones; [OtherError]
    stands for any other subclass of [Exception]. *)
Inductive exn_class : Type :=
| LoginError
| NoDataFoundError
| DataSourceError
| ValueError
| KeyError
| OverflowError
| ReError
| OtherError.

Definition exn_class_eqb (a b : exn_class) : bool :=
  match a, b with
  | LoginError, LoginError | NoDataFoundError, NoDataFoundError
  | DataSourceError, DataSourceError | ValueError, ValueError
  | KeyError, KeyError | OverflowError, OverflowError
  | ReError, ReError | OtherError, OtherError => true
  | _, _ => false
  end.

(** An exception value: its class and [str(e)]. *)
Record exn : Type := mk_exn { exn_cls : exn_class; exn_str : string }.

(** [isinstance(e, DataSourceError)]. *)
Definition is_DataSourceError (e : exn) : bool :=
  match exn_cls e with
  | LoginError | NoDataFoundError | DataSourceError => true
  | _ => false
  end.

(** The clause [except (LoginError, NoDataFoundError, DataSourceError,
    ValueError)] of every fetch. *)
Definition is_known_error (e : exn) : bool :=
  is_DataSourceError e || exn_class_eqb (exn_cls e) ValueError.

Inductive outcome (A : Type) : Type :=
| Return (a : A)
| Raise (e : exn).
Arguments Return {A} a.
Arguments Raise {A} e.

(* ===================================================================== *)
(** ** The state of the process *)

(** What a descriptor is connected to. *)
Inductive file : Type :=
| Terminal      (* the stream the process was started with *)
| DevNull.      (* os.devnull *)

Definition file_eqb (a b : file) : bool :=
  match a, b with
  | Terminal, Terminal | DevNull, DevNull => true
  | _, _ => false
  end.

Definition fd_table : Type := list (nat * file).

Fixpoint fd_lookup (t : fd_table) (fd : nat) : option file :=
  match t with
  | [] => None
  | (k, f) :: t' => if Nat.eqb k fd then Some f else fd_lookup t' fd
  end.

Fixpoint fd_remove (t : fd_table) (fd : nat) : fd_table :=
  match t with
  | [] => []
  | (k, f) :: t' =>
      if Nat.eqb k fd then fd_remove t' fd else (k, f) :: fd_remove t' fd
  end.

Definition fd_set (t : fd_table) (fd : nat) (f : file) : fd_table :=
  (fd, f) :: fd_remove t fd.

(** The lowest descriptor not in use, searched among [start .. start+fuel]. *)
Fixpoint fd_lowest_free (t : fd_table) (fuel start : nat) : nat :=
  match fuel with
  | O => start
  | S fuel' =>
      match fd_lookup t start with
      | None => start
      | Some _ => fd_lowest_free t fuel' (S start)
      end
  end.

(** The requests the provider client can be sent, with the arguments the
    facade passes.  An absent optional argument is [None]. *)
Inductive bs_query : Type :=
| query_history_k_data_plus
    (code fields start_date end_date frequency adjustflag : string)
| query_stock_basic (code : string)
| query_dividend_data (code year yearType : string)
| query_adjust_factor (code start_date end_date : string)
| query_profit_data (code year : string) (quarter : Z)
| query_operation_data (code year : string) (quarter : Z)
| query_growth_data (code year : string) (quarter : Z)
| query_balance_data (code year : string) (quarter : Z)
| query_cash_flow_data (code year : string) (quarter : Z)
| query_dupont_data (code year : string) (quarter : Z)
| query_performance_express_report (code start_date end_date : string)
| query_forecast_report (code start_date end_date : string)
| query_stock_industry (code date : option string)
| query_sz50_stocks (date : option string)
| query_hs300_stocks (date : option string)
| query_zz500_stocks (date : option string)
| query_trade_dates (start_date end_date : option string)
| query_all_stock (day : option string)
| query_deposit_rate_data (start_date end_date : option string)
| query_loan_rate_data (start_date end_date : option string)
| query_required_reserve_ratio_data
    (start_date end_date : option string) (yearType : string)
| query_money_supply_data_month (start_date end_date : option string)
| query_money_supply_data_year (start_date end_date : option string).

(** One entry of the record a provider stub keeps.  [CallBody] marks the
    run of a stub body inside the session scope. *)
Inductive call : Type :=
| CallLogin
| CallLogout
| CallQuery (q : bs_query)
| CallBody.

(** A calendar date (the date part of a [datetime]). *)
Record date : Type := mk_date { year : Z; month : Z; day : Z }.

Record world : Type := mk_world {
  fds : fd_table;
  (** provider calls so far, oldest first, each with what descriptor 1 was
      connected to while the call ran *)
  calls : list (call * option file);
  (** [datetime.now()] *)
  clock : date
}.

Definition stdout_fd : nat := 1%nat.
Definition stdout_target (w : world) : option file := fd_lookup (fds w) stdout_fd.
Definition call_names (w : world) : list call := map fst (calls w).

(* ===================================================================== *)
(** ** Computations *)

Definition M (A : Type) : Type := world -> outcome A * world.

Definition ret {A} (a : A) : M A := fun w => (Return a, w).
Definition raise {A} (e : exn) : M A := fun w => (Raise e, w).
Definition bind {A B} (m : M A) (k : A -> M B) : M B :=
  fun w =>
    match m w with
    | (Return a, w') => k a w'
    | (Raise e, w') => (Raise e, w')
    end.

Declare Scope py_scope.
Delimit Scope py_scope with py.
Notation "x <- m ;; k" := (bind m (fun x => k))
  (at level 61, m at next level, right associativity) : py_scope.
Notation "m ;;; k" := (bind m (fun _ => k))
  (at level 61, right associativity) : py_scope.
Local Open Scope py_scope.

(** [try: body finally: fin].  The [finally] suite runs on both exits of
    [body]; an exception raised inside it replaces the pending return
    value or exception. *)
Definition try_finally {A} (body : M A) (fin : M unit) : M A :=
  fun w =>
    match body w with
    | (r, w1) =>
        match fin w1 with
        | (Return _, w2) => (r, w2)
        | (Raise e', w2) => (Raise e', w2)
        end
    end.

(** [try: body except <sel> as e: handler(e)]; an exception that no clause
    selects propagates. *)
Definition try_except {A} (body : M A) (sel : exn -> bool) (handler : exn -> M A)
  : M A :=
  fun w =>
    match body w with
    | (Return a, w1) => (Return a, w1)
    | (Raise e, w1) => if sel e then handler e w1 else (Raise e, w1)
    end.

Definition lift_outcome {A} (r : outcome A) : M A := fun w => (r, w).

Definition modify_fds (f : fd_table -> fd_table) : M unit :=
  fun w => (Return tt, mk_world (f (fds w)) (calls w) (clock w)).

Definition record_call (c : call) : M unit :=
  fun w => (Return tt,
            mk_world (fds w) (calls w ++ [(c, stdout_target w)]) (clock w)).

Definition datetime_now : M date := fun w => (Return (clock w), w).

(** *** The [os] calls of the context manager *)

Definition sys_stdout_fileno : M nat := ret stdout_fd.

Definition os_dup (fd : nat) : M nat :=
  fun w =>
    let t := fds w in
    let n := fd_lowest_free t (List.length t) 0 in
    match fd_lookup t fd with
    | Some f => (Return n, mk_world (fd_set t n f) (calls w) (clock w))
    | None => (Return n, w)
    end.

Definition os_open_devnull : M nat :=
  fun w =>
    let t := fds w in
    let n := fd_lowest_free t (List.length t) 0 in
    (Return n, mk_world (fd_set t n DevNull) (calls w) (clock w)).

Definition os_dup2 (src dst : nat) : M unit :=
  modify_fds (fun t =>
    match fd_lookup t src with
    | Some f => fd_set t dst f
    | None => t
    end).

Definition os_close (fd : nat) : M unit :=
  modify_fds (fun t => fd_remove t fd).

(* ===================================================================== *)
(** ** The provider *)

(** The object a query returns: status code, status message, column names
    and the rows its cursor yields. *)
Record ResultData : Type := mk_rs {
  error_code : string;
  error_msg : string;
  fields : list string;
  rs_rows : list (list string)
}.

(** A provider stub.  [bs_login] and [bs_logout] give the outcome of the
    two session calls (the returned status object, or an exception);
    [bs_respond] the outcome of each request. *)
Record provider : Type := mk_provider {
  bs_login : outcome ResultData;
  bs_logout : outcome ResultData;
  bs_respond : bs_query -> outcome ResultData
}.

Definition login (p : provider) : M ResultData :=
  record_call CallLogin ;;; lift_outcome (bs_login p).

Definition logout (p : provider) : M ResultData :=
  record_call CallLogout ;;; lift_outcome (bs_logout p).

Definition query (p : provider) (q : bs_query) : M ResultData :=
  record_call (CallQuery q) ;;; lift_outcome (bs_respond p q).

(* ===================================================================== *)
(** ** [src/utils.py]: the session guard *)

Definition login_failed_msg (msg : string) : string :=
  "Baostock 登录失败: " ++ msg.

(** The generator of [baostock_login_context] up to its [yield]: the
    output stream is pointed at the null device, the provider is logged
    in, the stream is put back, and a status other than ['0'] is raised as
    [LoginError]. *)
Definition session_enter (p : provider) : M unit :=
  original_stdout_fd <- sys_stdout_fileno ;;
  saved_stdout_fd <- os_dup original_stdout_fd ;;
  devnull_fd <- os_open_devnull ;;
  os_dup2 devnull_fd original_stdout_fd ;;;
  os_close devnull_fd ;;;
  lg <- login p ;;
  os_dup2 saved_stdout_fd original_stdout_fd ;;;
  os_close saved_stdout_fd ;;;
  if negb (String.eqb (error_code lg) "0")
  then raise (mk_exn LoginError (login_failed_msg (error_msg lg)))
  else ret tt.

(** The [finally] suite after the [yield]. *)
Definition session_exit (p : provider) : M unit :=
  original_stdout_fd <- sys_stdout_fileno ;;
  saved_stdout_fd <- os_dup original_stdout_fd ;;
  devnull_fd <- os_open_devnull ;;
  os_dup2 devnull_fd original_stdout_fd ;;;
  os_close devnull_fd ;;;
  _ <- logout p ;;
  os_dup2 saved_stdout_fd original_stdout_fd ;;;
  os_close saved_stdout_fd.

(** [with baostock_login_context(): body].  The generator runs up to its
    [yield]; then [body] runs; then the generator is resumed, or the
    exception of [body] is thrown into it at the [yield], and either way
    its [try: yield finally: ...] runs the [finally] suite. *)
Definition baostock_login_context {A} (p : provider) (body : M A) : M A :=
  session_enter p ;;;
  try_finally body (session_exit p).

(** A stub body: it is recorded, then returns or raises as told. *)
Definition stub_body {A} (r : outcome A) : M A :=
  record_call CallBody ;;; lift_outcome r.

(** The process as it starts: descriptors 0, 1, 2 on the terminal. *)
Definition initial_world (now : date) : world :=
  mk_world [(0%nat, Terminal); (1%nat, Terminal); (2%nat, Terminal)] [] now.

Definition login_ok (p : provider) : Prop :=
  exists lg, bs_login p = Return lg /\ error_code lg = "0".

Definition ok_status : ResultData := mk_rs "0" "success" [] [].

(* ===================================================================== *)
(** ** Strings and Python values *)

(** [str(n)] and the f-string field [{n}] of an integer. *)
Definition str_of_Z (n : Z) : string := NilZero.string_of_int (Z.to_int n).

(** [s.zfill(width)] for a string without a sign: zeros are put in front
    until the width is reached, at most [fuel] of them. *)
Fixpoint zfill_fuel (fuel width : nat) (s : string) : string :=
  match fuel with
  | O => s
  | S fuel' =>
      if Nat.ltb (String.length s) width
      then zfill_fuel fuel' width ("0" ++ s)
      else s
  end.

Definition zfill_nat (width : nat) (s : string) : string :=
  zfill_fuel width width s.

(** The f-string fields [{n:02d}] and [{n:04d}] for [n >= 0]. *)
Definition fmt_02d (n : Z) : string := zfill_nat 2 (str_of_Z n).
Definition fmt_04d (n : Z) : string := zfill_nat 4 (str_of_Z n).

(** The f-string field [{x}] of an optional string: [None] prints as
    [None]. *)
Definition fmt_opt (o : option string) : string :=
  match o with Some s => s | None => "None" end.

Definition is_digit (c : ascii) : bool :=
  let n := nat_of_ascii c in (Nat.leb 48 n && Nat.leb n 57)%bool.

Definition is_upper (c : ascii) : bool :=
  let n := nat_of_ascii c in (Nat.leb 65 n && Nat.leb n 90)%bool.

(** [str.isspace] on one character: TAB..CR, FS..US and the space. *)
Definition is_space (c : ascii) : bool :=
  let n := nat_of_ascii c in
  ((Nat.leb 9 n && Nat.leb n 13) || (Nat.leb 28 n && Nat.leb n 32))%bool.

Definition lower_ascii (c : ascii) : ascii :=
  if is_upper c then ascii_of_nat (nat_of_ascii c + 32) else c.

(** [s.lower()] *)
Fixpoint lower (s : string) : string :=
  match s with
  | EmptyString => EmptyString
  | String c s' => String (lower_ascii c) (lower s')
  end.

Fixpoint all_chars (f : ascii -> bool) (s : string) : bool :=
  match s with
  | EmptyString => true
  | String c s' => f c && all_chars f s'
  end.

(** [s.isdigit()]: at least one character, all of them digits. *)
Definition isdigit (s : string) : bool :=
  match s with
  | EmptyString => false
  | _ => all_chars is_digit s
  end.

(** [len(s)] *)
Definition len (s : string) : Z := Z.of_nat (String.length s).

(** [needle in hay] *)
Fixpoint contains (needle hay : string) : bool :=
  String.prefix needle hay ||
  match hay with
  | EmptyString => false
  | String _ hay' => contains needle hay'
  end.

(** [s.startswith(p)] *)
Definition startswith (s p : string) : bool := String.prefix p s.

Fixpoint lstrip (s : string) : string :=
  match s with
  | EmptyString => EmptyString
  | String c s' => if is_space c then lstrip s' else s
  end.

Fixpoint rstrip (s : string) : string :=
  match s with
  | EmptyString => EmptyString
  | String c s' =>
      match rstrip s' with
      | EmptyString => if is_space c then EmptyString else String c EmptyString
      | r => String c r
      end
  end.

(** [s.strip()] *)
Definition strip (s : string) : string := rstrip (lstrip s).

(** [sep.join(l)] *)
Definition join (sep : string) (l : list string) : string := String.concat sep l.

(** The Python values a loosely typed argument can hold. *)
Inductive pyval : Type :=
| PyStr (s : string)
| PyInt (n : Z)
| PyNone.

(** [isinstance(v, str)] *)
Definition is_str (v : pyval) : bool :=
  match v with PyStr _ => true | _ => false end.

(** [repr(v)]; for a string this is exact when it has no quote, backslash
    or control character. *)
Definition repr (v : pyval) : string :=
  match v with
  | PyStr s => "'" ++ s ++ "'"
  | PyInt n => str_of_Z n
  | PyNone => "None"
  end.

Definition repr_list (l : list pyval) : string :=
  "[" ++ join ", " (map repr l) ++ "]".

Definition str_of_pyval (v : pyval) : string :=
  match v with
  | PyStr s => s
  | PyInt n => str_of_Z n
  | PyNone => "None"
  end.

(* ===================================================================== *)
(** ** Tabular results *)

(** A [pandas.DataFrame] of strings: the column names in order and the
    rows, each row holding one cell per column. *)
Record DataFrame : Type := mk_df {
  columns : list string;
  df_rows : list (list string)
}.

Definition is_nil {A} (l : list A) : bool :=
  match l with [] => true | _ => false end.

(** [df.empty]: one of the two axes has length zero. *)
Definition df_empty (df : DataFrame) : bool :=
  is_nil (df_rows df) || is_nil (columns df).

(** [name in df.columns] *)
Definition has_column (df : DataFrame) (name : string) : bool :=
  existsb (String.eqb name) (columns df).

Fixpoint index_of (name : string) (l : list string) : option nat :=
  match l with
  | [] => None
  | c :: l' =>
      if String.eqb c name then Some O
      else option_map S (index_of name l')
  end.

(** [row[name]] for a row of [df]; the cell of the first column of that
    name. *)
Definition cell (df : DataFrame) (name : string) (row : list string) : string :=
  match index_of name (columns df) with
  | Some i => nth i row ""
  | None => ""
  end.

(** [df[cols]] for a list of column names present in [df]. *)
Definition df_select (df : DataFrame) (cols : list string) : DataFrame :=
  mk_df cols (map (fun row => map (fun c => cell df c row) cols) (df_rows df)).

(** [df.columns[-1]] and [df.columns[0]] of a frame with a column. *)
Definition last_column (df : DataFrame) : string := last (columns df) "".
Definition first_column (df : DataFrame) : string := hd "" (columns df).

(* ===================================================================== *)
(** ** [src/baostock_data_source.py]: the facade *)

Definition DEFAULT_K_FIELDS : list string :=
  ["date"; "code"; "open"; "high"; "low"; "close"; "preclose";
   "volume"; "amount"; "adjustflag"; "turn"; "tradestatus";
   "pctChg"; "peTTM"; "pbMRQ"; "psTTM"; "pcfNcfTTM"; "isST"].

(** [while rs.next(): data_list.append(rs.get_row_data())] *)
Definition drain (rs : ResultData) : list (list string) := rs_rows rs.

(** The test ["no record found" in rs.error_msg.lower() or
    rs.error_code == '10002'] of the fetches that classify. *)
Definition no_record_found (rs : ResultData) : bool :=
  contains "no record found" (lower (error_msg rs))
  || String.eqb (error_code rs) "10002".

Definition with_code (rs : ResultData) : string :=
  error_msg rs ++ " (错误码: " ++ error_code rs ++ ")".

(** The part of a fetch after the request, as thirteen of the fourteen
    sites have it: a status other than ['0'] is raised as
    [NoDataFoundError] or [DataSourceError]; an empty cursor is raised as
    [NoDataFoundError]; else the frame is built with the columns of the
    provider.  The three strings are the site's own messages. *)
Definition check_and_drain (nodata_msg api_msg empty_msg : string)
    (rs : ResultData) : M DataFrame :=
  if negb (String.eqb (error_code rs) "0") then
    if no_record_found rs
    then raise (mk_exn NoDataFoundError (nodata_msg ++ error_msg rs))
    else raise (mk_exn DataSourceError (api_msg ++ with_code rs))
  else
    let data_list := drain rs in
    if is_nil data_list
    then raise (mk_exn NoDataFoundError empty_msg)
    else ret (mk_df (fields rs) data_list).

(** The two [except] clauses that close every fetch: a known error is
    raised again as it is, anything else is wrapped. *)
Definition reraise_known {A} (unknown_msg : string) (body : M A) : M A :=
  try_except body (fun _ => true)
    (fun e =>
       if is_known_error e then raise e
       else raise (mk_exn DataSourceError (unknown_msg ++ exn_str e))).

Definition _fetch_financial_data (p : provider)
    (bs_query_func : string -> string -> Z -> bs_query)
    (data_type_name code year : string) (quarter : Z) : M DataFrame :=
  let what := "未找到 " ++ code ++ " 在 " ++ year ++ "年Q" ++ str_of_Z quarter
              ++ " 的 " ++ data_type_name ++ " 数据" in
  reraise_known
    ("获取 " ++ data_type_name ++ " 数据时发生未知错误，代码 " ++ code ++ ": ")
    (baostock_login_context p
       (rs <- query p (bs_query_func code year quarter) ;;
        check_and_drain
          (what ++ "。Baostock 消息: ")
          ("获取 " ++ data_type_name ++ " 数据时 Baostock API 发生错误: ")
          (what ++ " (空结果集)。")
          rs)).

Definition _fetch_index_constituent_data (p : provider)
    (bs_query_func : option string -> bs_query)
    (index_name : string) (date : option string) : M DataFrame :=
  let what := "未找到日期为 " ++ fmt_opt date ++ " 的 " ++ index_name
              ++ " 成分股数据" in
  reraise_known
    ("获取 " ++ index_name ++ " 成分股时发生未知错误，日期 " ++ fmt_opt date ++ ": ")
    (baostock_login_context p
       (rs <- query p (bs_query_func date) ;;
        check_and_drain
          (what ++ "。Baostock 消息: ")
          ("获取 " ++ index_name ++ " 成分股时 Baostock API 发生错误: ")
          (what ++ " (空结果集)。")
          rs)).

(** The keyword arguments of [_fetch_macro_data] are part of
    [bs_query_func] here. *)
Definition _fetch_macro_data (p : provider)
    (bs_query_func : option string -> option string -> bs_query)
    (data_type_name : string) (start_date end_date : option string)
    : M DataFrame :=
  let what := "未找到符合条件的 " ++ data_type_name ++ " 数据" in
  reraise_known
    ("获取 " ++ data_type_name ++ " 数据时发生未知错误: ")
    (baostock_login_context p
       (rs <- query p (bs_query_func start_date end_date) ;;
        check_and_drain
          (what ++ "。Baostock 消息: ")
          ("获取 " ++ data_type_name ++ " 数据时 Baostock API 发生错误: ")
          (what ++ " (空结果集)。")
          rs)).

Definition _format_fields (fields : option (list pyval))
    (default_fields : list string) : outcome string :=
  match fields with
  | None | Some [] => Return (join "," default_fields)
  | Some fs =>
      if negb (forallb is_str fs)
      then Raise (mk_exn ValueError "字段列表中的所有项都必须是字符串。")
      else Return (join "," (map str_of_pyval fs))
  end.

Definition get_historical_k_data (p : provider)
    (code start_date end_date frequency adjust_flag : string)
    (fields : option (list pyval)) : M DataFrame :=
  let what := "在指定范围内未找到 " ++ code ++ " 的历史数据" in
  reraise_known
    ("为 " ++ code ++ " 获取K线数据时发生未知错误: ")
    (formatted_fields <- lift_outcome (_format_fields fields DEFAULT_K_FIELDS) ;;
     baostock_login_context p
       (rs <- query p (query_history_k_data_plus code formatted_fields
                         start_date end_date frequency adjust_flag) ;;
        check_and_drain
          (what ++ "。Baostock 消息: ")
          "获取K线数据时 Baostock API 发生错误: "
          (what ++ " (空结果集)。")
          rs)).

(** [col in result_df.columns] for an entry of the caller's list. *)
Definition available (df : DataFrame) (col : pyval) : option string :=
  match col with
  | PyStr s => if has_column df s then Some s else None
  | _ => None
  end.

Fixpoint available_cols (df : DataFrame) (fields : list pyval) : list string :=
  match fields with
  | [] => []
  | col :: rest =>
      match available df col with
      | Some s => s :: available_cols df rest
      | None => available_cols df rest
      end
  end.

Definition get_stock_basic_info (p : provider) (code : string)
    (fields : option (list pyval)) : M DataFrame :=
  let what := "未找到 " ++ code ++ " 的基本信息" in
  reraise_known
    ("获取 " ++ code ++ " 的基本信息时发生未知错误: ")
    (baostock_login_context p
       (rs <- query p (query_stock_basic code) ;;
        result_df <- check_and_drain
          (what ++ "。Baostock 消息: ")
          "获取基本信息时 Baostock API 发生错误: "
          (what ++ " (空结果集)。")
          rs ;;
        match fields with
        | None | Some [] => ret result_df
        | Some fs =>
            let cols := available_cols result_df fs in
            if is_nil cols
            then raise (mk_exn ValueError
                   ("请求的字段 " ++ repr_list fs ++ " 在基本信息结果中均不可用。"))
            else ret (df_select result_df cols)
        end)).

Definition get_dividend_data (p : provider) (code year year_type : string)
    : M DataFrame :=
  let what := "未找到 " ++ code ++ " 在 " ++ year ++ " 年的分红数据" in
  reraise_known
    ("获取 " ++ code ++ " 的分红数据时发生未知错误: ")
    (baostock_login_context p
       (rs <- query p (query_dividend_data code year year_type) ;;
        check_and_drain
          (what ++ "。Baostock 消息: ")
          "获取分红数据时 Baostock API 发生错误: "
          (what ++ " (空结果集)。")
          rs)).

Definition get_adjust_factor_data (p : provider)
    (code start_date end_date : string) : M DataFrame :=
  let what := "在指定范围内未找到 " ++ code ++ " 的复权因子数据" in
  reraise_known
    ("获取 " ++ code ++ " 的复权因子数据时发生未知错误: ")
    (baostock_login_context p
       (rs <- query p (query_adjust_factor code start_date end_date) ;;
        check_and_drain
          (what ++ "。Baostock 消息: ")
          "获取复权因子数据时 Baostock API 发生错误: "
          (what ++ " (空结果集)。")
          rs)).

Definition get_profit_data (p : provider) :=
  _fetch_financial_data p query_profit_data "盈利能力".
Definition get_operation_data (p : provider) :=
  _fetch_financial_data p query_operation_data "运营能力".
Definition get_growth_data (p : provider) :=
  _fetch_financial_data p query_growth_data "成长能力".
Definition get_balance_data (p : provider) :=
  _fetch_financial_data p query_balance_data "资产负债".
Definition get_cash_flow_data (p : provider) :=
  _fetch_financial_data p query_cash_flow_data "现金流量".
Definition get_dupont_data (p : provider) :=
  _fetch_financial_data p query_dupont_data "杜邦指数".

Definition get_performance_express_report (p : provider)
    (code start_date end_date : string) : M DataFrame :=
  let what := "在 " ++ start_date ++ "-" ++ end_date ++ " 范围内未找到 "
              ++ code ++ " 的业绩快报" in
  reraise_known
    ("获取 " ++ code ++ " 的业绩快报时发生未知错误: ")
    (baostock_login_context p
       (rs <- query p (query_performance_express_report code start_date end_date) ;;
        check_and_drain
          (what ++ "。Baostock 消息: ")
          "获取业绩快报时 Baostock API 发生错误: "
          (what ++ " (空结果集)。")
          rs)).

Definition get_forecast_report (p : provider)
    (code start_date end_date : string) : M DataFrame :=
  let what := "在 " ++ start_date ++ "-" ++ end_date ++ " 范围内未找到 "
              ++ code ++ " 的业绩预告" in
  reraise_known
    ("获取 " ++ code ++ " 的业绩预告时发生未知错误: ")
    (baostock_login_context p
       (rs <- query p (query_forecast_report code start_date end_date) ;;
        check_and_drain
          (what ++ "。Baostock 消息: ")
          "获取业绩预告时 Baostock API 发生错误: "
          (what ++ " (空结果集)。")
          rs)).

Definition get_stock_industry (p : provider) (code date : option string)
    : M DataFrame :=
  let who := fmt_opt code ++ ", " ++ fmt_opt date in
  let what := "未找到 " ++ who ++ " 的行业数据" in
  reraise_known
    ("获取 " ++ who ++ " 的行业数据时发生未知错误: ")
    (baostock_login_context p
       (rs <- query p (query_stock_industry code date) ;;
        check_and_drain
          (what ++ "。Baostock 消息: ")
          "获取行业数据时 Baostock API 发生错误: "
          (what ++ " (空结果集)。")
          rs)).

Definition get_sz50_stocks (p : provider) :=
  _fetch_index_constituent_data p query_sz50_stocks "上证50".
Definition get_hs300_stocks (p : provider) :=
  _fetch_index_constituent_data p query_hs300_stocks "沪深300".
Definition get_zz500_stocks (p : provider) :=
  _fetch_index_constituent_data p query_zz500_stocks "中证500".

(** The trading calendar fetch.  Its status test has one branch: every
    status other than ['0'] is raised as [DataSourceError]. *)
Definition get_trade_dates (p : provider) (start_date end_date : option string)
    : M DataFrame :=
  reraise_known
    "获取交易日时发生未知错误: "
    (baostock_login_context p
       (rs <- query p (query_trade_dates start_date end_date) ;;
        if negb (String.eqb (error_code rs) "0") then
          raise (mk_exn DataSourceError
                   ("获取交易日时 Baostock API 发生错误: " ++ with_code rs))
        else
          let data_list := drain rs in
          if is_nil data_list then
            raise (mk_exn NoDataFoundError
                     ("在 " ++ fmt_opt start_date ++ "-" ++ fmt_opt end_date
                      ++ " 范围内未找到交易日 (空结果集)。"))
          else ret (mk_df (fields rs) data_list))).

Definition get_all_stock (p : provider) (date : option string) : M DataFrame :=
  reraise_known
    ("为日期 " ++ fmt_opt date ++ " 获取全部股票列表时发生未知错误: ")
    (baostock_login_context p
       (rs <- query p (query_all_stock date) ;;
        check_and_drain
          ("未找到日期 " ++ fmt_opt date ++ " 的股票数据。Baostock 消息: ")
          "获取全部股票列表时 Baostock API 发生错误: "
          ("日期 " ++ fmt_opt date ++ " 未找到股票列表 (空结果集)。")
          rs)).

Definition get_deposit_rate_data (p : provider) :=
  _fetch_macro_data p query_deposit_rate_data "存款利率".
Definition get_loan_rate_data (p : provider) :=
  _fetch_macro_data p query_loan_rate_data "贷款利率".
Definition get_required_reserve_ratio_data (p : provider)
    (start_date end_date : option string) (year_type : string) :=
  _fetch_macro_data p
    (fun s e => query_required_reserve_ratio_data s e year_type)
    "存款准备金率" start_date end_date.
Definition get_money_supply_data_month (p : provider) :=
  _fetch_macro_data p query_money_supply_data_month "月度货币供应量".
Definition get_money_supply_data_year (p : provider) :=
  _fetch_macro_data p query_money_supply_data_year "年度货币供应量".

(** *** Every fetch method of the facade, with its arguments *)

Inductive fetch : Type :=
| Fetch_historical_k_data
    (code start_date end_date frequency adjust_flag : string)
    (fields : option (list pyval))
| Fetch_stock_basic_info (code : string) (fields : option (list pyval))
| Fetch_dividend_data (code year year_type : string)
| Fetch_adjust_factor_data (code start_date end_date : string)
| Fetch_profit_data (code year : string) (quarter : Z)
| Fetch_operation_data (code year : string) (quarter : Z)
| Fetch_growth_data (code year : string) (quarter : Z)
| Fetch_balance_data (code year : string) (quarter : Z)
| Fetch_cash_flow_data (code year : string) (quarter : Z)
| Fetch_dupont_data (code year : string) (quarter : Z)
| Fetch_performance_express_report (code start_date end_date : string)
| Fetch_forecast_report (code start_date end_date : string)
| Fetch_stock_industry (code date : option string)
| Fetch_sz50_stocks (date : option string)
| Fetch_hs300_stocks (date : option string)
| Fetch_zz500_stocks (date : option string)
| Fetch_trade_dates (start_date end_date : option string)
| Fetch_all_stock (date : option string)
| Fetch_deposit_rate_data (start_date end_date : option string)
| Fetch_loan_rate_data (start_date end_date : option string)
| Fetch_required_reserve_ratio_data
    (start_date end_date : option string) (year_type : string)
| Fetch_money_supply_data_month (start_date end_date : option string)
| Fetch_money_supply_data_year (start_date end_date : option string).

Definition run_fetch (p : provider) (f : fetch) : M DataFrame :=
  match f with
  | Fetch_historical_k_data c s e fr a fs => get_historical_k_data p c s e fr a fs
  | Fetch_stock_basic_info c fs => get_stock_basic_info p c fs
  | Fetch_dividend_data c y t => get_dividend_data p c y t
  | Fetch_adjust_factor_data c s e => get_adjust_factor_data p c s e
  | Fetch_profit_data c y q => get_profit_data p c y q
  | Fetch_operation_data c y q => get_operation_data p c y q
  | Fetch_growth_data c y q => get_growth_data p c y q
  | Fetch_balance_data c y q => get_balance_data p c y q
  | Fetch_cash_flow_data c y q => get_cash_flow_data p c y q
  | Fetch_dupont_data c y q => get_dupont_data p c y q
  | Fetch_performance_express_report c s e => get_performance_express_report p c s e
  | Fetch_forecast_report c s e => get_forecast_report p c s e
  | Fetch_stock_industry c d => get_stock_industry p c d
  | Fetch_sz50_stocks d => get_sz50_stocks p d
  | Fetch_hs300_stocks d => get_hs300_stocks p d
  | Fetch_zz500_stocks d => get_zz500_stocks p d
  | Fetch_trade_dates s e => get_trade_dates p s e
  | Fetch_all_stock d => get_all_stock p d
  | Fetch_deposit_rate_data s e => get_deposit_rate_data p s e
  | Fetch_loan_rate_data s e => get_loan_rate_data p s e
  | Fetch_required_reserve_ratio_data s e t => get_required_reserve_ratio_data p s e t
  | Fetch_money_supply_data_month s e => get_money_supply_data_month p s e
  | Fetch_money_supply_data_year s e => get_money_supply_data_year p s e
  end.

(** The request a fetch sends once its arguments pass its own checks. *)
Definition request_of (f : fetch) : option bs_query :=
  match f with
  | Fetch_historical_k_data c s e fr a fs =>
      match _format_fields fs DEFAULT_K_FIELDS with
      | Return ff => Some (query_history_k_data_plus c ff s e fr a)
      | Raise _ => None
      end
  | Fetch_stock_basic_info c _ => Some (query_stock_basic c)
  | Fetch_dividend_data c y t => Some (query_dividend_data c y t)
  | Fetch_adjust_factor_data c s e => Some (query_adjust_factor c s e)
  | Fetch_profit_data c y q => Some (query_profit_data c y q)
  | Fetch_operation_data c y q => Some (query_operation_data c y q)
  | Fetch_growth_data c y q => Some (query_growth_data c y q)
  | Fetch_balance_data c y q => Some (query_balance_data c y q)
  | Fetch_cash_flow_data c y q => Some (query_cash_flow_data c y q)
  | Fetch_dupont_data c y q => Some (query_dupont_data c y q)
  | Fetch_performance_express_report c s e =>
      Some (query_performance_express_report c s e)
  | Fetch_forecast_report c s e => Some (query_forecast_report c s e)
  | Fetch_stock_industry c d => Some (query_stock_industry c d)
  | Fetch_sz50_stocks d => Some (query_sz50_stocks d)
  | Fetch_hs300_stocks d => Some (query_hs300_stocks d)
  | Fetch_zz500_stocks d => Some (query_zz500_stocks d)
  | Fetch_trade_dates s e => Some (query_trade_dates s e)
  | Fetch_all_stock d => Some (query_all_stock d)
  | Fetch_deposit_rate_data s e => Some (query_deposit_rate_data s e)
  | Fetch_loan_rate_data s e => Some (query_loan_rate_data s e)
  | Fetch_required_reserve_ratio_data s e t =>
      Some (query_required_reserve_ratio_data s e t)
  | Fetch_money_supply_data_month s e => Some (query_money_supply_data_month s e)
  | Fetch_money_supply_data_year s e => Some (query_money_supply_data_year s e)
  end.

Definition is_trade_dates (f : fetch) : bool :=
  match f with Fetch_trade_dates _ _ => true | _ => false end.

(* ===================================================================== *)
(** ** Dates: the parts of [datetime] and [calendar] the tools use *)

Definition MINYEAR : Z := 1.
Definition MAXYEAR : Z := 9999.

Definition is_leap (y : Z) : bool :=
  (y mod 4 =? 0) && (negb (y mod 100 =? 0) || (y mod 400 =? 0)).

(** [calendar.monthrange(y, m)[1]] for [m] in 1..12. *)
Definition days_in_month (y m : Z) : Z :=
  if m =? 2 then (if is_leap y then 29 else 28)
  else if (m =? 4) || (m =? 6) || (m =? 9) || (m =? 11) then 30
  else 31.

Definition valid_date (d : date) : bool :=
  (MINYEAR <=? year d) && (year d <=? MAXYEAR)
  && (1 <=? month d) && (month d <=? 12)
  && (1 <=? day d) && (day d <=? days_in_month (year d) (month d)).

(** [datetime(y, m, d)] *)
Definition datetime (y m d : Z) : outcome date :=
  if negb ((MINYEAR <=? y) && (y <=? MAXYEAR))
  then Raise (mk_exn ValueError ("year " ++ str_of_Z y ++ " is out of range"))
  else if negb ((1 <=? m) && (m <=? 12))
  then Raise (mk_exn ValueError "month must be in 1..12")
  else if negb ((1 <=? d) && (d <=? days_in_month y m))
  then Raise (mk_exn ValueError "day is out of range for month")
  else Return (mk_date y m d).

(** [d.replace(day=n)] *)
Definition replace_day (d : date) (n : Z) : outcome date :=
  datetime (year d) (month d) n.

(** [d.strftime("%Y-%m-%d")] *)
Definition strftime (d : date) : string :=
  fmt_04d (year d) ++ "-" ++ fmt_02d (month d) ++ "-" ++ fmt_02d (day d).

(** The proleptic Gregorian ordinal of a date, 0001-01-01 being day 1. *)
Definition days_before_year (y : Z) : Z :=
  let y1 := y - 1 in y1 * 365 + y1 / 4 - y1 / 100 + y1 / 400.

Fixpoint days_before_month_nat (y : Z) (m : nat) : Z :=
  match m with
  | O => 0
  | S m' => days_before_month_nat y m' + days_in_month y (Z.of_nat m)
  end.

Definition days_before_month (y m : Z) : Z :=
  days_before_month_nat y (Z.to_nat (m - 1)).

Definition ymd2ord (d : date) : Z :=
  days_before_year (year d) + days_before_month (year d) (month d) + day d.

Definition DI400Y : Z := 146097.
Definition DI100Y : Z := 36524.
Definition DI4Y : Z := 1461.
Definition MAXORDINAL : Z := 3652059.

(** The month and day of the [n]-th day (from 0) of a year. *)
Fixpoint month_day_of (y : Z) (fuel : nat) (m n : Z) : Z * Z :=
  match fuel with
  | O => (m, n + 1)
  | S fuel' =>
      let dim := days_in_month y m in
      if n <? dim then (m, n + 1) else month_day_of y fuel' (m + 1) (n - dim)
  end.

Definition ord2ymd (ordinal : Z) : date :=
  let n := ordinal - 1 in
  let n400 := n / DI400Y in
  let n := n mod DI400Y in
  let n100 := n / DI100Y in
  let n := n mod DI100Y in
  let n4 := n / DI4Y in
  let n := n mod DI4Y in
  let n1 := n / 365 in
  let n := n mod 365 in
  let y := n400 * 400 + 1 + n100 * 100 + n4 * 4 + n1 in
  if (n1 =? 4) || (n100 =? 4) then mk_date (y - 1) 12 31
  else let (m, d) := month_day_of y 11 1 n in mk_date y m d.

(** [d + timedelta(days=n)] *)
Definition add_days (d : date) (n : Z) : outcome date :=
  let o := ymd2ord d + n in
  if (1 <=? o) && (o <=? MAXORDINAL) then Return (ord2ymd o)
  else Raise (mk_exn OverflowError "date value out of range").

Definition digit_val (c : ascii) : Z := Z.of_nat (nat_of_ascii c) - 48.

Definition in_range (c : ascii) (lo hi : Z) : bool :=
  is_digit c && (lo <=? digit_val c) && (digit_val c <=? hi).

(** The directive [%Y]: four digits. *)
Definition parse_Y (s : string) : option (Z * string) :=
  match s with
  | String a (String b (String c (String d rest))) =>
      if is_digit a && is_digit b && is_digit c && is_digit d
      then Some (1000 * digit_val a + 100 * digit_val b
                 + 10 * digit_val c + digit_val d, rest)
      else None
  | _ => None
  end.

(** The directive [%m]: [1[0-2]|0[1-9]|[1-9]]. *)
Definition parse_m (s : string) : option (Z * string) :=
  match s with
  | String a rest =>
      let two :=
        match rest with
        | String b rest' =>
            if Ascii.eqb a "1" && in_range b 0 2
            then Some (10 + digit_val b, rest')
            else if Ascii.eqb a "0" && in_range b 1 9
            then Some (digit_val b, rest')
            else None
        | EmptyString => None
        end in
      match two with
      | Some r => Some r
      | None => if in_range a 1 9 then Some (digit_val a, rest) else None
      end
  | EmptyString => None
  end.

(** The directive [%d]: [3[0-1]|[1-2]\d|0[1-9]|[1-9]| [1-9]]. *)
Definition parse_d (s : string) : option (Z * string) :=
  match s with
  | String a rest =>
      let two :=
        match rest with
        | String b rest' =>
            if Ascii.eqb a "3" && in_range b 0 1
            then Some (30 + digit_val b, rest')
            else if in_range a 1 2 && is_digit b
            then Some (10 * digit_val a + digit_val b, rest')
            else if Ascii.eqb a "0" && in_range b 1 9
            then Some (digit_val b, rest')
            else None
        | EmptyString => None
        end in
      match two with
      | Some r => Some r
      | None =>
          if in_range a 1 9 then Some (digit_val a, rest)
          else
            match rest with
            | String b rest' =>
                if Ascii.eqb a " " && in_range b 1 9
                then Some (digit_val b, rest') else None
            | EmptyString => None
            end
      end
  | EmptyString => None
  end.

Definition expect_dash (s : string) : option string :=
  match s with
  | String c rest => if Ascii.eqb c "-" then Some rest else None
  | EmptyString => None
  end.

Definition match_ymd (s : string) : option (Z * Z * Z * string) :=
  match parse_Y s with
  | None => None
  | Some (y, s1) =>
      match expect_dash s1 with
      | None => None
      | Some s2 =>
          match parse_m s2 with
          | None => None
          | Some (m, s3) =>
              match expect_dash s3 with
              | None => None
              | Some s4 =>
                  match parse_d s4 with
                  | None => None
                  | Some (d, rest) => Some (y, m, d, rest)
                  end
              end
          end
      end
  end.

(** [datetime.strptime(s, "%Y-%m-%d")] *)
Definition strptime (s : string) : outcome date :=
  match match_ymd s with
  | None =>
      Raise (mk_exn ValueError
               ("time data " ++ repr (PyStr s)
                ++ " does not match format '%Y-%m-%d'"))
  | Some (y, m, d, rest) =>
      if negb (String.eqb rest "")
      then Raise (mk_exn ValueError ("unconverted data remains: " ++ rest))
      else datetime y m d
  end.

(* ===================================================================== *)
(** ** [src/tools/date_utils.py]: the trading calendar tools *)

(** The data source the calendar tools are registered with: the one method
    of [FinancialDataSource] they call.  The result is [None] where an
    implementation returns Python's [None]. *)
Record FinancialDataSource : Type := mk_ds {
  ds_get_trade_dates : option string -> option string -> M (option DataFrame)
}.

Definition BaostockDataSource (p : provider) : FinancialDataSource :=
  mk_ds (fun s e => df <- get_trade_dates p s e ;; ret (Some df)).

Definition error_prefix : string := "错误: ".
Definition YES : string := "是".
Definition NO : string := "否".

(** [df[name]] fails with [KeyError] for a name that is no column. *)
Definition key_error (name : string) : exn :=
  mk_exn KeyError (repr (PyStr name)).

Definition none_not_subscriptable : exn :=
  mk_exn OtherError "'NoneType' object is not subscriptable".

(** [df[df['is_trading_day'] == '1']['calendar_date'].tolist()] *)
Definition flagged_dates (df : option DataFrame) : outcome (list string) :=
  match df with
  | None => Raise none_not_subscriptable
  | Some df =>
      if negb (has_column df "is_trading_day")
      then Raise (key_error "is_trading_day")
      else
        let sel := filter (fun row => String.eqb (cell df "is_trading_day" row) "1")
                          (df_rows df) in
        if negb (has_column df "calendar_date")
        then Raise (key_error "calendar_date")
        else Return (map (cell df "calendar_date") sel)
  end.

(** One turn of the loop over [valid_trading_days]. *)
Definition latest_step (today : string) (latest : option string) (dstr : string)
  : option string :=
  if String.leb dstr today
     && match latest with
        | None => true
        | Some l => String.ltb l dstr
        end
  then Some dstr else latest.

Definition get_latest_trading_date (ds : FinancialDataSource) : M string :=
  try_except
    (now <- datetime_now ;;
     let today := strftime now in
     now1 <- datetime_now ;;
     first <- lift_outcome (replace_day now1 1) ;;
     let start_date := strftime first in
     now2 <- datetime_now ;;
     twenty_eighth <- lift_outcome (replace_day now2 28) ;;
     let end_date := strftime twenty_eighth in
     df <- ds_get_trade_dates ds (Some start_date) (Some end_date) ;;
     valid_trading_days <- lift_outcome (flagged_dates df) ;;
     let latest_trading_date :=
       fold_left (latest_step today) valid_trading_days None in
     match latest_trading_date with
     | Some l => if String.eqb l "" then ret today else ret l
     | None => ret today
     end)
    (fun _ => true)
    (fun _ => now <- datetime_now ;; ret (strftime now)).

(** The column holding the flag, and the one holding the day. *)
Definition flag_col (df : DataFrame) : string :=
  if has_column df "is_trading_day" then "is_trading_day" else last_column df.
Definition day_col (df : DataFrame) : string :=
  if has_column df "calendar_date" then "calendar_date" else first_column df.

Definition is_trading_day (ds : FinancialDataSource) (date : string) : M string :=
  try_except
    (df <- ds_get_trade_dates ds (Some date) (Some date) ;;
     match df with
     | None => ret NO
     | Some df =>
         if df_empty df then ret NO
         else
           let val := cell df (flag_col df) (hd [] (df_rows df)) in
           ret (if String.eqb val "1" then YES else NO)
     end)
    (fun _ => true)
    (fun e => ret (error_prefix ++ exn_str e)).

(** [df.sort_values(by=col)]: the rows in ascending order of the cell. *)
Fixpoint insert_by (key : list string -> string) (row : list string)
    (l : list (list string)) : list (list string) :=
  match l with
  | [] => [row]
  | r :: l' =>
      if String.leb (key row) (key r) then row :: l
      else r :: insert_by key row l'
  end.

Definition sort_rows (key : list string -> string) (l : list (list string))
  : list (list string) :=
  fold_right (insert_by key) [] l.

(** The rows [df[(df[flag_col] == '1') & (df[day_col] < date)]] and
    [df[(df[flag_col] == '1') & (df[day_col] > date)]]. *)
Definition rows_before (df : DataFrame) (date : string) : list (list string) :=
  filter (fun row => String.eqb (cell df (flag_col df) row) "1"
                     && String.ltb (cell df (day_col df) row) date)
         (df_rows df).

Definition rows_after (df : DataFrame) (date : string) : list (list string) :=
  filter (fun row => String.eqb (cell df (flag_col df) row) "1"
                     && String.ltb date (cell df (day_col df) row))
         (df_rows df).

Definition previous_trading_day (ds : FinancialDataSource) (date : string)
  : M string :=
  try_except
    (d <- lift_outcome (strptime date) ;;
     start_d <- lift_outcome (add_days d (-30)) ;;
     let start := strftime start_d in
     let end_ := date in
     df <- ds_get_trade_dates ds (Some start) (Some end_) ;;
     match df with
     | None => ret date
     | Some df =>
         if df_empty df then ret date
         else
           let candidates :=
             sort_rows (cell df (day_col df)) (rows_before df date) in
           if is_nil candidates then ret date
           else ret (cell df (day_col df) (last candidates []))
     end)
    (fun _ => true)
    (fun e => ret (error_prefix ++ exn_str e)).

Definition next_trading_day (ds : FinancialDataSource) (date : string)
  : M string :=
  try_except
    (d <- lift_outcome (strptime date) ;;
     let start := date in
     end_d <- lift_outcome (add_days d 30) ;;
     let end_ := strftime end_d in
     df <- ds_get_trade_dates ds (Some start) (Some end_) ;;
     match df with
     | None => ret date
     | Some df =>
         if df_empty df then ret date
         else
           let candidates :=
             sort_rows (cell df (day_col df)) (rows_after df date) in
           if is_nil candidates then ret date
           else ret (cell df (day_col df) (hd [] candidates))
     end)
    (fun _ => true)
    (fun e => ret (error_prefix ++ exn_str e)).

(** *** [get_market_analysis_timeframe] *)

(** The chain of tests on [period]: the first day of the start month and
    of the middle month. *)
Definition timeframe_months (now : date) (period : string)
  : outcome (date * date) :=
  let same (r : outcome date) : outcome (date * date) :=
    match r with Return d => Return (d, d) | Raise e => Raise e end in
  let both (r1 r2 : outcome date) : outcome (date * date) :=
    match r1 with
    | Raise e => Raise e
    | Return d1 =>
        match r2 with Return d2 => Return (d1, d2) | Raise e => Raise e end
    end in
  if String.eqb period "recent" then
    if day now <? 15 then
      if month now =? 1 then
        both (datetime (year now - 1) 11 1) (datetime (year now - 1) 12 1)
      else if month now =? 2 then
        same (datetime (year now) 1 1)
      else
        both (datetime (year now) (month now - 2) 1)
             (datetime (year now) (month now - 1) 1)
    else
      if month now =? 1 then same (datetime (year now - 1) 12 1)
      else same (datetime (year now) (month now - 1) 1)
  else if String.eqb period "quarter" then
    same (if month now <=? 3
          then datetime (year now - 1) (month now + 9) 1
          else datetime (year now) (month now - 3) 1)
  else if String.eqb period "half_year" then
    match (if month now <=? 6
           then datetime (year now - 1) (month now + 6) 1
           else datetime (year now) (month now - 6) 1) with
    | Raise e => Raise e
    | Return start_date =>
        both (Return start_date)
             (if month start_date <=? 9
              then datetime (year start_date) (month start_date + 3) 1
              else datetime (year start_date + 1) (month start_date - 9) 1)
    end
  else if String.eqb period "year" then
    match datetime (year now - 1) (month now) 1 with
    | Raise e => Raise e
    | Return start_date =>
        both (Return start_date)
             (if month start_date <=? 6
              then datetime (year start_date) (month start_date + 6) 1
              else datetime (year start_date + 1) (month start_date - 6) 1)
    end
  else
    same (if month now =? 1
          then datetime (year now - 1) 12 1
          else datetime (year now) (month now - 1) 1).

Definition get_month_end_day (y m : Z) : Z := days_in_month y m.

(** [min(get_month_end_day(end_date.year, end_date.month), end_date.day)] *)
Definition end_day (end_date : date) : Z :=
  Z.min (get_month_end_day (year end_date) (month end_date)) (day end_date).

Definition end_iso_date (end_date : date) : string :=
  str_of_Z (year end_date) ++ "-" ++ fmt_02d (month end_date) ++ "-"
  ++ fmt_02d (end_day end_date).

Definition start_iso_date (start_date : date) : string :=
  str_of_Z (year start_date) ++ "-" ++ fmt_02d (month start_date) ++ "-01".

Definition date_range (start_date middle_date end_date : date) : string :=
  let Y := "年" in
  let Mo := "月" in
  if negb (year start_date =? year end_date) then
    str_of_Z (year start_date) ++ Y ++ str_of_Z (month start_date) ++ Mo ++ "-"
    ++ str_of_Z (year end_date) ++ Y ++ str_of_Z (month end_date) ++ Mo
  else if negb (month middle_date =? month start_date)
          && negb (month middle_date =? month end_date) then
    str_of_Z (year start_date) ++ Y ++ str_of_Z (month start_date) ++ Mo ++ "-"
    ++ str_of_Z (month middle_date) ++ Mo ++ "-"
    ++ str_of_Z (month end_date) ++ Mo
  else if negb (month start_date =? month end_date) then
    str_of_Z (year start_date) ++ Y ++ str_of_Z (month start_date) ++ Mo ++ "-"
    ++ str_of_Z (month end_date) ++ Mo
  else
    str_of_Z (year start_date) ++ Y ++ str_of_Z (month start_date) ++ Mo.

(** The function at a given reading [now] of the clock. *)
Definition market_analysis_timeframe_at (now : date) (period : string)
  : outcome string :=
  let end_date := now in
  match timeframe_months now period with
  | Raise e => Raise e
  | Return (start_date, middle_date) =>
      Return (date_range start_date middle_date end_date
              ++ " (ISO: " ++ start_iso_date start_date
              ++ " to " ++ end_iso_date end_date ++ ")")
  end.

Definition get_market_analysis_timeframe (period : string) : M string :=
  now <- datetime_now ;;
  lift_outcome (market_analysis_timeframe_at now period).

(* ===================================================================== *)
(** ** [src/tools/base.py] and [src/tools/financial_reports.py] *)

Section BaseTools.

(** The formatter of [src/formatting/markdown_formatter.py], which renders
    a frame for display: [format_table_output(df, format=, max_rows=,
    meta=)]. *)
Variable format_table_output :
  DataFrame -> string -> Z -> list (string * pyval) -> outcome string.

Definition call_financial_data_tool (tool_name : string)
    (data_source_method : string -> string -> Z -> M DataFrame)
    (data_type_name code year : string) (quarter : Z)
    (limit : Z) (format : string) : M string :=
  try_except
    (if negb (isdigit year) || negb (len year =? 4) then
       ret ("错误: 无效的年份 '" ++ year ++ "'。请输入4位数字的年份。")
     else if negb ((1 <=? quarter) && (quarter <=? 4)) then
       ret ("错误: 无效的季度 '" ++ str_of_Z quarter ++ "'。必须在 1 到 4 之间。")
     else
       df <- data_source_method code year quarter ;;
       let meta := [("code", PyStr code); ("year", PyStr year);
                    ("quarter", PyInt quarter);
                    ("dataset", PyStr data_type_name)] in
       lift_outcome (format_table_output df format limit meta))
    (fun _ => true)
    (fun e =>
       match exn_cls e with
       | NoDataFoundError => ret ("错误: " ++ exn_str e)
       | LoginError => ret ("错误: 无法连接到数据源。" ++ exn_str e)
       | DataSourceError => ret ("错误: 获取数据时发生错误。" ++ exn_str e)
       | ValueError => ret ("错误: 无效的输入参数。" ++ exn_str e)
       | _ => ret ("错误: 发生意外错误: " ++ exn_str e)
       end).

(** The six periodic-report tools, registered against the facade of a
    provider. *)
Inductive report_tool : Type :=
| Tool_get_profit_data
| Tool_get_operation_data
| Tool_get_growth_data
| Tool_get_balance_data
| Tool_get_cash_flow_data
| Tool_get_dupont_data.

Definition run_report_tool (p : provider) (t : report_tool)
    (code year : string) (quarter limit : Z) (format : string) : M string :=
  match t with
  | Tool_get_profit_data =>
      call_financial_data_tool "get_profit_data" (get_profit_data p)
        "盈利能力" code year quarter limit format
  | Tool_get_operation_data =>
      call_financial_data_tool "get_operation_data" (get_operation_data p)
        "运营能力" code year quarter limit format
  | Tool_get_growth_data =>
      call_financial_data_tool "get_growth_data" (get_growth_data p)
        "成长能力" code year quarter limit format
  | Tool_get_balance_data =>
      call_financial_data_tool "get_balance_data" (get_balance_data p)
        "资产负债" code year quarter limit format
  | Tool_get_cash_flow_data =>
      call_financial_data_tool "get_cash_flow_data" (get_cash_flow_data p)
        "现金流量" code year quarter limit format
  | Tool_get_dupont_data =>
      call_financial_data_tool "get_dupont_data" (get_dupont_data p)
        "杜邦分析" code year quarter limit format
  end.

End BaseTools.

(* ===================================================================== *)
(** ** [src/tools/helpers.py]: [normalize_stock_code] *)

(** [(?i)(sh|sz)] on two characters. *)
Definition is_exchange (a b : ascii) : bool :=
  Ascii.eqb (lower_ascii a) "s"
  && (Ascii.eqb (lower_ascii b) "h" || Ascii.eqb (lower_ascii b) "z").

(** [\d{6}] on a whole string. *)
Definition six_digits (s : string) : bool :=
  Nat.eqb (String.length s) 6 && all_chars is_digit s.

(** [[\.]?] at the head of a string: what is left after it. *)
Definition skip_dot (s : string) : string :=
  match s with
  | String c rest => if Ascii.eqb c "." then rest else s
  | EmptyString => s
  end.

(** [re.fullmatch(r"(?i)(sh|sz)[\.]?(\d{6})", raw)]: groups 1 and 2. *)
Definition fullmatch_ex_num (raw : string) : option (string * string) :=
  match raw with
  | String a (String b rest) =>
      if is_exchange a b && six_digits (skip_dot rest)
      then Some (String a (String b EmptyString), skip_dot rest)
      else None
  | _ => None
  end.

(** [re.fullmatch(r"(\d{6})[\.]?(?i)(sh|sz)", raw)] where the engine takes
    the flag as one of the whole pattern: groups 1 and 2. *)
Definition fullmatch_num_ex (raw : string) : option (string * string) :=
  let num := substring 0 6 raw in
  let rest := substring 6 (String.length raw - 6) raw in
  if six_digits num then
    match skip_dot rest with
    | String a (String b EmptyString) =>
        if is_exchange a b
        then Some (num, String a (String b EmptyString))
        else None
    | _ => None
    end
  else None.

(** What [re] raises for that pattern when it refuses a global flag that
    is not at the start of the expression (Python 3.11 and later). *)
Definition global_flags_error : exn :=
  mk_exn ReError "global flags not at the start of the expression at position 12".

(** [strict_flags] tells which of the two engines runs the function. *)
Definition normalize_stock_code (strict_flags : bool) (code : string) : string :=
  let raw := strip code in
  if String.eqb raw "" then "错误: 'code' 是必需的。"
  else
    match fullmatch_ex_num raw with
    | Some (g1, g2) => lower g1 ++ "." ++ g2
    | None =>
        if strict_flags then error_prefix ++ exn_str global_flags_error
        else
          match fullmatch_num_ex raw with
          | Some (g1, g2) => lower g2 ++ "." ++ g1
          | None =>
              if six_digits raw then
                (if startswith raw "6" then "sh" else "sz") ++ "." ++ raw
              else "错误: 不支持的代码格式。示例: 'sh.600000', '600000', '000001.SZ'。"
          end
    end.

(** An error string of the tools: it opens with the marker. *)
Definition is_error_message (s : string) : bool := String.prefix error_prefix s.

(** [sh.] or [sz.] and six digits. *)
Definition is_normalized (s : string) : Prop :=
  exists ex num,
    s = ex ++ "." ++ num /\ (ex = "sh" \/ ex = "sz") /\ six_digits num = true.

(* ===================================================================== *)
(** ** [src/tools/helpers.py]: [normalize_stock_code] on code points

    The function once more, on the code points of its argument, with the
    character classes that [str.strip], [str.lower] and [re] have outside
    ASCII.  What it returns is written in UTF-8, as every string of this
    file. *)

(** [ch.isspace()]: the characters that [str.strip()] takes off. *)
Definition py_isspace (c : Z) : bool :=
  ((9 <=? c) && (c <=? 13)) || ((28 <=? c) && (c <=? 32))
  || (c =? 133) || (c =? 160) || (c =? 5760)
  || ((8192 <=? c) && (c <=? 8202))
  || (c =? 8232) || (c =? 8233) || (c =? 8239) || (c =? 8287) || (c =? 12288).

(** The decimal digits, which [\d] matches in a pattern on [str]: the
    ranges of the category Nd of Unicode 14.0. *)
Definition decimal_ranges : list (Z * Z) :=
  [(48, 57); (1632, 1641); (1776, 1785); (1984, 1993); (2406, 2415);
   (2534, 2543); (2662, 2671); (2790, 2799); (2918, 2927); (3046, 3055);
   (3174, 3183); (3302, 3311); (3430, 3439); (3558, 3567); (3664, 3673);
   (3792, 3801); (3872, 3881); (4160, 4169); (4240, 4249); (6112, 6121);
   (6160, 6169); (6470, 6479); (6608, 6617); (6784, 6793); (6800, 6809);
   (6992, 7001); (7088, 7097); (7232, 7241); (7248, 7257); (42528, 42537);
   (43216, 43225); (43264, 43273); (43472, 43481); (43504, 43513);
   (43600, 43609); (44016, 44025); (65296, 65305); (66720, 66729);
   (68912, 68921); (69734, 69743); (69872, 69881); (69942, 69951);
   (70096, 70105); (70384, 70393); (70736, 70745); (70864, 70873);
   (71248, 71257); (71360, 71369); (71472, 71481); (71904, 71913);
   (72016, 72025); (72784, 72793); (73040, 73049); (73120, 73129);
   (92768, 92777); (92864, 92873); (93008, 93017); (120782, 120831);
   (123200, 123209); (123632, 123641); (125264, 125273); (130032, 130041)].

Definition re_digit (c : Z) : bool :=
  existsb (fun r => (fst r <=? c) && (c <=? snd r)) decimal_ranges.

(** What [(?i)] lets match the letters [s], [h] and [z] of a pattern: the
    letter in either case, and for [s] the long s, U+017F. *)
Definition matches_s (c : Z) : bool := (c =? 115) || (c =? 83) || (c =? 383).
Definition matches_h (c : Z) : bool := (c =? 104) || (c =? 72).
Definition matches_z (c : Z) : bool := (c =? 122) || (c =? 90).

(** [.lower()] on a character that matched one of these letters: a
    capital becomes small, the long s stays. *)
Definition lower_matched (c : Z) : Z :=
  if (65 <=? c) && (c <=? 90) then c + 32 else c.

Definition byte (n : Z) : ascii := ascii_of_nat (Z.to_nat n).

(** The UTF-8 bytes of a code point. *)
Definition utf8_char (c : Z) : string :=
  if c <? 128 then String (byte c) EmptyString
  else if c <? 2048 then
    String (byte (192 + c / 64)) (String (byte (128 + c mod 64)) EmptyString)
  else if c <? 65536 then
    String (byte (224 + c / 4096))
      (String (byte (128 + (c / 64) mod 64))
         (String (byte (128 + c mod 64)) EmptyString))
  else
    String (byte (240 + c / 262144))
      (String (byte (128 + (c / 4096) mod 64))
         (String (byte (128 + (c / 64) mod 64))
            (String (byte (128 + c mod 64)) EmptyString))).

Fixpoint utf8 (l : list Z) : string :=
  match l with
  | [] => EmptyString
  | c :: l' => utf8_char c ++ utf8 l'
  end.

Fixpoint lstrip_points (l : list Z) : list Z :=
  match l with
  | [] => []
  | c :: l' => if py_isspace c then lstrip_points l' else l
  end.

Fixpoint rstrip_points (l : list Z) : list Z :=
  match l with
  | [] => []
  | c :: l' =>
      match rstrip_points l' with
      | [] => if py_isspace c then [] else [c]
      | r => c :: r
      end
  end.

Definition strip_points (l : list Z) : list Z := rstrip_points (lstrip_points l).

(** [\d{6}] on a whole string. *)
Definition six_decimals (l : list Z) : bool :=
  Nat.eqb (List.length l) 6 && forallb re_digit l.

(** [[\.]?] at the head of a string: what is left after it. *)
Definition skip_dot_points (l : list Z) : list Z :=
  match l with
  | c :: rest => if c =? 46 then rest else l
  | [] => l
  end.

(** [re.fullmatch(r"(?i)(sh|sz)[\.]?(\d{6})", raw)]: groups 1 and 2. *)
Definition fullmatch_ex_num_points (raw : list Z) : option (list Z * list Z) :=
  match raw with
  | a :: b :: rest =>
      if matches_s a && (matches_h b || matches_z b)
         && six_decimals (skip_dot_points rest)
      then Some ([a; b], skip_dot_points rest)
      else None
  | _ => None
  end.

(** [re.fullmatch(r"(\d{6})[\.]?(?i)(sh|sz)", raw)] on the engine that
    takes the flag: groups 1 and 2. *)
Definition fullmatch_num_ex_points (raw : list Z) : option (list Z * list Z) :=
  let num := firstn 6 raw in
  let rest := skipn 6 raw in
  if six_decimals num then
    match skip_dot_points rest with
    | [a; b] =>
        if matches_s a && (matches_h b || matches_z b)
        then Some (num, [a; b])
        else None
    | _ => None
    end
  else None.

Definition normalize_stock_code_points (strict_flags : bool) (code : list Z)
  : string :=
  let raw := strip_points code in
  if is_nil raw then "错误: 'code' 是必需的。"
  else
    match fullmatch_ex_num_points raw with
    | Some (g1, g2) => utf8 (map lower_matched g1) ++ "." ++ utf8 g2
    | None =>
        if strict_flags then error_prefix ++ exn_str global_flags_error
        else
          match fullmatch_num_ex_points raw with
          | Some (g1, g2) => utf8 (map lower_matched g2) ++ "." ++ utf8 g1
          | None =>
              if six_decimals raw then
                (if hd 0 raw =? 54 then "sh" else "sz") ++ "." ++ utf8 raw
              else "错误: 不支持的代码格式。示例: 'sh.600000', '600000', '000001.SZ'。"
          end
    end.

(** The code points of a string in ASCII. *)
Fixpoint points (s : string) : list Z :=
  match s with
  | EmptyString => []
  | String c s' => Z.of_nat (nat_of_ascii c) :: points s'
  end.

(* ===================================================================== *)
(** ** [src/tools]: the tools over the facade *)

(** A value of the [meta] dictionary handed to the formatter: a plain
    value, or the dictionary of the keyword arguments passed on. *)
Inductive meta_value : Type :=
| Plain (v : pyval)
| Dict (d : list (string * string)).

Definition plain (meta : list (string * pyval)) : list (string * meta_value) :=
  map (fun kv => (fst kv, Plain (snd kv))) meta.

(** [x or default] for an optional string. *)
Definition or_else (x : option string) (default : string) : string :=
  match x with
  | Some s => if String.eqb s "" then default else s
  | None => default
  end.

(** An optional string as a Python value. *)
Definition opt_val (x : option string) : pyval :=
  match x with Some s => PyStr s | None => PyNone end.

(** [x in l] for strings. *)
Definition str_in (x : string) (l : list string) : bool :=
  existsb (String.eqb x) l.

(** [df.shape[0]] *)
Definition shape0 (df : DataFrame) : Z := Z.of_nat (List.length (df_rows df)).

(** [df[df[col] == value]] *)
Definition df_where_eq (df : DataFrame) (col value : string) : DataFrame :=
  mk_df (columns df)
        (filter (fun row => String.eqb (cell df col row) value) (df_rows df)).

(** [drop_duplicates()]: of equal rows the first is kept. *)
Fixpoint drop_seen (seen rows : list (list string)) : list (list string) :=
  match rows with
  | [] => []
  | r :: rest =>
      if in_dec (list_eq_dec string_dec) r seen then drop_seen seen rest
      else r :: drop_seen (r :: seen) rest
  end.

Definition drop_duplicates (df : DataFrame) : DataFrame :=
  mk_df (columns df) (drop_seen [] (df_rows df)).

(** [sort_values(by=col)] on strings. *)
Definition sort_values (df : DataFrame) (col : string) : DataFrame :=
  mk_df (columns df) (sort_rows (cell df col) (df_rows df)).

(** [rename(columns={old: new})] *)
Definition rename (df : DataFrame) (old new : string) : DataFrame :=
  mk_df (map (fun c => if String.eqb c old then new else c) (columns df))
        (df_rows df).

(** The [except] clauses of a tool that tells the classes of errors
    apart, in their order; the wording for [ValueError] is the tool's. *)
Definition except_by_class (value_error : string) (e : exn) : M string :=
  match exn_cls e with
  | NoDataFoundError => ret ("错误: " ++ exn_str e)
  | LoginError => ret ("错误: 无法连接到数据源。" ++ exn_str e)
  | DataSourceError => ret ("错误: 获取数据时发生错误。" ++ exn_str e)
  | ValueError => ret (value_error ++ exn_str e)
  | _ => ret ("错误: 发生意外错误: " ++ exn_str e)
  end.

(** The single clause [except Exception] of the other tools. *)
Definition except_any (e : exn) : M string :=
  ret ("错误: 发生意外错误: " ++ exn_str e).

(** A method of the facade as the helper for the macroeconomic tools calls
    it: [method(start_date=, end_date=, **kwargs)]. *)
Definition macro_method : Type :=
  option string -> option string -> list (string * string) -> M DataFrame.

(** The [TypeError] of a call with a keyword that is no parameter of the
    function called, in the words of Python 3.10 and later. *)
Definition unexpected_keyword (qualname key : string) : exn :=
  mk_exn OtherError
    (qualname ++ "() got an unexpected keyword argument '" ++ key ++ "'").

(** A method whose parameters are [start_date] and [end_date]. *)
Definition dates_only (qualname : string)
    (method : option string -> option string -> M DataFrame) : macro_method :=
  fun start_date end_date kwargs =>
    match kwargs with
    | [] => method start_date end_date
    | (key, _) :: _ => raise (unexpected_keyword qualname key)
    end.

(** [BaostockDataSource.get_required_reserve_ratio_data], whose third
    parameter is [year_type] with default ['0']. *)
Definition bound_get_required_reserve_ratio_data (p : provider) : macro_method :=
  fun start_date end_date kwargs =>
    match find (fun kv => negb (String.eqb (fst kv) "year_type")) kwargs with
    | Some (key, _) =>
        raise (unexpected_keyword
                 "BaostockDataSource.get_required_reserve_ratio_data" key)
    | None =>
        get_required_reserve_ratio_data p start_date end_date
          match find (fun kv => String.eqb (fst kv) "year_type") kwargs with
          | Some (_, v) => v
          | None => "0"
          end
    end.

(** [col] of [list_industries] and [get_industry_members]: the column of
    the industries. *)
Definition industry_column (df : DataFrame) : string :=
  if has_column df "industry" then "industry" else last_column df.

(** [out] of [list_industries]:
    [df[[col]].drop_duplicates().sort_values(by=col)], renamed; for a frame
    whose columns have distinct names. *)
Definition industries (df : DataFrame) : DataFrame :=
  let col := industry_column df in
  rename (sort_values (drop_duplicates (df_select df [col])) col)
         col "industry".

Definition valid_freqs : list string := ["d"; "w"; "m"; "5"; "15"; "30"; "60"].
Definition valid_adjusts : list string := ["1"; "2"; "3"].

Module Tools.

Section Registered.

(** The formatter of [src/formatting/markdown_formatter.py], with the
    values of [meta] as the tools of this part build them. *)
Variable format_table_output :
  DataFrame -> string -> Z -> list (string * meta_value) -> outcome string.

(** The provider behind [active_data_source]. *)
Variable p : provider.

(** *** [src/tools/base.py] *)

Definition call_macro_data_tool (tool_name : string)
    (data_source_method : macro_method) (data_type_name : string)
    (start_date end_date : option string) (limit : Z) (format : string)
    (kwargs : list (string * string)) : M string :=
  try_except
    (df <- data_source_method start_date end_date kwargs ;;
     let meta := ([("dataset", Plain (PyStr data_type_name));
                   ("start_date", Plain (opt_val start_date));
                   ("end_date", Plain (opt_val end_date))]
                  ++ match kwargs with
                     | [] => []
                     | _ :: _ => [("extra", Dict kwargs)]
                     end)%list in
     lift_outcome (format_table_output df format limit meta))
    (fun _ => true)
    (except_by_class "错误: 无效的输入参数。").

Definition call_index_constituent_tool (tool_name : string)
    (data_source_method : option string -> M DataFrame) (index_name : string)
    (date : option string) (limit : Z) (format : string) : M string :=
  try_except
    (df <- data_source_method date ;;
     let meta := plain [("index", PyStr index_name);
                        ("as_of", PyStr (or_else date "latest"))] in
     lift_outcome (format_table_output df format limit meta))
    (fun _ => true)
    (except_by_class "错误: 无效的输入参数。").

(** *** [src/tools/stock_market.py] *)

Definition get_historical_k_data
    (code start_date end_date frequency adjust_flag : string)
    (fields : option (list pyval)) (limit : Z) (format : string) : M string :=
  try_except
    (if negb (str_in frequency valid_freqs) then
       ret ("错误: 无效的频率 '" ++ frequency ++ "'。有效选项为: "
            ++ repr_list (map PyStr valid_freqs))
     else if negb (str_in adjust_flag valid_adjusts) then
       ret ("错误: 无效的复权标志 '" ++ adjust_flag ++ "'。有效选项为: "
            ++ repr_list (map PyStr valid_adjusts))
     else
       df <- get_historical_k_data p code start_date end_date frequency
               adjust_flag fields ;;
       let meta := plain [("code", PyStr code);
                          ("start_date", PyStr start_date);
                          ("end_date", PyStr end_date);
                          ("frequency", PyStr frequency);
                          ("adjust_flag", PyStr adjust_flag)] in
       lift_outcome (format_table_output df format limit meta))
    (fun _ => true)
    (except_by_class "错误: 无效的输入参数。").

Definition get_stock_basic_info (code : string) (fields : option (list pyval))
    (format : string) : M string :=
  try_except
    (df <- get_stock_basic_info p code fields ;;
     let meta := plain [("code", PyStr code)] in
     lift_outcome (format_table_output df format (shape0 df) meta))
    (fun _ => true)
    (except_by_class "错误: 无效的输入参数或请求的字段不可用。").

Definition get_dividend_data (code year year_type : string) (limit : Z)
    (format : string) : M string :=
  try_except
    (if negb (str_in year_type ["report"; "operate"]) then
       ret ("错误: 无效的年份类型 '" ++ year_type
            ++ "'。有效选项为: 'report', 'operate'")
     else if negb (isdigit year) || negb (len year =? 4) then
       ret ("错误: 无效的年份 '" ++ year ++ "'。请输入4位数字的年份。")
     else
       df <- get_dividend_data p code year year_type ;;
       let meta := plain [("code", PyStr code); ("year", PyStr year);
                          ("year_type", PyStr year_type)] in
       lift_outcome (format_table_output df format limit meta))
    (fun _ => true)
    (except_by_class "错误: 无效的输入参数。").

Definition get_adjust_factor_data (code start_date end_date : string)
    (limit : Z) (format : string) : M string :=
  try_except
    (df <- get_adjust_factor_data p code start_date end_date ;;
     let meta := plain [("code", PyStr code);
                        ("start_date", PyStr start_date);
                        ("end_date", PyStr end_date)] in
     lift_outcome (format_table_output df format limit meta))
    (fun _ => true)
    (except_by_class "错误: 无效的输入参数。").

(** *** [src/tools/financial_reports.py] *)

(** The six periodic-report tools, over the formatter of this part. *)
Definition report (t : report_tool) (code year : string) (quarter limit : Z)
    (format : string) : M string :=
  run_report_tool
    (fun df format limit meta =>
       format_table_output df format limit (plain meta))
    p t code year quarter limit format.

Definition get_performance_express_report (code start_date end_date : string)
    (limit : Z) (format : string) : M string :=
  try_except
    (df <- get_performance_express_report p code start_date end_date ;;
     let meta := plain [("code", PyStr code);
                        ("start_date", PyStr start_date);
                        ("end_date", PyStr end_date);
                        ("dataset", PyStr "performance_express")] in
     lift_outcome (format_table_output df format limit meta))
    (fun _ => true) except_any.

Definition get_forecast_report (code start_date end_date : string)
    (limit : Z) (format : string) : M string :=
  try_except
    (df <- get_forecast_report p code start_date end_date ;;
     let meta := plain [("code", PyStr code);
                        ("start_date", PyStr start_date);
                        ("end_date", PyStr end_date);
                        ("dataset", PyStr "forecast")] in
     lift_outcome (format_table_output df format limit meta))
    (fun _ => true) except_any.

(** *** [src/tools/indices.py]

    The tools that call a method of the facade under another name than
    their own come first, so that the name is still the one of the
    facade. *)

Definition get_index_constituents (index : string) (date : option string)
    (limit : Z) (format : string) : M string :=
  try_except
    (let key := lower (strip index) in
     if negb (str_in key ["hs300"; "sz50"; "zz500"]) then
       ret "错误: 无效的指数。有效选项为 'hs300', 'sz50', 'zz500'。"
     else
       df <- (if String.eqb key "hs300" then get_hs300_stocks p date
              else if String.eqb key "sz50" then get_sz50_stocks p date
              else get_zz500_stocks p date) ;;
       let meta := plain [("index", PyStr key);
                          ("as_of", PyStr (or_else date "latest"))] in
       lift_outcome (format_table_output df format limit meta))
    (fun _ => true) except_any.

Definition list_industries (date : option string) (format : string)
    : M string :=
  try_except
    (df <- get_stock_industry p None date ;;
     if df_empty df then ret "(无可用数据显示)"
     else
       let out := industries df in
       let meta := plain [("as_of", PyStr (or_else date "latest"));
                          ("count", PyInt (shape0 out))] in
       lift_outcome (format_table_output out format (shape0 out) meta))
    (fun _ => true) except_any.

Definition get_industry_members (industry : string) (date : option string)
    (limit : Z) (format : string) : M string :=
  try_except
    (if String.eqb industry "" || String.eqb (strip industry) "" then
       ret "错误: 'industry' 是必需的。调用 list_industries() 来发现可用的值。"
     else
       df <- get_stock_industry p None date ;;
       if df_empty df then ret "(无可用数据显示)"
       else
         let col := industry_column df in
         let filtered := df_where_eq df col industry in
         let meta := plain [("industry", PyStr industry);
                            ("as_of", PyStr (or_else date "latest"))] in
         lift_outcome (format_table_output filtered format limit meta))
    (fun _ => true) except_any.

Definition get_stock_industry (code date : option string) (limit : Z)
    (format : string) : M string :=
  try_except
    (df <- get_stock_industry p code date ;;
     let meta := plain [("code", PyStr (or_else code "all"));
                        ("as_of", PyStr (or_else date "latest"))] in
     lift_outcome (format_table_output df format limit meta))
    (fun _ => true) except_any.

Definition get_sz50_stocks (date : option string) (limit : Z) (format : string)
    : M string :=
  call_index_constituent_tool "get_sz50_stocks" (get_sz50_stocks p) "上证50"
    date limit format.

Definition get_hs300_stocks (date : option string) (limit : Z) (format : string)
    : M string :=
  call_index_constituent_tool "get_hs300_stocks" (get_hs300_stocks p) "沪深300"
    date limit format.

Definition get_zz500_stocks (date : option string) (limit : Z) (format : string)
    : M string :=
  call_index_constituent_tool "get_zz500_stocks" (get_zz500_stocks p) "中证500"
    date limit format.

(** *** [src/tools/market_overview.py] *)

Definition get_suspensions (date : option string) (limit : Z) (format : string)
    : M string :=
  try_except
    (df <- get_all_stock p date ;;
     if df_empty df then ret "(无可用数据显示)"
     else if negb (has_column df "tradeStatus") then
       ret "错误: 数据源响应中不存在 'tradeStatus' 列。"
     else
       let suspended := df_where_eq df "tradeStatus" "0" in
       let meta := plain [("as_of", PyStr (or_else date "current"));
                          ("total_suspended", PyInt (shape0 suspended))] in
       lift_outcome (format_table_output suspended format limit meta))
    (fun _ => true) except_any.

Definition get_trade_dates (start_date end_date : option string) (limit : Z)
    (format : string) : M string :=
  try_except
    (df <- get_trade_dates p start_date end_date ;;
     let meta := plain [("start_date", PyStr (or_else start_date "default"));
                        ("end_date", PyStr (or_else end_date "default"))] in
     lift_outcome (format_table_output df format limit meta))
    (fun _ => true)
    (except_by_class "错误: 无效的输入参数。").

Definition get_all_stock (date : option string) (limit : Z) (format : string)
    : M string :=
  try_except
    (df <- get_all_stock p date ;;
     let meta := plain [("as_of", PyStr (or_else date "default"))] in
     lift_outcome (format_table_output df format limit meta))
    (fun _ => true)
    (except_by_class "错误: 无效的输入参数。").

(** *** [src/tools/macroeconomic.py] *)

Definition get_required_reserve_ratio_data (start_date end_date : option string)
    (year_type : string) (limit : Z) (format : string) : M string :=
  if negb (str_in year_type ["0"; "1"]) then
    ret "错误: 无效的年份类型 '{year_type}'。有效选项为 '0' (公告日期) 或 '1' (生效日期)。"
  else
    call_macro_data_tool "get_required_reserve_ratio_data"
      (bound_get_required_reserve_ratio_data p) "存款准备金率"
      start_date end_date limit format [("yearType", year_type)].

Definition get_deposit_rate_data (start_date end_date : option string)
    (limit : Z) (format : string) : M string :=
  call_macro_data_tool "get_deposit_rate_data"
    (dates_only "BaostockDataSource.get_deposit_rate_data"
       (get_deposit_rate_data p))
    "存款利率" start_date end_date limit format [].

Definition get_loan_rate_data (start_date end_date : option string)
    (limit : Z) (format : string) : M string :=
  call_macro_data_tool "get_loan_rate_data"
    (dates_only "BaostockDataSource.get_loan_rate_data" (get_loan_rate_data p))
    "贷款利率" start_date end_date limit format [].

Definition get_money_supply_data_month (start_date end_date : option string)
    (limit : Z) (format : string) : M string :=
  call_macro_data_tool "get_money_supply_data_month"
    (dates_only "BaostockDataSource.get_money_supply_data_month"
       (get_money_supply_data_month p))
    "月度货币供应量" start_date end_date limit format [].

Definition get_money_supply_data_year (start_date end_date : option string)
    (limit : Z) (format : string) : M string :=
  call_macro_data_tool "get_money_supply_data_year"
    (dates_only "BaostockDataSource.get_money_supply_data_year"
       (get_money_supply_data_year p))
    "年度货币供应量" start_date end_date limit format [].

End Registered.

End Tools.

(** *** Every tool of this part, with its arguments *)

Inductive tool_call : Type :=
| Call_get_historical_k_data
    (code start_date end_date frequency adjust_flag : string)
    (fields : option (list pyval)) (limit : Z) (format : string)
| Call_get_stock_basic_info (code : string) (fields : option (list pyval))
    (format : string)
| Call_get_dividend_data (code year year_type : string) (limit : Z)
    (format : string)
| Call_get_adjust_factor_data (code start_date end_date : string) (limit : Z)
    (format : string)
| Call_report (t : report_tool) (code year : string) (quarter limit : Z)
    (format : string)
| Call_get_performance_express_report (code start_date end_date : string)
    (limit : Z) (format : string)
| Call_get_forecast_report (code start_date end_date : string) (limit : Z)
    (format : string)
| Call_get_stock_industry (code date : option string) (limit : Z)
    (format : string)
| Call_get_sz50_stocks (date : option string) (limit : Z) (format : string)
| Call_get_hs300_stocks (date : option string) (limit : Z) (format : string)
| Call_get_zz500_stocks (date : option string) (limit : Z) (format : string)
| Call_get_index_constituents (index : string) (date : option string)
    (limit : Z) (format : string)
| Call_list_industries (date : option string) (format : string)
| Call_get_industry_members (industry : string) (date : option string)
    (limit : Z) (format : string)
| Call_get_trade_dates (start_date end_date : option string) (limit : Z)
    (format : string)
| Call_get_all_stock (date : option string) (limit : Z) (format : string)
| Call_get_suspensions (date : option string) (limit : Z) (format : string)
| Call_get_deposit_rate_data (start_date end_date : option string) (limit : Z)
    (format : string)
| Call_get_loan_rate_data (start_date end_date : option string) (limit : Z)
    (format : string)
| Call_get_required_reserve_ratio_data (start_date end_date : option string)
    (year_type : string) (limit : Z) (format : string)
| Call_get_money_supply_data_month (start_date end_date : option string)
    (limit : Z) (format : string)
| Call_get_money_supply_data_year (start_date end_date : option string)
    (limit : Z) (format : string).

Definition run_tool
    (fmt : DataFrame -> string -> Z -> list (string * meta_value)
           -> outcome string)
    (p : provider) (c : tool_call) : M string :=
  match c with
  | Call_get_historical_k_data code s e fr a fs limit format =>
      Tools.get_historical_k_data fmt p code s e fr a fs limit format
  | Call_get_stock_basic_info code fs format =>
      Tools.get_stock_basic_info fmt p code fs format
  | Call_get_dividend_data code y t limit format =>
      Tools.get_dividend_data fmt p code y t limit format
  | Call_get_adjust_factor_data code s e limit format =>
      Tools.get_adjust_factor_data fmt p code s e limit format
  | Call_report t code y q limit format =>
      Tools.report fmt p t code y q limit format
  | Call_get_performance_express_report code s e limit format =>
      Tools.get_performance_express_report fmt p code s e limit format
  | Call_get_forecast_report code s e limit format =>
      Tools.get_forecast_report fmt p code s e limit format
  | Call_get_stock_industry code d limit format =>
      Tools.get_stock_industry fmt p code d limit format
  | Call_get_sz50_stocks d limit format =>
      Tools.get_sz50_stocks fmt p d limit format
  | Call_get_hs300_stocks d limit format =>
      Tools.get_hs300_stocks fmt p d limit format
  | Call_get_zz500_stocks d limit format =>
      Tools.get_zz500_stocks fmt p d limit format
  | Call_get_index_constituents index d limit format =>
      Tools.get_index_constituents fmt p index d limit format
  | Call_list_industries d format =>
      Tools.list_industries fmt p d format
  | Call_get_industry_members industry d limit format =>
      Tools.get_industry_members fmt p industry d limit format
  | Call_get_trade_dates s e limit format =>
      Tools.get_trade_dates fmt p s e limit format
  | Call_get_all_stock d limit format =>
      Tools.get_all_stock fmt p d limit format
  | Call_get_suspensions d limit format =>
      Tools.get_suspensions fmt p d limit format
  | Call_get_deposit_rate_data s e limit format =>
      Tools.get_deposit_rate_data fmt p s e limit format
  | Call_get_loan_rate_data s e limit format =>
      Tools.get_loan_rate_data fmt p s e limit format
  | Call_get_required_reserve_ratio_data s e t limit format =>
      Tools.get_required_reserve_ratio_data fmt p s e t limit format
  | Call_get_money_supply_data_month s e limit format =>
      Tools.get_money_supply_data_month fmt p s e limit format
  | Call_get_money_supply_data_year s e limit format =>
      Tools.get_money_supply_data_year fmt p s e limit format
  end.

(* ===================================================================== *)
(** ** Vocabulary of the properties, and the stubs of the examples *)

Definition key_le (key : list string -> string) (r1 r2 : list string) : Prop :=
  String.leb (key r1) (key r2) = true.

(** The number of days of a year. *)
Definition year_length (y : Z) : Z := if is_leap y then 366 else 365.

(** The order of the calendar on dates. *)
Definition date_compare (d1 d2 : date) : comparison :=
  match year d1 ?= year d2 with
  | Eq => match month d1 ?= month d2 with
          | Eq => day d1 ?= day d2
          | c => c
          end
  | c => c
  end.

Definition comparison_eqb (a b : comparison) : bool :=
  match a, b with
  | Eq, Eq | Lt, Lt | Gt, Gt => true
  | _, _ => false
  end.

Definition below (n : Z) : list Z := map Z.of_nat (seq 0 (Z.to_nat n)).

(** A stub provider and the process as it starts, for the examples. *)
Definition stub_respond (rs : ResultData) : bs_query -> outcome ResultData :=
  fun _ => Return rs.

Definition connection_reset : exn := mk_exn OtherError "connection reset".

Definition failing_logout : provider :=
  mk_provider (Return ok_status) (Raise connection_reset) (stub_respond ok_status).

Definition failing_login : provider :=
  mk_provider (Raise connection_reset) (Return ok_status) (stub_respond ok_status).

Definition healthy : provider :=
  mk_provider (Return ok_status) (Return ok_status) (stub_respond ok_status).

Definition jan10 : date := mk_date 2025 1 10.

Definition logout_returns (p : provider) : Prop :=
  exists lo, bs_logout p = Return lo.

(** What the two closing [except] clauses make of an outcome. *)
Definition closed_by (unknown_msg : string) {A} (r : outcome A) : outcome A :=
  match r with
  | Return a => Return a
  | Raise e =>
      if is_known_error e then Raise e
      else Raise (mk_exn DataSourceError (unknown_msg ++ exn_str e))
  end.

(** The outcome of [check_and_drain], which leaves the state alone. *)
Definition drained (nodata_msg api_msg empty_msg : string) (rs : ResultData)
  : outcome DataFrame :=
  if negb (String.eqb (error_code rs) "0") then
    if no_record_found rs
    then Raise (mk_exn NoDataFoundError (nodata_msg ++ error_msg rs))
    else Raise (mk_exn DataSourceError (api_msg ++ with_code rs))
  else if is_nil (rs_rows rs) then Raise (mk_exn NoDataFoundError empty_msg)
  else Return (mk_df (fields rs) (rs_rows rs)).

(** The outcome of what [get_trade_dates] does with an answer. *)
Definition trade_dates_drained (start_date end_date : option string)
    (rs : ResultData) : outcome DataFrame :=
  if negb (String.eqb (error_code rs) "0") then
    Raise (mk_exn DataSourceError
             ("获取交易日时 Baostock API 发生错误: " ++ with_code rs))
  else if is_nil (rs_rows rs) then
    Raise (mk_exn NoDataFoundError
             ("在 " ++ fmt_opt start_date ++ "-" ++ fmt_opt end_date
              ++ " 范围内未找到交易日 (空结果集)。"))
  else Return (mk_df (fields rs) (rs_rows rs)).

(** The outcome of what [get_stock_basic_info] does with an answer. *)
Definition basic_info_selected (code : string) (fields : option (list pyval))
    (rs : ResultData) : outcome DataFrame :=
  match drained (("未找到 " ++ code ++ " 的基本信息") ++ "。Baostock 消息: ")
                "获取基本信息时 Baostock API 发生错误: "
                (("未找到 " ++ code ++ " 的基本信息") ++ " (空结果集)。") rs with
  | Raise x => Raise x
  | Return result_df =>
      match fields with
      | None | Some [] => Return result_df
      | Some fs =>
          if is_nil (available_cols result_df fs)
          then Raise (mk_exn ValueError
                 ("请求的字段 " ++ repr_list fs ++ " 在基本信息结果中均不可用。"))
          else Return (df_select result_df (available_cols result_df fs))
      end
  end.

Definition no_record_answer : ResultData :=
  mk_rs "10002" "No record found" [] [].

Definition no_record_provider : provider :=
  mk_provider (Return ok_status) (Return ok_status) (stub_respond no_record_answer).

Definition empty_answer : ResultData :=
  mk_rs "0" "success" ["calendar_date"; "is_trading_day"] [].

Definition empty_provider : provider :=
  mk_provider (Return ok_status) (Return ok_status) (stub_respond empty_answer).

(** A row of [df] flagged as a trading day, and the day it is about. *)
Definition flagged (df : DataFrame) (row : list string) : Prop :=
  In row (df_rows df) /\ cell df (flag_col df) row = "1".

Definition day_of (df : DataFrame) (row : list string) : string :=
  cell df (day_col df) row.

Definition is_before (date : string) (df : DataFrame) (row : list string) : Prop :=
  flagged df row /\ String.ltb (day_of df row) date = true.

Definition is_after (date : string) (df : DataFrame) (row : list string) : Prop :=
  flagged df row /\ String.ltb date (day_of df row) = true.

(** [s] is the greatest day among the flagged rows before [date]. *)
Definition closest_before (date : string) (df : DataFrame) (s : string) : Prop :=
  (exists row, is_before date df row /\ s = day_of df row)
  /\ forall row, is_before date df row -> String.leb (day_of df row) s = true.

(** [s] is the least day among the flagged rows after [date]. *)
Definition closest_after (date : string) (df : DataFrame) (s : string) : Prop :=
  (exists row, is_after date df row /\ s = day_of df row)
  /\ forall row, is_after date df row -> String.leb s (day_of df row) = true.

(** What [previous_trading_day] selects from the frame it was given. *)
Definition selected_before (date : string) (df : DataFrame) : string :=
  if df_empty df then date
  else if is_nil (sort_rows (cell df (day_col df)) (rows_before df date)) then date
  else cell df (day_col df)
         (last (sort_rows (cell df (day_col df)) (rows_before df date)) []).

Definition selected_after (date : string) (df : DataFrame) : string :=
  if df_empty df then date
  else if is_nil (sort_rows (cell df (day_col df)) (rows_after df date)) then date
  else cell df (day_col df)
         (hd [] (sort_rows (cell df (day_col df)) (rows_after df date))).

Definition calendar_answer : ResultData :=
  mk_rs "0" "success" ["calendar_date"; "is_trading_day"]
    [["2025-01-08"; "1"]; ["2025-01-13"; "1"]; ["2025-01-09"; "1"];
     ["2025-01-10"; "1"]; ["2025-01-11"; "0"]; ["2025-01-12"; "0"];
     ["2025-01-14"; "1"]].

Definition calendar_frame : DataFrame :=
  mk_df (fields calendar_answer) (rs_rows calendar_answer).

Definition calendar_source : FinancialDataSource :=
  BaostockDataSource
    (mk_provider (Return ok_status) (Return ok_status)
       (stub_respond calendar_answer)).

(** The process after one round trip from its start. *)
Definition after_round_trip (q : bs_query) : world :=
  mk_world [(1%nat, Terminal); (0%nat, Terminal); (2%nat, Terminal)]
    [(CallLogin, Some DevNull); (CallQuery q, Some Terminal);
     (CallLogout, Some DevNull)] jan10.


Definition failing_source (e : exn) : FinancialDataSource :=
  mk_ds (fun _ _ => raise e).

Definition refused_login : provider :=
  mk_provider (Return (mk_rs "10001001" "network error" [] []))
    (Return ok_status) (stub_respond ok_status).

Definition login_refused : exn :=
  mk_exn LoginError "Baostock 登录失败: network error".

(** The month before the one of [now], on its first day. *)
Definition prior_month (now : date) : date :=
  if month now =? 1 then mk_date (year now - 1) 12 1
  else mk_date (year now) (month now - 1) 1.

Definition feb20 : date := mk_date 2025 2 20.

Definition one_row_answer : ResultData :=
  mk_rs "0" "success" ["code"; "code_name"] [["sh.600000"; "PF Bank"]].

Definition one_row_provider : provider :=
  mk_provider (Return ok_status) (Return ok_status) (stub_respond one_row_answer).

Definition no_formatter :
  DataFrame -> string -> Z -> list (string * pyval) -> outcome string :=
  fun _ _ _ _ => Return "".

(* ===================================================================== *)
(** ** Vocabulary of the further properties *)

(** What follows a request leaves the state alone. *)
Definition quiet {A} (k : ResultData -> M A) : Prop :=
  forall rs w, snd (k rs w) = w.

(** A fetch that picks columns out of the answer: the static metadata
    fetch given a field list with an entry. *)
Definition selects_columns (f : fetch) : bool :=
  match f with
  | Fetch_stock_basic_info _ (Some (_ :: _)) => true
  | _ => false
  end.

Definition raising_query : provider :=
  mk_provider (Return ok_status) (Return ok_status)
    (fun _ => Raise connection_reset).

(** The days the latest-trading-day tool chooses from: the days of the
    rows flagged ['1'] that are not after [today]. *)
Definition flagged_up_to (today : string) (df : DataFrame) (d : string) : Prop :=
  exists row,
    In row (df_rows df)
    /\ cell df "is_trading_day" row = "1"
    /\ cell df "calendar_date" row = d
    /\ String.leb d today = true.

(** Months counted from year 0. *)
Definition month_index (d : date) : Z := 12 * year d + month d.

(** How many months before the current one the start month lies, and how
    many months after the start month the middle month lies. *)
Definition months_back (now : date) (period : string) : Z :=
  if String.eqb period "recent" then
    if day now <? 15 then (if month now =? 2 then 1 else 2) else 1
  else if String.eqb period "quarter" then 3
  else if String.eqb period "half_year" then 6
  else if String.eqb period "year" then 12
  else 1.

Definition middle_after (now : date) (period : string) : Z :=
  if String.eqb period "recent" then
    if day now <? 15 then (if month now =? 2 then 0 else 1) else 0
  else if String.eqb period "quarter" then 0
  else if String.eqb period "half_year" then 3
  else if String.eqb period "year" then 6
  else 0.

Definition jan12 : date := mk_date 2025 1 12.

(** Only white space. *)
Definition blank (s : string) : bool := all_chars is_space s.

(** The dot between exchange and number, which a caller may leave out. *)
Definition dot_or_not (dot : bool) : string := if dot then "." else "".

(** The message of [global_flags_error] as the tool returns it. *)
Definition global_flags_message : string :=
  "错误: global flags not at the start of the expression at position 12".

(** *** Vocabulary of the properties of the tools *)

Definition is_ascii (s : string) : bool :=
  all_chars (fun c => Nat.ltb (nat_of_ascii c) 128) s.

(** The arguments that a tool strips, lowers or tests for digits are in
    ASCII, where the character classes of the embedding are those of
    Python. *)
Definition ascii_args (c : tool_call) : bool :=
  match c with
  | Call_get_dividend_data _ year _ _ _ => is_ascii year
  | Call_report _ _ year _ _ _ => is_ascii year
  | Call_get_index_constituents index _ _ _ => is_ascii index
  | Call_get_industry_members industry _ _ _ => is_ascii industry
  | _ => true
  end.

Definition report_fetch (t : report_tool) (code year : string) (quarter : Z)
  : fetch :=
  match t with
  | Tool_get_profit_data => Fetch_profit_data code year quarter
  | Tool_get_operation_data => Fetch_operation_data code year quarter
  | Tool_get_growth_data => Fetch_growth_data code year quarter
  | Tool_get_balance_data => Fetch_balance_data code year quarter
  | Tool_get_cash_flow_data => Fetch_cash_flow_data code year quarter
  | Tool_get_dupont_data => Fetch_dupont_data code year quarter
  end.

(** The fetch a call of a tool comes to; none where the tool answers
    without the facade. *)
Definition fetch_of (c : tool_call) : option fetch :=
  match c with
  | Call_get_historical_k_data code s e fr a fs _ _ =>
      if str_in fr valid_freqs && str_in a valid_adjusts
      then Some (Fetch_historical_k_data code s e fr a fs) else None
  | Call_get_stock_basic_info code fs _ => Some (Fetch_stock_basic_info code fs)
  | Call_get_dividend_data code y t _ _ =>
      if str_in t ["report"; "operate"] && isdigit y && (len y =? 4)
      then Some (Fetch_dividend_data code y t) else None
  | Call_get_adjust_factor_data code s e _ _ =>
      Some (Fetch_adjust_factor_data code s e)
  | Call_report t code y q _ _ =>
      if isdigit y && (len y =? 4) && (1 <=? q) && (q <=? 4)
      then Some (report_fetch t code y q) else None
  | Call_get_performance_express_report code s e _ _ =>
      Some (Fetch_performance_express_report code s e)
  | Call_get_forecast_report code s e _ _ => Some (Fetch_forecast_report code s e)
  | Call_get_stock_industry code d _ _ => Some (Fetch_stock_industry code d)
  | Call_get_sz50_stocks d _ _ => Some (Fetch_sz50_stocks d)
  | Call_get_hs300_stocks d _ _ => Some (Fetch_hs300_stocks d)
  | Call_get_zz500_stocks d _ _ => Some (Fetch_zz500_stocks d)
  | Call_get_index_constituents index d _ _ =>
      if String.eqb (lower (strip index)) "hs300" then Some (Fetch_hs300_stocks d)
      else if String.eqb (lower (strip index)) "sz50" then Some (Fetch_sz50_stocks d)
      else if String.eqb (lower (strip index)) "zz500" then Some (Fetch_zz500_stocks d)
      else None
  | Call_list_industries d _ => Some (Fetch_stock_industry None d)
  | Call_get_industry_members industry d _ _ =>
      if String.eqb (strip industry) "" then None
      else Some (Fetch_stock_industry None d)
  | Call_get_trade_dates s e _ _ => Some (Fetch_trade_dates s e)
  | Call_get_all_stock d _ _ => Some (Fetch_all_stock d)
  | Call_get_suspensions d _ _ => Some (Fetch_all_stock d)
  | Call_get_deposit_rate_data s e _ _ => Some (Fetch_deposit_rate_data s e)
  | Call_get_loan_rate_data s e _ _ => Some (Fetch_loan_rate_data s e)
  | Call_get_required_reserve_ratio_data _ _ _ _ _ => None
  | Call_get_money_supply_data_month s e _ _ =>
      Some (Fetch_money_supply_data_month s e)
  | Call_get_money_supply_data_year s e _ _ =>
      Some (Fetch_money_supply_data_year s e)
  end.

(** The tools whose [except] clauses tell the classes of errors apart. *)
Definition tells_classes (c : tool_call) : bool :=
  match c with
  | Call_get_performance_express_report _ _ _ _ _
  | Call_get_forecast_report _ _ _ _ _
  | Call_get_stock_industry _ _ _ _
  | Call_get_index_constituents _ _ _ _
  | Call_list_industries _ _
  | Call_get_industry_members _ _ _ _
  | Call_get_suspensions _ _ _ => false
  | _ => true
  end.

Definition unexpected : string := "错误: 发生意外错误: ".

(** What a tool puts before the message of an exception of a class. *)
Definition wording (c : tool_call) (cls : exn_class) : string :=
  if tells_classes c then
    match cls with
    | NoDataFoundError => "错误: "
    | LoginError => "错误: 无法连接到数据源。"
    | DataSourceError => "错误: 获取数据时发生错误。"
    | ValueError =>
        match c with
        | Call_get_stock_basic_info _ _ _ =>
            "错误: 无效的输入参数或请求的字段不可用。"
        | _ => "错误: 无效的输入参数。"
        end
    | _ => unexpected
    end
  else unexpected.

(** The calls a tool adds to the record of the provider. *)
Definition round_trip_of (c : tool_call) : list call :=
  match fetch_of c with
  | Some f =>
      match request_of f with
      | Some q => [CallLogin; CallQuery q; CallLogout]
      | None => []
      end
  | None => []
  end.

Definition echo_formatter :
  DataFrame -> string -> Z -> list (string * meta_value) -> outcome string :=
  fun df _ _ _ => Return (join "," (columns df)).

(** The tools that hand the frame of the facade to the formatter as it
    is; the others pick rows or a column first. *)
Definition passes_frame (c : tool_call) : bool :=
  match c with
  | Call_list_industries _ _
  | Call_get_industry_members _ _ _ _
  | Call_get_suspensions _ _ _ => false
  | _ => true
  end.

(** The format a call asks for. *)
Definition format_of (c : tool_call) : string :=
  match c with
  | Call_get_historical_k_data _ _ _ _ _ _ _ format
  | Call_get_stock_basic_info _ _ format
  | Call_get_dividend_data _ _ _ _ format
  | Call_get_adjust_factor_data _ _ _ _ format
  | Call_report _ _ _ _ _ format
  | Call_get_performance_express_report _ _ _ _ format
  | Call_get_forecast_report _ _ _ _ format
  | Call_get_stock_industry _ _ _ format
  | Call_get_sz50_stocks _ _ format
  | Call_get_hs300_stocks _ _ format
  | Call_get_zz500_stocks _ _ format
  | Call_get_index_constituents _ _ _ format
  | Call_list_industries _ format
  | Call_get_industry_members _ _ _ format
  | Call_get_trade_dates _ _ _ format
  | Call_get_all_stock _ _ format
  | Call_get_suspensions _ _ format
  | Call_get_deposit_rate_data _ _ _ format
  | Call_get_loan_rate_data _ _ _ format
  | Call_get_required_reserve_ratio_data _ _ _ _ format
  | Call_get_money_supply_data_month _ _ _ format
  | Call_get_money_supply_data_year _ _ _ format => format
  end.

(** The limit a call asks for; the two tools without one show every row
    of their frame. *)
Definition limit_of (c : tool_call) (df : DataFrame) : Z :=
  match c with
  | Call_get_stock_basic_info _ _ _ => shape0 df
  | Call_list_industries _ _ => shape0 df
  | Call_get_historical_k_data _ _ _ _ _ _ limit _
  | Call_get_dividend_data _ _ _ limit _
  | Call_get_adjust_factor_data _ _ _ limit _
  | Call_report _ _ _ _ limit _
  | Call_get_performance_express_report _ _ _ limit _
  | Call_get_forecast_report _ _ _ limit _
  | Call_get_stock_industry _ _ limit _
  | Call_get_sz50_stocks _ limit _
  | Call_get_hs300_stocks _ limit _
  | Call_get_zz500_stocks _ limit _
  | Call_get_index_constituents _ _ limit _
  | Call_get_industry_members _ _ limit _
  | Call_get_trade_dates _ _ limit _
  | Call_get_all_stock _ limit _
  | Call_get_suspensions _ limit _
  | Call_get_deposit_rate_data _ _ limit _
  | Call_get_loan_rate_data _ _ limit _
  | Call_get_required_reserve_ratio_data _ _ _ limit _
  | Call_get_money_supply_data_month _ _ limit _
  | Call_get_money_supply_data_year _ _ limit _ => limit
  end.

(** What a tool makes of the outcome of the formatter. *)
Definition formatted (c : tool_call) (r : outcome string) : outcome string :=
  match r with
  | Return s => Return s
  | Raise e => Return (wording c (exn_cls e) ++ exn_str e)
  end.

(** The cells of a column, row by row. *)
Definition column_values (df : DataFrame) (col : string) : list string :=
  map (cell df col) (df_rows df).

(** Each string is less than every later one: ascending, none twice. *)
Definition strictly_ascending (l : list string) : Prop :=
  StronglySorted (fun a b => String.ltb a b = true) l.

Definition industry_answer : ResultData :=
  mk_rs "0" "success" ["code"; "industry"]
    [["sh.600000"; "J66"]; ["sh.600519"; "C15"]; ["sz.000001"; "J66"];
     ["sz.000858"; "C15"]; ["sz.300750"; ""]].

Definition industry_frame : DataFrame :=
  mk_df (fields industry_answer) (rs_rows industry_answer).

Definition industry_provider : provider :=
  mk_provider (Return ok_status) (Return ok_status) (stub_respond industry_answer).

(** A formatter that shows the first cell of every row, the limit and the
    keys of [meta]. *)
Definition first_cells_formatter :
  DataFrame -> string -> Z -> list (string * meta_value) -> outcome string :=
  fun df _ limit meta =>
    Return (join "," (map (hd "") (df_rows df)) ++ ";" ++ str_of_Z limit
            ++ ";" ++ join "," (map fst meta)).

(** A provider that answers ['0'] without rows and whose logout call
    raises. *)
Definition empty_failing_logout : provider :=
  mk_provider (Return ok_status) (Raise connection_reset)
    (stub_respond empty_answer).


(** Every row of the answer holds one cell per field: the answers of
    which [pd.DataFrame(data_list, columns=rs.fields)] makes a frame. *)
Definition rectangular (rs : ResultData) : bool :=
  forallb (fun row => Nat.eqb (List.length row) (List.length (fields rs)))
          (rs_rows rs).

(** The strings of a field list, in its order. *)
Definition named (fs : list pyval) : list string :=
  flat_map (fun v => match v with PyStr c => [c] | _ => [] end) fs.

(** Of the names [l] those that are among [have], in the order of [l]. *)
Definition kept (l have : list string) : list string :=
  filter (fun c => existsb (String.eqb c) have) l.

(** The provider raises [x] in the round trip of the request [q]: in the
    login; or, after a login that succeeded, in the logout; or in the
    request, the logout returning. *)
Definition provider_raises (p : provider) (q : bs_query) (x : exn) : Prop :=
  bs_login p = Raise x
  \/ (login_ok p /\ bs_logout p = Raise x)
  \/ (login_ok p /\ logout_returns p /\ bs_respond p q = Raise x).

(** Printable ASCII without the quote and the backslash: the strings that
    [repr] writes as they are between two quotes, and on which the
    character classes of the embedding are those of Python. *)
Definition plain_text (s : string) : bool :=
  all_chars (fun c => let n := nat_of_ascii c in
                      Nat.leb 32 n && Nat.ltb n 127
                      && negb (Nat.eqb n 39) && negb (Nat.eqb n 92)) s.

(** [s] is the four digits of [y]. *)
Definition four_digits_of (y : Z) (s : string) : bool :=
  match s with
  | String a (String b (String c (String d EmptyString))) =>
      is_digit a && is_digit b && is_digit c && is_digit d
      && (1000 * digit_val a + 100 * digit_val b + 10 * digit_val c
          + digit_val d =? y)
  | _ => false
  end.

(** Dates in the order of the calendar. *)
Definition earlier (a b : date) : Prop := date_compare a b = Lt.

(** [t] is a trading day of the calendar [df]: a date that a row of [df]
    holds in the column [calendar_date], written year-month-day with four
    and two digits as [strftime] writes it here, with ['1'] in the column
    [is_trading_day]. *)
Definition trading_day_of (df : DataFrame) (t : date) : Prop :=
  valid_date t = true
  /\ exists row,
       In row (df_rows df)
       /\ cell df "is_trading_day" row = "1"
       /\ cell df "calendar_date" row = strftime t.

(** A calendar with the two columns under their names, whose rows flagged
    ['1'] hold dates written that way. *)
Definition iso_calendar (df : DataFrame) : Prop :=
  has_column df "is_trading_day" = true
  /\ has_column df "calendar_date" = true
  /\ forall row,
       In row (df_rows df) ->
       cell df "is_trading_day" row = "1" ->
       exists t, valid_date t = true /\ cell df "calendar_date" row = strftime t.

(** The code points of [ſh600000], with the long s, and of [sh６０００００],
    with full-width digits. *)
Definition long_s_code : list Z := [383; 104; 54; 48; 48; 48; 48; 48].
Definition wide_digits_code : list Z :=
  [115; 104; 65302; 65296; 65296; 65296; 65296; 65296].

(* ===================================================================== *)
(** * Properties *)

(** ** The session guard *)

Lemma call_names_app : forall w c t,
  call_names (mk_world (fds w) (calls w ++ [(c, t)]) (clock w))
  = (call_names w ++ [c])%list.
Proof.
  intros w c t. unfold call_names. simpl. rewrite map_app. reflexivity.
Qed.

(** Entering the session: one login call is recorded, whatever the
    descriptor table looks like. *)
Lemma session_enter_calls : forall p w,
  exists w1,
    call_names w1 = (call_names w ++ [CallLogin])%list
    /\ clock w1 = clock w
    /\ session_enter p w =
       (match bs_login p with
        | Return lg =>
            if negb (String.eqb (error_code lg) "0")
            then Raise (mk_exn LoginError (login_failed_msg (error_msg lg)))
            else Return tt
        | Raise e => Raise e
        end, w1).
Proof.
  intros p [t cs now].
  cbv [session_enter bind sys_stdout_fileno ret os_dup os_open_devnull
       os_dup2 os_close modify_fds login record_call lift_outcome raise
       fds calls clock].
  destruct (fd_lookup t stdout_fd) as [f|];
    cbn [fds calls clock];
    destruct (bs_login p) as [lg|e];
    cbn [fds calls clock];
    try (destruct (negb (String.eqb (error_code lg) "0")));
    eexists; (split; [|split; [|reflexivity]]);
    unfold call_names; cbn [calls clock]; try rewrite map_app; reflexivity.
Qed.

(** Leaving the session: one logout call is recorded; the suite ends as
    the logout call does. *)
Lemma session_exit_calls : forall p w,
  exists w1,
    call_names w1 = (call_names w ++ [CallLogout])%list
    /\ clock w1 = clock w
    /\ session_exit p w =
       (match bs_logout p with
        | Return _ => Return tt
        | Raise e => Raise e
        end, w1).
Proof.
  intros p [t cs now].
  cbv [session_exit bind sys_stdout_fileno ret os_dup os_open_devnull
       os_dup2 os_close modify_fds logout record_call lift_outcome
       fds calls clock].
  destruct (fd_lookup t stdout_fd) as [f|];
    cbn [fds calls clock];
    destruct (bs_logout p) as [lo|e];
    cbn [fds calls clock];
    eexists; (split; [|split; [|reflexivity]]);
    unfold call_names; cbn [calls clock]; try rewrite map_app; reflexivity.
Qed.

(** The guard around any body, once login has succeeded: the body runs in
    some state [w1] reached by one login call, the [finally] suite follows
    it with one logout call, and the outcome is the one of the body unless
    the logout call raises. *)
Lemma guard_after_login : forall A p (body : M A) w,
  login_ok p ->
  exists w1 w3,
    call_names w1 = (call_names w ++ [CallLogin])%list
    /\ clock w1 = clock w
    /\ call_names w3 = (call_names (snd (body w1)) ++ [CallLogout])%list
    /\ baostock_login_context p body w =
       (match bs_logout p with
        | Return _ => fst (body w1)
        | Raise e => Raise e
        end, w3).
Proof.
  intros A p body w [lg [Hlg Hcode]].
  destruct (session_enter_calls p w) as [w1 [Hn1 [Hc1 He]]].
  rewrite Hlg, Hcode in He.
  change (negb (String.eqb "0" "0")) with false in He. cbv iota in He.
  destruct (session_exit_calls p (snd (body w1))) as [w3 [Hn3 [_ Hx]]].
  exists w1, w3. repeat split; try assumption.
  unfold baostock_login_context, bind, try_finally. rewrite He.
  destruct (body w1) as [r w2]. cbn [fst snd] in *. rewrite Hx.
  destruct (bs_logout p); reflexivity.
Qed.

Lemma login_ok_intro : forall lg lo rsp,
  error_code lg = "0" -> login_ok (mk_provider (Return lg) lo rsp).
Proof. intros lg lo rsp H. exists lg. split; [reflexivity | exact H]. Qed.

(** C1, as stated, fails: with a logout call that raises, the guard ends
    with the exception of the logout call, whether the body returned a
    value or raised its own exception. *)
Lemma logout_failure_masks_body_outcome :
  login_ok failing_logout
  /\ fst (baostock_login_context failing_logout (stub_body (Return 42))
            (initial_world jan10))
     = Raise connection_reset
  /\ fst (baostock_login_context failing_logout
            (stub_body (A := Z) (Raise (mk_exn ValueError "synthetic")))
            (initial_world jan10))
     = Raise connection_reset
  /\ ~ (forall (p : provider) (r : outcome Z) (w : world),
          login_ok p -> fst (baostock_login_context p (stub_body r) w) = r).
Proof.
  assert (Hok : login_ok failing_logout) by (apply login_ok_intro; reflexivity).
  split; [exact Hok|]. split; [reflexivity|]. split; [reflexivity|].
  intro H.
  specialize (H failing_logout (Return 42) (initial_world jan10) Hok).
  vm_compute in H. discriminate H.
Qed.

(** C1 (amended).  For every run of the guard whose login succeeds, around
    a body that returns or raises: the provider sees, after what it had
    seen, exactly login, the body, logout, in this order; and the guard
    ends as the body did whenever the logout call returns (its status is
    not looked at), while a logout call that raises ends the guard with its
    own exception. *)
Theorem guard_logout_once_after_body :
  forall (A : Type) (p : provider) (r : outcome A) (w : world),
    login_ok p ->
    call_names (snd (baostock_login_context p (stub_body r) w))
    = (call_names w ++ [CallLogin; CallBody; CallLogout])%list
    /\ fst (baostock_login_context p (stub_body r) w)
       = match bs_logout p with
         | Return _ => r
         | Raise e => Raise e
         end.
Proof.
  intros A p r w Hok.
  destruct (guard_after_login A p (stub_body r) w Hok)
    as [w1 [w3 [Hn1 [_ [Hn3 Hrun]]]]].
  rewrite Hrun. cbn [fst snd]. split.
  - rewrite Hn3.
    unfold stub_body, bind, record_call, lift_outcome. cbn [snd].
    rewrite call_names_app, Hn1, <- !app_assoc. reflexivity.
  - unfold stub_body, bind, record_call, lift_outcome. cbn [fst].
    reflexivity.
Qed.

Lemma guard_logout_once_after_body_witness :
  login_ok healthy
  /\ call_names (snd (baostock_login_context healthy
                        (stub_body (A := Z) (Raise (mk_exn ValueError "synthetic")))
                        (initial_world jan10)))
     = [CallLogin; CallBody; CallLogout]
  /\ fst (baostock_login_context healthy
            (stub_body (A := Z) (Raise (mk_exn ValueError "synthetic")))
            (initial_world jan10))
     = Raise (mk_exn ValueError "synthetic").
Proof.
  assert (Hok : login_ok healthy) by (apply login_ok_intro; reflexivity).
  split; [exact Hok|].
  exact (guard_logout_once_after_body Z healthy
           (Raise (mk_exn ValueError "synthetic")) (initial_world jan10) Hok).
Defined.

(** Where both session calls return, the stream is suppressed for exactly
    the two of them: the body runs with descriptor 1 on the terminal, and
    the terminal is back, with no descriptor left over, when the guard
    ends. *)
Lemma stdout_restored_when_calls_return :
  forall (A : Type) (lg lo : ResultData) rsp (r : outcome A) now,
    error_code lg = "0" ->
    let p := mk_provider (Return lg) (Return lo) rsp in
    let w' := snd (baostock_login_context p (stub_body r) (initial_world now)) in
    calls w' = [(CallLogin, Some DevNull); (CallBody, Some Terminal);
                (CallLogout, Some DevNull)]
    /\ stdout_target w' = Some Terminal
    /\ List.length (fds w') = 3%nat.
Proof.
  intros A lg lo rsp r now Hcode p w'. subst p w'.
  cbv [baostock_login_context session_enter session_exit try_finally stub_body
       bind sys_stdout_fileno ret raise os_dup os_open_devnull os_dup2 os_close
       modify_fds login logout record_call lift_outcome initial_world
       bs_login bs_logout fds calls clock].
  rewrite Hcode. vm_compute. repeat split.
Qed.

(** C2 fails on the code: when the login call itself raises, the guard
    leaves descriptor 1 on the null device (and the saved copy open), and
    the body never runs; when the logout call raises, the same holds at
    the end of the [finally] suite.  Nothing puts the stream back on these
    two paths. *)
Theorem stdout_lost_when_session_call_raises :
  forall (A : Type) (body : M A) (r : outcome A),
    stdout_target (initial_world jan10) = Some Terminal
    /\ baostock_login_context failing_login body (initial_world jan10)
       = (Raise connection_reset,
          mk_world [(1%nat, DevNull); (3%nat, Terminal);
                    (0%nat, Terminal); (2%nat, Terminal)]
                   [(CallLogin, Some DevNull)] jan10)
    /\ stdout_target
         (snd (baostock_login_context failing_login body (initial_world jan10)))
       = Some DevNull
    /\ fst (baostock_login_context failing_logout (stub_body r)
              (initial_world jan10))
       = Raise connection_reset
    /\ stdout_target
         (snd (baostock_login_context failing_logout (stub_body r)
                 (initial_world jan10)))
       = Some DevNull.
Proof.
  intros A body r. repeat split.
Qed.

(* ===================================================================== *)
(** ** The facade *)

Lemma reraise_known_fst : forall A unknown (body : M A) w,
  fst (reraise_known unknown body w) = closed_by unknown (fst (body w)).
Proof.
  intros A unknown body w. unfold reraise_known, try_except, closed_by.
  destruct (body w) as [[a|e] w1]; cbn [fst]; [reflexivity|].
  unfold raise. destruct (is_known_error e); reflexivity.
Qed.

(** One provider round trip inside the guard: login succeeded, the request
    was answered with [rs], and what follows the request does not depend
    on the state. *)
Lemma round_trip_fst : forall A p q (k : ResultData -> M A) rs kr w,
  login_ok p ->
  bs_respond p q = Return rs ->
  (forall w', fst (k rs w') = kr) ->
  fst (baostock_login_context p (rs <- query p q ;; k rs) w)
  = match bs_logout p with
    | Return _ => kr
    | Raise e => Raise e
    end.
Proof.
  intros A p q k rs kr w Hok Hrs Hk.
  destruct (guard_after_login A p (rs <- query p q ;; k rs) w Hok)
    as [w1 [w3 [_ [_ [_ Hrun]]]]].
  rewrite Hrun. cbn [fst].
  destruct (bs_logout p); [|reflexivity].
  unfold bind at 1. unfold query, bind, record_call, lift_outcome.
  rewrite Hrs. apply Hk.
Qed.

Lemma check_and_drain_run : forall n a e rs w,
  check_and_drain n a e rs w = (drained n a e rs, w).
Proof.
  intros n a e rs w. unfold check_and_drain, drained, drain, raise, ret.
  destruct (negb (String.eqb (error_code rs) "0")).
  - destruct (no_record_found rs); reflexivity.
  - destruct (is_nil (rs_rows rs)); reflexivity.
Qed.

Lemma check_and_drain_fst : forall n a e rs w,
  fst (check_and_drain n a e rs w) = drained n a e rs.
Proof. intros. rewrite check_and_drain_run. reflexivity. Qed.

(** The class of the error [drained] raises. *)
Lemma drained_error : forall n a e rs,
  error_code rs <> "0" ->
  exists msg,
    drained n a e rs
    = Raise (mk_exn (if no_record_found rs then NoDataFoundError
                     else DataSourceError) msg).
Proof.
  intros n a e rs Hcode. unfold drained.
  destruct (String.eqb_spec (error_code rs) "0") as [E|_]; [contradiction|].
  cbn [negb]. destruct (no_record_found rs); eexists; reflexivity.
Qed.

Lemma drained_empty : forall n a e rs,
  error_code rs = "0" -> rs_rows rs = [] ->
  drained n a e rs = Raise (mk_exn NoDataFoundError e).
Proof.
  intros n a e rs Hcode Hrows. unfold drained. rewrite Hcode, Hrows.
  reflexivity.
Qed.

Lemma drained_rows : forall n a e rs df,
  drained n a e rs = Return df -> df_rows df <> [].
Proof.
  intros n a e rs df. unfold drained.
  destruct (negb (String.eqb (error_code rs) "0")).
  - destruct (no_record_found rs); discriminate.
  - destruct (rs_rows rs) eqn:E; cbn [is_nil]; [discriminate|].
    intros H. injection H as <-. cbn [df_rows]. discriminate.
Qed.

(** A fetch that is a plain instance of the common skeleton. *)
Lemma skeleton_fst : forall p q unknown n a e w rs,
  login_ok p ->
  bs_respond p q = Return rs ->
  fst (reraise_known unknown
         (baostock_login_context p
            (rs <- query p q ;; check_and_drain n a e rs)) w)
  = closed_by unknown
      (match bs_logout p with
       | Return _ => drained n a e rs
       | Raise x => Raise x
       end).
Proof.
  intros p q unknown n a e w rs Hok Hrs.
  rewrite reraise_known_fst.
  rewrite (round_trip_fst _ p q _ rs (drained n a e rs) w Hok Hrs);
    [reflexivity|].
  intros w'. apply check_and_drain_fst.
Qed.

Lemma closed_by_raises : forall A unknown (e : exn),
  exists e', closed_by (A := A) unknown (Raise e) = Raise e'
             /\ (is_known_error e = true -> e' = e).
Proof.
  intros A unknown e. unfold closed_by.
  destruct (is_known_error e); eexists; split; try reflexivity.
  discriminate.
Qed.

Lemma get_trade_dates_fst : forall p s e w rs,
  login_ok p ->
  bs_respond p (query_trade_dates s e) = Return rs ->
  fst (get_trade_dates p s e w)
  = closed_by "获取交易日时发生未知错误: "
      (match bs_logout p with
       | Return _ => trade_dates_drained s e rs
       | Raise x => Raise x
       end).
Proof.
  intros p s e w rs Hok Hrs. unfold get_trade_dates.
  rewrite reraise_known_fst.
  rewrite (round_trip_fst _ p _ _ rs (trade_dates_drained s e rs) w Hok Hrs);
    [reflexivity|].
  intros w'. unfold trade_dates_drained, drain, raise, ret.
  destruct (negb (String.eqb (error_code rs) "0")); [reflexivity|].
  destruct (is_nil (rs_rows rs)); reflexivity.
Qed.

Lemma get_stock_basic_info_fst : forall p code fs w rs,
  login_ok p ->
  bs_respond p (query_stock_basic code) = Return rs ->
  fst (get_stock_basic_info p code fs w)
  = closed_by ("获取 " ++ code ++ " 的基本信息时发生未知错误: ")
      (match bs_logout p with
       | Return _ => basic_info_selected code fs rs
       | Raise x => Raise x
       end).
Proof.
  intros p code fs w rs Hok Hrs. unfold get_stock_basic_info. cbv zeta.
  rewrite reraise_known_fst.
  rewrite (round_trip_fst _ p _ _ rs (basic_info_selected code fs rs) w Hok Hrs);
    [reflexivity|].
  intros w'. unfold bind. rewrite check_and_drain_run.
  unfold basic_info_selected.
  destruct (drained _ _ _ rs) as [df|x]; [|reflexivity].
  destruct fs as [[|v fs]|]; try reflexivity.
  unfold raise, ret.
  destruct (is_nil (available_cols df (v :: fs))); reflexivity.
Qed.

Lemma get_historical_k_data_fst : forall p c s e fr a fs ff w rs,
  login_ok p ->
  _format_fields fs DEFAULT_K_FIELDS = Return ff ->
  bs_respond p (query_history_k_data_plus c ff s e fr a) = Return rs ->
  exists n ap em,
    fst (get_historical_k_data p c s e fr a fs w)
    = closed_by ("为 " ++ c ++ " 获取K线数据时发生未知错误: ")
        (match bs_logout p with
         | Return _ => drained n ap em rs
         | Raise x => Raise x
         end).
Proof.
  intros p c s e fr a fs ff w rs Hok Hff Hrs.
  unfold get_historical_k_data. cbv zeta.
  match goal with
  | |- context [check_and_drain ?n ?a ?e] => exists n, a, e
  end.
  rewrite reraise_known_fst. unfold bind at 1. unfold lift_outcome at 1.
  rewrite Hff.
  match goal with
  | |- context [check_and_drain ?n ?a ?e] =>
      rewrite (round_trip_fst _ p _ _ rs (drained n a e rs) w Hok Hrs);
        [reflexivity|]
  end.
  intros w'. apply check_and_drain_fst.
Qed.

(** What an answered fetch comes to.  [kr] is what the method makes of the
    answer [rs]; the guard and the closing clauses are around it. *)
Lemma answered_fetch : forall p f q rs w,
  login_ok p ->
  request_of f = Some q ->
  bs_respond p q = Return rs ->
  exists unknown kr,
    fst (run_fetch p f w)
    = closed_by unknown
        (match bs_logout p with
         | Return _ => kr
         | Raise x => Raise x
         end)
    /\ (error_code rs = "0" -> rs_rows rs = [] ->
        exists msg, kr = Raise (mk_exn NoDataFoundError msg))
    /\ (error_code rs <> "0" ->
        exists msg,
          kr = Raise (mk_exn (if is_trade_dates f then DataSourceError
                              else if no_record_found rs then NoDataFoundError
                              else DataSourceError) msg))
    /\ (forall df, kr = Return df -> df_rows df <> []).
Proof.
  intros p f q rs w Hok Hq Hrs.
  assert (Hskel : forall n a e,
    (error_code rs = "0" -> rs_rows rs = [] ->
        exists msg, drained n a e rs = Raise (mk_exn NoDataFoundError msg))
    /\ (error_code rs <> "0" ->
        exists msg,
          drained n a e rs
          = Raise (mk_exn (if no_record_found rs then NoDataFoundError
                           else DataSourceError) msg))
    /\ (forall df, drained n a e rs = Return df -> df_rows df <> [])).
  { intros n a e. split; [|split].
    - intros H0 Hr. eexists. apply drained_empty; assumption.
    - apply drained_error.
    - apply drained_rows. }
  destruct f; cbn [run_fetch request_of is_trade_dates] in *;
    try (injection Hq as <-;
         unfold get_profit_data, get_operation_data, get_growth_data,
           get_balance_data, get_cash_flow_data, get_dupont_data,
           _fetch_financial_data,
           get_sz50_stocks, get_hs300_stocks, get_zz500_stocks,
           _fetch_index_constituent_data,
           get_deposit_rate_data, get_loan_rate_data,
           get_required_reserve_ratio_data, get_money_supply_data_month,
           get_money_supply_data_year, _fetch_macro_data,
           get_dividend_data, get_adjust_factor_data,
           get_performance_express_report, get_forecast_report,
           get_stock_industry, get_all_stock;
         cbv zeta;
         match goal with
         | |- context [check_and_drain ?n ?a ?e] =>
             match goal with
             | |- context [get_stock_basic_info] => fail 1
             | _ =>
                 do 2 eexists; split;
                 [ apply (skeleton_fst p _ _ n a e w rs Hok Hrs)
                 | apply Hskel ]
             end
         end).
  - (* get_historical_k_data *)
    destruct (_format_fields fields0 DEFAULT_K_FIELDS) as [ff|x] eqn:Hff;
      [|discriminate].
    injection Hq as <-.
    destruct (get_historical_k_data_fst p code start_date end_date frequency
                adjust_flag fields0 ff w rs Hok Hff Hrs) as [n [ap [em H]]].
    do 2 eexists. split; [exact H | apply Hskel].
  - (* get_stock_basic_info *)
    injection Hq as <-.
    do 2 eexists. split;
      [apply (get_stock_basic_info_fst p code fields0 w rs Hok Hrs)|].
    unfold basic_info_selected.
    match goal with
    | |- context [drained ?n ?a ?e rs] =>
        destruct (Hskel n a e) as [He [Hc Hr]];
        destruct (drained n a e rs) as [df0|x] eqn:Hd
    end.
    + split; [|split].
      * intros H0 H1. destruct (He H0 H1) as [msg Hm]. discriminate.
      * intros H0. destruct (Hc H0) as [msg Hm]. discriminate.
      * intros df. specialize (Hr df0 eq_refl).
        destruct fields0 as [[|v fs]|]; try (intros H; injection H as <-; exact Hr).
        destruct (is_nil (available_cols df0 (v :: fs))); [discriminate|].
        intros H; injection H as <-. unfold df_select. cbn [df_rows].
        destruct (df_rows df0); [contradiction|discriminate].
    + split; [|split].
      * intros H0 H1. exact (He H0 H1).
      * intros H0. exact (Hc H0).
      * discriminate.
  - (* get_trade_dates *)
    injection Hq as <-.
    do 2 eexists. split;
      [apply (get_trade_dates_fst p start_date end_date w rs Hok Hrs)|].
    unfold trade_dates_drained. split; [|split].
    + intros H0 H1. rewrite H0, H1. eexists. reflexivity.
    + intros H0.
      destruct (String.eqb_spec (error_code rs) "0") as [E|_]; [contradiction|].
      eexists. reflexivity.
    + intros df.
      destruct (negb (String.eqb (error_code rs) "0")); [discriminate|].
      destruct (rs_rows rs); cbn [is_nil]; [discriminate|].
      intros H; injection H as <-. discriminate.
Qed.

Lemma closed_by_known : forall A unknown cls msg,
  is_known_error (mk_exn cls msg) = true ->
  closed_by (A := A) unknown (Raise (mk_exn cls msg)) = Raise (mk_exn cls msg).
Proof. intros A unknown cls msg H. unfold closed_by. rewrite H. reflexivity. Qed.

(** Every fetch but the trading calendar one applies the same rule to a
    status other than ['0']. *)
Lemma status_classified_by_the_other_fetches : forall p f q rs w,
  login_ok p -> logout_returns p ->
  request_of f = Some q ->
  bs_respond p q = Return rs ->
  error_code rs <> "0" ->
  is_trade_dates f = false ->
  exists msg,
    fst (run_fetch p f w)
    = Raise (mk_exn (if no_record_found rs then NoDataFoundError
                     else DataSourceError) msg).
Proof.
  intros p f q rs w Hok [lo Hlo] Hq Hrs Hcode Hf.
  destruct (answered_fetch p f q rs w Hok Hq Hrs)
    as [unknown [kr [Hrun [_ [Hc _]]]]].
  destruct (Hc Hcode) as [msg Hkr]. rewrite Hf in Hkr.
  exists msg. rewrite Hrun, Hlo, Hkr.
  apply closed_by_known. destruct (no_record_found rs); reflexivity.
Qed.

(** The trading calendar fetch raises [DataSourceError] for every status
    other than ['0'], the sentinel and the message pattern included. *)
Lemma trade_dates_status_is_DataSourceError : forall p s e rs w,
  login_ok p -> logout_returns p ->
  bs_respond p (query_trade_dates s e) = Return rs ->
  error_code rs <> "0" ->
  fst (get_trade_dates p s e w)
  = Raise (mk_exn DataSourceError
             ("获取交易日时 Baostock API 发生错误: " ++ with_code rs)).
Proof.
  intros p s e rs w Hok [lo Hlo] Hrs Hcode.
  rewrite (get_trade_dates_fst p s e w rs Hok Hrs), Hlo.
  unfold trade_dates_drained.
  destruct (String.eqb_spec (error_code rs) "0") as [E|_]; [contradiction|].
  reflexivity.
Qed.

(** C3 fails on the code at the trading calendar fetch: an answer with the
    sentinel code and the message pattern, which [get_all_stock] and the
    other fetches raise as [NoDataFoundError], is raised by
    [get_trade_dates] as [DataSourceError]. *)
Theorem trade_dates_no_record_is_DataSourceError :
  no_record_found no_record_answer = true
  /\ fst (get_trade_dates no_record_provider
            (Some "2025-01-01") (Some "2025-01-28") (initial_world jan10))
     = Raise (mk_exn DataSourceError
                "获取交易日时 Baostock API 发生错误: No record found (错误码: 10002)")
  /\ fst (get_all_stock no_record_provider (Some "2025-01-10")
            (initial_world jan10))
     = Raise (mk_exn NoDataFoundError
                "未找到日期 2025-01-10 的股票数据。Baostock 消息: No record found").
Proof. repeat split. Qed.

(** C4, as stated, fails where the logout call raises: the provider
    answers ['0'] without rows, and what the fetch raises is the exception
    of the logout, wrapped into a [DataSourceError], instead of the
    [NoDataFoundError] of the empty answer. *)
Lemma empty_answer_with_failing_logout_is_no_NoData :
  error_code empty_answer = "0"
  /\ rs_rows empty_answer = []
  /\ fst (run_fetch empty_failing_logout
            (Fetch_profit_data "sh.600000" "2023" 4) (initial_world jan10))
     = Raise (mk_exn DataSourceError
                "获取 盈利能力 数据时发生未知错误，代码 sh.600000: connection reset")
  /\ ~ (forall (p : provider) (f : fetch) (q : bs_query) (rs : ResultData)
               (w : world),
          login_ok p ->
          request_of f = Some q ->
          bs_respond p q = Return rs ->
          error_code rs = "0" ->
          rs_rows rs = [] ->
          exists msg, fst (run_fetch p f w) = Raise (mk_exn NoDataFoundError msg)).
Proof.
  split; [reflexivity|]. split; [reflexivity|].
  split; [vm_compute; reflexivity|].
  intros H.
  destruct (H empty_failing_logout (Fetch_profit_data "sh.600000" "2023" 4)
              (query_profit_data "sh.600000" "2023" 4) empty_answer
              (initial_world jan10))
    as [msg Hmsg];
    try reflexivity; [apply login_ok_intro; reflexivity|].
  vm_compute in Hmsg. discriminate Hmsg.
Qed.

(** C4 (amended).  For every fetch method whose request the provider
    answers with status ['0'] and a cursor without rows, after a login
    that succeeded: the call raises, it returns no frame.  Where the
    logout call returns, what it raises is a [NoDataFoundError].  Where
    the logout call raises, its exception takes the place of that error:
    it reaches the caller as it is when it is of one of the classes of the
    facade, and otherwise as a [DataSourceError] whose message ends with
    its message. *)
Theorem success_without_rows_is_NoData :
  forall (p : provider) (f : fetch) (q : bs_query) (rs : ResultData) (w : world),
    login_ok p ->
    request_of f = Some q ->
    bs_respond p q = Return rs ->
    error_code rs = "0" ->
    rs_rows rs = [] ->
    exists e,
      fst (run_fetch p f w) = Raise e
      /\ (logout_returns p -> exn_cls e = NoDataFoundError)
      /\ (forall x, bs_logout p = Raise x ->
          (is_known_error x = true -> e = x)
          /\ (is_known_error x = false ->
              exn_cls e = DataSourceError
              /\ exists prefix, exn_str e = prefix ++ exn_str x)).
Proof.
  intros p f q rs w Hok Hq Hrs Hcode Hrows.
  destruct (answered_fetch p f q rs w Hok Hq Hrs)
    as [unknown [kr [Hrun [He _]]]].
  destruct (He Hcode Hrows) as [msg Hkr]. rewrite Hrun, Hkr.
  destruct (bs_logout p) as [lo|x] eqn:Hlo.
  - exists (mk_exn NoDataFoundError msg). split; [|split; [reflexivity|]].
    + apply closed_by_known. reflexivity.
    + intros x Hx. discriminate Hx.
  - unfold closed_by. destruct (is_known_error x) eqn:Hk.
    + exists x. split; [reflexivity|]. split.
      * intros [lo Hlo']. congruence.
      * intros x' Hx'. injection Hx' as <-. split; [reflexivity|].
        rewrite Hk. discriminate.
    + eexists. split; [reflexivity|]. split.
      * intros [lo Hlo']. congruence.
      * intros x' Hx'. injection Hx' as <-. split.
        -- rewrite Hk. discriminate.
        -- intros _. split; [reflexivity|]. exists unknown. reflexivity.
Qed.

Lemma success_without_rows_is_NoData_witness :
  exists e,
    fst (run_fetch empty_provider
           (Fetch_profit_data "sh.600000" "2023" 4) (initial_world jan10))
    = Raise e
    /\ (logout_returns empty_provider -> exn_cls e = NoDataFoundError)
    /\ (forall x, bs_logout empty_provider = Raise x ->
        (is_known_error x = true -> e = x)
        /\ (is_known_error x = false ->
            exn_cls e = DataSourceError
            /\ exists prefix, exn_str e = prefix ++ exn_str x)).
Proof.
  apply (success_without_rows_is_NoData empty_provider
           (Fetch_profit_data "sh.600000" "2023" 4)
           (query_profit_data "sh.600000" "2023" 4) empty_answer).
  - apply login_ok_intro. reflexivity.
  - reflexivity.
  - reflexivity.
  - reflexivity.
  - reflexivity.
Defined.

(** An answered fetch that returns a frame returns one with rows. *)
Lemma answered_fetch_has_rows : forall p f q rs w df,
  login_ok p ->
  request_of f = Some q ->
  bs_respond p q = Return rs ->
  fst (run_fetch p f w) = Return df ->
  df_rows df <> [].
Proof.
  intros p f q rs w df Hok Hq Hrs Hdf.
  destruct (answered_fetch p f q rs w Hok Hq Hrs)
    as [unknown [kr [Hrun [_ [_ Hr]]]]].
  rewrite Hrun in Hdf.
  destruct (bs_logout p) as [lo|x].
  - destruct kr as [df'|x]; cbn [closed_by] in Hdf.
    + injection Hdf as <-. apply Hr. reflexivity.
    + destruct (is_known_error x); discriminate.
  - cbn [closed_by] in Hdf. destruct (is_known_error x); discriminate.
Qed.

(* ===================================================================== *)
(** ** The order of strings *)

Lemma ascii_compare_refl : forall a : ascii, Ascii.compare a a = Eq.
Proof. intros a. unfold Ascii.compare. apply N.compare_refl. Qed.

Lemma ascii_compare_lt_trans : forall a b c : ascii,
  Ascii.compare a b = Lt -> Ascii.compare b c = Lt -> Ascii.compare a c = Lt.
Proof.
  unfold Ascii.compare. intros a b c H1 H2.
  rewrite N.compare_lt_iff in *. eapply N.lt_trans; eassumption.
Qed.

Lemma str_compare_refl : forall s : string, String.compare s s = Eq.
Proof.
  induction s as [|c s IH]; cbn; [reflexivity|].
  rewrite ascii_compare_refl. exact IH.
Qed.

Lemma str_compare_lt_trans : forall a b c : string,
  String.compare a b = Lt -> String.compare b c = Lt -> String.compare a c = Lt.
Proof.
  induction a as [|x a IH]; intros [|y b] [|z c]; cbn; try congruence.
  destruct (Ascii.compare x y) eqn:Exy; try discriminate;
    destruct (Ascii.compare y z) eqn:Eyz; try discriminate; intros H1 H2.
  - apply Ascii.compare_eq_iff in Exy, Eyz. subst. rewrite ascii_compare_refl.
    eapply IH; eassumption.
  - apply Ascii.compare_eq_iff in Exy. subst. rewrite Eyz. reflexivity.
  - apply Ascii.compare_eq_iff in Eyz. subst. rewrite Exy. reflexivity.
  - rewrite (ascii_compare_lt_trans x y z Exy Eyz). reflexivity.
Qed.

Lemma str_leb_refl : forall s, String.leb s s = true.
Proof. intros s. unfold String.leb. rewrite str_compare_refl. reflexivity. Qed.

Lemma str_leb_trans : forall a b c,
  String.leb a b = true -> String.leb b c = true -> String.leb a c = true.
Proof.
  unfold String.leb. intros a b c H1 H2.
  destruct (String.compare a b) eqn:Eab; try discriminate;
    destruct (String.compare b c) eqn:Ebc; try discriminate.
  - apply String.compare_eq_iff in Eab, Ebc. subst.
    rewrite str_compare_refl. reflexivity.
  - apply String.compare_eq_iff in Eab. subst. rewrite Ebc. reflexivity.
  - apply String.compare_eq_iff in Ebc. subst. rewrite Eab. reflexivity.
  - rewrite (str_compare_lt_trans a b c Eab Ebc). reflexivity.
Qed.

Lemma str_leb_false_flip : forall a b,
  String.leb a b = false -> String.leb b a = true.
Proof.
  intros a b H. destruct (String.leb_total a b) as [E|E]; congruence.
Qed.

(* ===================================================================== *)
(** ** Sorting the rows *)

Section SortRows.

Variable key : list string -> string.

Lemma insert_by_perm : forall row l,
  Permutation (row :: l) (insert_by key row l).
Proof.
  intros row l. induction l as [|r l IH]; cbn; [apply Permutation_refl|].
  destruct (String.leb (key row) (key r)); [apply Permutation_refl|].
  eapply perm_trans; [apply perm_swap|]. apply perm_skip. exact IH.
Qed.

Lemma sort_rows_perm : forall l, Permutation l (sort_rows key l).
Proof.
  induction l as [|r l IH]; cbn; [apply perm_nil|].
  eapply perm_trans; [apply perm_skip; exact IH|]. apply insert_by_perm.
Qed.

Lemma insert_by_sorted : forall row l,
  StronglySorted (key_le key) l -> StronglySorted (key_le key) (insert_by key row l).
Proof.
  intros row l Hs. induction Hs as [|r l Hs IH Hall]; cbn.
  - constructor; constructor.
  - destruct (String.leb (key row) (key r)) eqn:E.
    + constructor; [constructor; assumption|].
      constructor; [exact E|].
      rewrite Forall_forall in *. intros x Hx.
      unfold key_le in *. eapply str_leb_trans; [exact E|]. apply Hall, Hx.
    + constructor; [exact IH|].
      rewrite Forall_forall in *. intros x Hx.
      apply (Permutation_in _ (Permutation_sym (insert_by_perm row l))) in Hx.
      destruct Hx as [<-|Hx]; [|apply Hall, Hx].
      apply str_leb_false_flip, E.
Qed.

Lemma sort_rows_sorted : forall l, StronglySorted (key_le key) (sort_rows key l).
Proof.
  induction l as [|r l IH]; cbn; [constructor|].
  apply insert_by_sorted, IH.
Qed.

Lemma sorted_hd_least : forall l r,
  StronglySorted (key_le key) l -> In r l -> key_le key (hd [] l) r.
Proof.
  intros l r Hs Hin. destruct Hs as [|x l Hs Hall]; [contradiction|].
  cbn. destruct Hin as [<-|Hin]; [apply str_leb_refl|].
  rewrite Forall_forall in Hall. apply Hall, Hin.
Qed.

Lemma sorted_last_greatest : forall l r,
  StronglySorted (key_le key) l -> In r l -> key_le key r (last l []).
Proof.
  intros l r Hs. revert r.
  induction Hs as [|x l Hs IH Hall]; intros r Hin; [contradiction|].
  destruct l as [|y l].
  - destruct Hin as [<-|[]]. apply str_leb_refl.
  - change (last (x :: y :: l) []) with (last (y :: l) []).
    destruct Hin as [<-|Hin]; [|apply IH, Hin].
    rewrite Forall_forall in Hall.
    unfold key_le. eapply str_leb_trans; [apply (Hall y); left; reflexivity|].
    apply IH. left. reflexivity.
Qed.

Lemma last_in : forall (l : list (list string)), l <> [] -> In (last l []) l.
Proof.
  induction l as [|x l IH]; [congruence|]. intros _.
  destruct l as [|y l]; [left; reflexivity|].
  right. apply IH. discriminate.
Qed.

Lemma hd_in : forall (l : list (list string)), l <> [] -> In (hd [] l) l.
Proof. destruct l; [congruence|]. intros _. left. reflexivity. Qed.

Lemma sort_rows_nil : forall l, sort_rows key l = [] -> l = [].
Proof.
  intros l H. apply Permutation_nil. rewrite <- H.
  apply Permutation_sym, sort_rows_perm.
Qed.

(** The last row of the sorted rows carries the greatest key, the first
    one the least. *)
Lemma sort_rows_last : forall l,
  l <> [] ->
  In (last (sort_rows key l) []) l
  /\ forall r, In r l -> key_le key r (last (sort_rows key l) []).
Proof.
  intros l Hl.
  assert (Hne : sort_rows key l <> []).
  { intros H. apply Hl, sort_rows_nil, H. }
  split.
  - apply (Permutation_in _ (Permutation_sym (sort_rows_perm l))).
    apply last_in, Hne.
  - intros r Hr. apply sorted_last_greatest; [apply sort_rows_sorted|].
    apply (Permutation_in _ (sort_rows_perm l)), Hr.
Qed.

Lemma sort_rows_hd : forall l,
  l <> [] ->
  In (hd [] (sort_rows key l)) l
  /\ forall r, In r l -> key_le key (hd [] (sort_rows key l)) r.
Proof.
  intros l Hl.
  assert (Hne : sort_rows key l <> []).
  { intros H. apply Hl, sort_rows_nil, H. }
  split.
  - apply (Permutation_in _ (Permutation_sym (sort_rows_perm l))).
    apply hd_in, Hne.
  - intros r Hr. apply sorted_hd_least; [apply sort_rows_sorted|].
    apply (Permutation_in _ (sort_rows_perm l)), Hr.
Qed.

End SortRows.

(* ===================================================================== *)
(** ** Ordinals of dates *)

Lemma days_in_month_bounds : forall y m, 28 <= days_in_month y m <= 31.
Proof.
  intros y m. unfold days_in_month.
  destruct (m =? 2); [destruct (is_leap y); lia|].
  destruct ((m =? 4) || (m =? 6) || (m =? 9) || (m =? 11)); lia.
Qed.

Lemma days_before_month_succ : forall y m,
  1 <= m ->
  days_before_month y (m + 1) = days_before_month y m + days_in_month y m.
Proof.
  intros y m Hm. unfold days_before_month.
  replace (Z.to_nat (m + 1 - 1)) with (S (Z.to_nat (m - 1))) by lia.
  cbn [days_before_month_nat]. f_equal. f_equal. lia.
Qed.

Lemma days_before_month_13 : forall y, days_before_month y 13 = year_length y.
Proof.
  intros y. unfold days_before_month, year_length.
  change (Z.to_nat (13 - 1)) with 12%nat.
  cbn [days_before_month_nat]. unfold days_in_month. cbn.
  destruct (is_leap y); reflexivity.
Qed.

Lemma month_day_of_spec : forall y fuel m n,
  1 <= m -> m + Z.of_nat fuel = 12 -> 0 <= n ->
  days_before_month y m + n < days_before_month y 13 ->
  m <= fst (month_day_of y fuel m n) <= 12
  /\ 1 <= snd (month_day_of y fuel m n)
       <= days_in_month y (fst (month_day_of y fuel m n))
  /\ days_before_month y (fst (month_day_of y fuel m n))
     + snd (month_day_of y fuel m n)
     = days_before_month y m + n + 1.
Proof.
  intros y fuel. induction fuel as [|fuel IH]; intros m n Hm Hf Hn Hlt.
  - cbn [month_day_of fst snd].
    assert (m = 12) by lia. subst m.
    replace 13 with (12 + 1) in Hlt by lia.
    rewrite days_before_month_succ in Hlt by lia. lia.
  - cbn [month_day_of].
    destruct (Z.ltb_spec n (days_in_month y m)) as [Hlt'|Hge].
    + cbn [fst snd]. lia.
    + pose proof (days_in_month_bounds y m) as Hb.
      destruct (IH (m + 1) (n - days_in_month y m)) as [H1 [H2 H3]];
        try lia.
      * rewrite days_before_month_succ by lia. lia.
      * rewrite days_before_month_succ in H3 by lia.
        repeat split; lia.
Qed.

Lemma days_before_month_1 : forall y, days_before_month y 1 = 0.
Proof. reflexivity. Qed.

Lemma is_leap_spec : forall y,
  is_leap y = true <-> (y mod 4 = 0 /\ (y mod 100 <> 0 \/ y mod 400 = 0)).
Proof.
  intros y. unfold is_leap.
  rewrite andb_true_iff, orb_true_iff, negb_true_iff, !Z.eqb_eq, Z.eqb_neq.
  tauto.
Qed.

Lemma ymd2ord_ord2ymd : forall o, 1 <= o -> ymd2ord (ord2ymd o) = o.
Proof.
  intros o Ho. unfold ord2ymd.
  set (n := o - 1).
  set (n400 := n / DI400Y). set (r := n mod DI400Y).
  set (n100 := r / DI100Y). set (r2 := r mod DI100Y).
  set (n4 := r2 / DI4Y). set (r3 := r2 mod DI4Y).
  set (n1 := r3 / 365). set (r4 := r3 mod 365).
  cbv zeta.
  set (y := n400 * 400 + 1 + n100 * 100 + n4 * 4 + n1).
  assert (Hfacts :
    0 <= n400 /\ 0 <= n100 <= 4 /\ 0 <= n4 <= 24 /\ 0 <= n1 <= 4
    /\ 0 <= r4 < 365
    /\ n = n400 * 146097 + n100 * 36524 + n4 * 1461 + n1 * 365 + r4
    /\ (n100 = 4 -> n4 = 0 /\ n1 = 0 /\ r4 = 0)
    /\ (n1 = 4 -> r4 = 0 /\ (n100 <> 4 -> n4 <= 23))
    /\ (n4 = 24 -> n1 <= 3)).
  { subst n400 r n100 r2 n4 r3 n1 r4. unfold DI400Y, DI100Y, DI4Y.
    assert (0 <= n) by (subst n; lia).
    Z.div_mod_to_equations. lia. }
  destruct Hfacts as [H400 [H100 [H4 [H1 [Hr4 [Hn [Hc100 [Hc1 Hc4]]]]]]]].
  assert (Hdby : forall k100 k4 k1,
            0 <= k100 <= 3 -> 0 <= k4 <= 24 -> 0 <= k1 <= 3 ->
            days_before_year (n400 * 400 + 1 + k100 * 100 + k4 * 4 + k1)
            = n400 * 146097 + k100 * 36524 + k4 * 1461 + k1 * 365).
  { intros k100 k4 k1 ? ? ?. unfold days_before_year. cbv zeta.
    Z.div_mod_to_equations. lia. }
  destruct ((n1 =? 4) || (n100 =? 4)) eqn:Hspecial.
  - (* the last day of a leap year *)
    unfold ymd2ord. cbn [year month day].
    assert (Hleap : is_leap (y - 1) = true).
    { apply is_leap_spec. subst y.
      apply orb_true_iff in Hspecial. rewrite !Z.eqb_eq in Hspecial.
      destruct (Z.eq_dec n100 4) as [E|E].
      - destruct (Hc100 E) as [-> [-> _]]. rewrite E.
        Z.div_mod_to_equations. lia.
      - destruct Hspecial as [E1|E1]; [|contradiction].
        destruct (Hc1 E1) as [_ Hn4]. specialize (Hn4 E). rewrite E1.
        Z.div_mod_to_equations. lia. }
    assert (Hdbm : days_before_month (y - 1) 12 = 335).
    { unfold days_before_month. change (Z.to_nat (12 - 1)) with 11%nat.
      cbn [days_before_month_nat]. unfold days_in_month. cbn.
      rewrite Hleap. reflexivity. }
    rewrite Hdbm.
    apply orb_true_iff in Hspecial. rewrite !Z.eqb_eq in Hspecial.
    destruct (Z.eq_dec n100 4) as [E|E].
    + destruct (Hc100 E) as [E4 [E1 Er]].
      replace (y - 1) with (n400 * 400 + 1 + 3 * 100 + 24 * 4 + 3)
        by (subst y; lia).
      rewrite Hdby by lia. subst n. lia.
    + destruct Hspecial as [E1|E1]; [|contradiction].
      destruct (Hc1 E1) as [Er Hn4]. specialize (Hn4 E).
      replace (y - 1) with (n400 * 400 + 1 + n100 * 100 + n4 * 4 + 3)
        by (subst y; lia).
      rewrite Hdby by lia. subst n. lia.
  - apply orb_false_iff in Hspecial. rewrite !Z.eqb_neq in Hspecial.
    destruct Hspecial as [Hn1 Hn100].
    destruct (month_day_of y 11 1 r4) as [m d] eqn:Emd.
    pose proof (month_day_of_spec y 11 1 r4) as Hspec.
    rewrite Emd in Hspec. cbn [fst snd] in Hspec.
    rewrite days_before_month_13, days_before_month_1 in Hspec.
    destruct Hspec as [Hm [Hd Hsum]]; try lia.
    { unfold year_length. destruct (is_leap y); lia. }
    unfold ymd2ord. cbn [year month day].
    subst y. rewrite Hdby by lia. subst n. lia.
Qed.

Example ordinal_examples :
  ymd2ord (mk_date 1 1 1) = 1
  /\ ymd2ord (mk_date 9999 12 31) = MAXORDINAL
  /\ ord2ymd 739559 = mk_date 2025 11 4
  /\ add_days (mk_date 2024 3 1) (-30) = Return (mk_date 2024 1 31)
  /\ add_days (mk_date 2023 12 15) 30 = Return (mk_date 2024 1 14)
  /\ strptime "2024-02-29" = Return (mk_date 2024 2 29)
  /\ strftime (mk_date 2024 2 9) = "2024-02-09".
Proof. repeat split. Qed.

(** Adding days moves the ordinal by as much. *)
Lemma add_days_ordinal : forall d n d',
  add_days d n = Return d' -> ymd2ord d' = ymd2ord d + n.
Proof.
  intros d n d' H. unfold add_days in H.
  destruct ((1 <=? ymd2ord d + n) && (ymd2ord d + n <=? MAXORDINAL)) eqn:E;
    [|discriminate].
  injection H as <-. apply andb_true_iff in E. destruct E as [E _].
  apply ymd2ord_ord2ymd. apply Z.leb_le, E.
Qed.

(* ===================================================================== *)
(** ** Dates as strings *)

Lemma valid_date_inv : forall d,
  valid_date d = true ->
  MINYEAR <= year d <= MAXYEAR /\ 1 <= month d <= 12
  /\ 1 <= day d <= days_in_month (year d) (month d).
Proof.
  intros d H. unfold valid_date in H.
  repeat (apply andb_true_iff in H; destruct H as [H ?]).
  rewrite !Z.leb_le in *. lia.
Qed.

Lemma below_In : forall n a, 0 <= a < n -> In a (below n).
Proof.
  intros n a H. unfold below. apply in_map_iff.
  exists (Z.to_nat a). split; [lia|]. apply in_seq. lia.
Qed.

Lemma comparison_eqb_eq : forall a b, comparison_eqb a b = true -> a = b.
Proof. intros [] []; cbn; congruence. Qed.

Lemma fmt_02d_compare : forall a b,
  0 <= a <= 99 -> 0 <= b <= 99 ->
  String.compare (fmt_02d a) (fmt_02d b) = (a ?= b).
Proof.
  assert (H : forallb (fun a => forallb (fun b =>
              comparison_eqb (String.compare (fmt_02d a) (fmt_02d b)) (a ?= b))
              (below 100)) (below 100) = true) by (vm_compute; reflexivity).
  intros a b Ha Hb. rewrite forallb_forall in H.
  specialize (H a (below_In 100 a ltac:(lia))). rewrite forallb_forall in H.
  apply comparison_eqb_eq, H, below_In. lia.
Qed.

Lemma fmt_04d_split : forall a,
  0 <= a <= 9999 -> fmt_04d a = fmt_02d (a / 100) ++ fmt_02d (a mod 100).
Proof.
  assert (H : forallb (fun a =>
              String.eqb (fmt_04d a) (fmt_02d (a / 100) ++ fmt_02d (a mod 100)))
              (below 10000) = true) by (vm_compute; reflexivity).
  intros a Ha. rewrite forallb_forall in H.
  apply String.eqb_eq, H, below_In. lia.
Qed.

Lemma fmt_02d_length : forall a, 0 <= a <= 99 -> String.length (fmt_02d a) = 2%nat.
Proof.
  assert (H : forallb (fun a => Nat.eqb (String.length (fmt_02d a)) 2)
                (below 100) = true) by (vm_compute; reflexivity).
  intros a Ha. rewrite forallb_forall in H.
  apply Nat.eqb_eq, H, below_In. lia.
Qed.

(** Strings of one length compare by their heads first. *)
Lemma compare_append : forall s1 s2 t1 t2,
  String.length s1 = String.length s2 ->
  String.compare (s1 ++ t1) (s2 ++ t2)
  = match String.compare s1 s2 with
    | Eq => String.compare t1 t2
    | c => c
    end.
Proof.
  induction s1 as [|c1 s1 IH]; intros [|c2 s2] t1 t2 Hlen;
    try discriminate; cbn [append String.compare]; [reflexivity|].
  destruct (Ascii.compare c1 c2); try reflexivity.
  apply IH. cbn in Hlen. congruence.
Qed.

Lemma fmt_04d_compare : forall a b,
  0 <= a <= 9999 -> 0 <= b <= 9999 ->
  String.compare (fmt_04d a) (fmt_04d b) = (a ?= b).
Proof.
  intros a b Ha Hb.
  rewrite !fmt_04d_split by assumption.
  assert (0 <= a / 100 <= 99 /\ 0 <= a mod 100 <= 99
          /\ 0 <= b / 100 <= 99 /\ 0 <= b mod 100 <= 99)
    as [Ha1 [Ha2 [Hb1 Hb2]]] by (Z.div_mod_to_equations; lia).
  rewrite compare_append by (rewrite !fmt_02d_length by assumption; reflexivity).
  rewrite !fmt_02d_compare by assumption.
  destruct (Z.compare_spec (a / 100) (b / 100)) as [E|E|E];
    [destruct (Z.compare_spec (a mod 100) (b mod 100)) as [E'|E'|E']|..];
    symmetry;
    first [apply Z.compare_eq_iff | apply Z.compare_lt_iff | apply Z.compare_gt_iff];
    Z.div_mod_to_equations; lia.
Qed.

Lemma fmt_04d_length : forall a,
  0 <= a <= 9999 -> String.length (fmt_04d a) = 4%nat.
Proof.
  intros a Ha. rewrite fmt_04d_split by assumption.
  assert (0 <= a / 100 <= 99 /\ 0 <= a mod 100 <= 99) as [H1 H2]
    by (Z.div_mod_to_equations; lia).
  pose proof (fmt_02d_length _ H1). pose proof (fmt_02d_length _ H2).
  destruct (fmt_02d (a / 100)) as [|x [|y [|z s]]]; try discriminate.
  cbn [append String.length]. rewrite H0. reflexivity.
Qed.

(** Dates written by [strftime] compare as the dates do. *)
Lemma strftime_compare : forall d1 d2,
  valid_date d1 = true -> valid_date d2 = true ->
  String.compare (strftime d1) (strftime d2) = date_compare d1 d2.
Proof.
  intros d1 d2 H1 H2.
  destruct (valid_date_inv d1 H1) as [Hy1 [Hm1 Hd1]].
  destruct (valid_date_inv d2 H2) as [Hy2 [Hm2 Hd2]].
  pose proof (days_in_month_bounds (year d1) (month d1)).
  pose proof (days_in_month_bounds (year d2) (month d2)).
  unfold MINYEAR, MAXYEAR in *.
  unfold strftime, date_compare.
  rewrite compare_append by (rewrite !fmt_04d_length by lia; reflexivity).
  rewrite fmt_04d_compare by lia.
  destruct (year d1 ?= year d2); try reflexivity.
  cbn [append String.compare]. rewrite ascii_compare_refl.
  rewrite compare_append by (rewrite !fmt_02d_length by lia; reflexivity).
  rewrite fmt_02d_compare by lia.
  destruct (month d1 ?= month d2); try reflexivity.
  cbn [append String.compare]. rewrite ascii_compare_refl.
  apply fmt_02d_compare; lia.
Qed.

(** For an anchor and a row that are written as [strftime] writes dates,
    the row is before (after) the anchor as a string exactly when its
    date is before (after) the date of the anchor. *)
Lemma iso_rows_compare_as_dates : forall df row d_row d_anchor,
  valid_date d_row = true -> valid_date d_anchor = true ->
  day_of df row = strftime d_row ->
  (is_before (strftime d_anchor) df row
   <-> flagged df row /\ date_compare d_row d_anchor = Lt)
  /\ (is_after (strftime d_anchor) df row
      <-> flagged df row /\ date_compare d_anchor d_row = Lt).
Proof.
  intros df row d_row d_anchor Hr Ha Hday.
  unfold is_before, is_after, String.ltb. rewrite Hday.
  rewrite (strftime_compare d_row d_anchor Hr Ha).
  rewrite (strftime_compare d_anchor d_row Ha Hr).
  split; split; intros [Hf Hc]; (split; [exact Hf|]).
  - destruct (date_compare d_row d_anchor); congruence.
  - rewrite Hc. reflexivity.
  - destruct (date_compare d_anchor d_row); congruence.
  - rewrite Hc. reflexivity.
Qed.

(** [strptime] reads what [strftime] writes. *)
Lemma parse_Y_fmt : forall y rest,
  0 <= y <= 9999 -> parse_Y (fmt_04d y ++ rest) = Some (y, rest).
Proof.
  assert (H : forallb (fun y => four_digits_of y (fmt_04d y)) (below 10000) = true)
    by (vm_compute; reflexivity).
  intros y rest Hy. rewrite forallb_forall in H.
  specialize (H y (below_In 10000 y ltac:(lia))).
  unfold four_digits_of in H.
  destruct (fmt_04d y) as [|a [|b [|c [|d [|x s]]]]]; try discriminate.
  cbn [append parse_Y].
  apply andb_true_iff in H. destruct H as [Hd Hv].
  rewrite Hd. apply Z.eqb_eq in Hv. rewrite Hv. reflexivity.
Qed.

Lemma parse_m_fmt : forall m rest,
  1 <= m <= 12 -> parse_m (fmt_02d m ++ String "-" rest) = Some (m, String "-" rest).
Proof.
  intros m rest Hm.
  assert (H : m = 1 \/ m = 2 \/ m = 3 \/ m = 4 \/ m = 5 \/ m = 6 \/ m = 7
              \/ m = 8 \/ m = 9 \/ m = 10 \/ m = 11 \/ m = 12) by lia.
  repeat (destruct H as [-> | H]; [reflexivity|]). subst. reflexivity.
Qed.

Lemma parse_d_fmt : forall d, 1 <= d <= 31 -> parse_d (fmt_02d d) = Some (d, "").
Proof.
  assert (H : forallb (fun d =>
              match parse_d (fmt_02d (d + 1)) with
              | Some (d', "") => d' =? d + 1
              | _ => false
              end) (below 31) = true) by (vm_compute; reflexivity).
  intros d Hd. rewrite forallb_forall in H.
  specialize (H (d - 1) (below_In 31 (d - 1) ltac:(lia))).
  replace (d - 1 + 1) with d in H by lia.
  destruct (parse_d (fmt_02d d)) as [[d' [|x r]]|]; try discriminate.
  apply Z.eqb_eq in H. rewrite H. reflexivity.
Qed.

Lemma strptime_strftime : forall d,
  valid_date d = true -> strptime (strftime d) = Return d.
Proof.
  intros [y m dd] Hv.
  destruct (valid_date_inv _ Hv) as [Hy [Hm Hd]]. cbn [year month day] in *.
  pose proof (days_in_month_bounds y m) as Hb.
  unfold MINYEAR, MAXYEAR in Hy.
  unfold strptime, match_ymd, strftime. cbn [year month day].
  rewrite parse_Y_fmt by lia. cbn [append expect_dash Ascii.eqb Bool.eqb].
  change ("-" ++ fmt_02d dd) with (String "-" (fmt_02d dd)).
  rewrite parse_m_fmt by lia. cbn [expect_dash Ascii.eqb Bool.eqb].
  rewrite parse_d_fmt by lia. cbn [String.eqb negb].
  unfold datetime, MINYEAR, MAXYEAR.
  replace ((1 <=? y) && (y <=? 9999)) with true
    by (symmetry; apply andb_true_iff; split; apply Z.leb_le; lia).
  replace ((1 <=? m) && (m <=? 12)) with true
    by (symmetry; apply andb_true_iff; split; apply Z.leb_le; lia).
  replace ((1 <=? dd) && (dd <=? days_in_month y m)) with true
    by (symmetry; apply andb_true_iff; split; apply Z.leb_le; lia).
  reflexivity.
Qed.

(** Two dates that [strftime] writes alike are one date. *)
Lemma strftime_injective : forall d1 d2,
  valid_date d1 = true -> valid_date d2 = true ->
  strftime d1 = strftime d2 -> d1 = d2.
Proof.
  intros d1 d2 H1 H2 E.
  pose proof (strptime_strftime d1 H1) as P1.
  rewrite E, (strptime_strftime d2 H2) in P1. congruence.
Qed.

(* ===================================================================== *)
(** ** The trading calendar tools *)

Lemma rows_before_spec : forall df date row,
  In row (rows_before df date) <-> is_before date df row.
Proof.
  intros df date row. unfold rows_before, is_before, flagged, day_of.
  rewrite filter_In, andb_true_iff, String.eqb_eq. tauto.
Qed.

Lemma rows_after_spec : forall df date row,
  In row (rows_after df date) <-> is_after date df row.
Proof.
  intros df date row. unfold rows_after, is_after, flagged, day_of.
  rewrite filter_In, andb_true_iff, String.eqb_eq. tauto.
Qed.

(** A frame that is [empty] has no flagged row. *)
Lemma empty_frame_not_flagged : forall df row,
  df_empty df = true -> ~ flagged df row.
Proof.
  intros [cols rows] row H [Hin Hflag]. unfold df_empty in H. cbn in *.
  destruct rows as [|r rows]; [contradiction|].
  destruct cols as [|c cols]; [|discriminate].
  unfold cell in Hflag. cbn in Hflag. discriminate.
Qed.

Lemma is_nil_true : forall A (l : list A), is_nil l = true -> l = [].
Proof. intros A [|x l]; [reflexivity|discriminate]. Qed.

Lemma is_nil_false : forall A (l : list A), is_nil l = false -> l <> [].
Proof. intros A [|x l]; [discriminate|discriminate]. Qed.

Lemma selected_before_spec : forall date df,
  ((exists row, is_before date df row) ->
   closest_before date df (selected_before date df))
  /\ ((forall row, ~ is_before date df row) -> selected_before date df = date).
Proof.
  intros date df. unfold selected_before.
  destruct (df_empty df) eqn:Hempty.
  { split; [|reflexivity]. intros [row [Hf _]].
    exfalso. exact (empty_frame_not_flagged df row Hempty Hf). }
  set (key := cell df (day_col df)).
  destruct (is_nil (sort_rows key (rows_before df date))) eqn:Hnil.
  { split; [|reflexivity]. intros [row Hrow].
    apply is_nil_true, sort_rows_nil in Hnil.
    apply rows_before_spec in Hrow. rewrite Hnil in Hrow. contradiction. }
  apply is_nil_false in Hnil.
  assert (Hne : rows_before df date <> []).
  { intros H. apply Hnil. rewrite H. reflexivity. }
  destruct (sort_rows_last key _ Hne) as [Hin Hmax].
  split.
  - intros _. split.
    + exists (last (sort_rows key (rows_before df date)) []).
      split; [apply rows_before_spec, Hin | reflexivity].
    + intros row Hrow. apply rows_before_spec in Hrow. apply (Hmax row Hrow).
  - intros Hnone. exfalso. apply rows_before_spec in Hin.
    exact (Hnone _ Hin).
Qed.

Lemma selected_after_spec : forall date df,
  ((exists row, is_after date df row) ->
   closest_after date df (selected_after date df))
  /\ ((forall row, ~ is_after date df row) -> selected_after date df = date).
Proof.
  intros date df. unfold selected_after.
  destruct (df_empty df) eqn:Hempty.
  { split; [|reflexivity]. intros [row [Hf _]].
    exfalso. exact (empty_frame_not_flagged df row Hempty Hf). }
  set (key := cell df (day_col df)).
  destruct (is_nil (sort_rows key (rows_after df date))) eqn:Hnil.
  { split; [|reflexivity]. intros [row Hrow].
    apply is_nil_true, sort_rows_nil in Hnil.
    apply rows_after_spec in Hrow. rewrite Hnil in Hrow. contradiction. }
  apply is_nil_false in Hnil.
  assert (Hne : rows_after df date <> []).
  { intros H. apply Hnil. rewrite H. reflexivity. }
  destruct (sort_rows_hd key _ Hne) as [Hin Hmin].
  split.
  - intros _. split.
    + exists (hd [] (sort_rows key (rows_after df date))).
      split; [apply rows_after_spec, Hin | reflexivity].
    + intros row Hrow. apply rows_after_spec in Hrow. apply (Hmin row Hrow).
  - intros Hnone. exfalso. apply rows_after_spec in Hin.
    exact (Hnone _ Hin).
Qed.

(** The two tools on an answered call. *)
Lemma previous_trading_day_answered : forall ds date d start_d df w w1,
  strptime date = Return d ->
  add_days d (-30) = Return start_d ->
  ds_get_trade_dates ds (Some (strftime start_d)) (Some date) w
  = (Return (Some df), w1) ->
  previous_trading_day ds date w = (Return (selected_before date df), w1).
Proof.
  intros ds date d start_d df w w1 Hd Hs Hdf.
  unfold previous_trading_day, try_except, bind, lift_outcome, selected_before.
  rewrite Hd, Hs, Hdf. unfold ret.
  destruct (df_empty df); [reflexivity|].
  destruct (is_nil _); reflexivity.
Qed.

Lemma next_trading_day_answered : forall ds date d end_d df w w1,
  strptime date = Return d ->
  add_days d 30 = Return end_d ->
  ds_get_trade_dates ds (Some date) (Some (strftime end_d)) w
  = (Return (Some df), w1) ->
  next_trading_day ds date w = (Return (selected_after date df), w1).
Proof.
  intros ds date d end_d df w w1 Hd Hs Hdf.
  unfold next_trading_day, try_except, bind, lift_outcome, selected_after.
  rewrite Hd, Hs, Hdf. unfold ret.
  destruct (df_empty df); [reflexivity|].
  destruct (is_nil _); reflexivity.
Qed.

(** In a calendar that names its two columns the tools read them. *)
Lemma iso_calendar_columns : forall df,
  iso_calendar df ->
  flag_col df = "is_trading_day" /\ day_col df = "calendar_date".
Proof.
  intros df [Hf [Hd _]]. unfold flag_col, day_col. rewrite Hf, Hd.
  split; reflexivity.
Qed.

Lemma is_before_iso : forall df d row,
  iso_calendar df -> valid_date d = true ->
  is_before (strftime d) df row ->
  exists t, trading_day_of df t /\ earlier t d /\ day_of df row = strftime t.
Proof.
  intros df d row Hiso Hd [[Hin Hflag] Hlt].
  destruct (iso_calendar_columns df Hiso) as [Ef Ed].
  destruct Hiso as [_ [_ Hrows]].
  unfold day_of in *. rewrite Ef in Hflag. rewrite Ed in *.
  destruct (Hrows row Hin Hflag) as [t [Ht Hcell]].
  exists t. split; [|split; [|exact Hcell]].
  - split; [exact Ht|]. exists row. repeat split; assumption.
  - unfold earlier. rewrite <- (strftime_compare t d Ht Hd), <- Hcell.
    unfold String.ltb in Hlt.
    destruct (String.compare _ _); [discriminate|reflexivity|discriminate].
Qed.

Lemma is_after_iso : forall df d row,
  iso_calendar df -> valid_date d = true ->
  is_after (strftime d) df row ->
  exists t, trading_day_of df t /\ earlier d t /\ day_of df row = strftime t.
Proof.
  intros df d row Hiso Hd [[Hin Hflag] Hlt].
  destruct (iso_calendar_columns df Hiso) as [Ef Ed].
  destruct Hiso as [_ [_ Hrows]].
  unfold day_of in *. rewrite Ef in Hflag. rewrite Ed in *.
  destruct (Hrows row Hin Hflag) as [t [Ht Hcell]].
  exists t. split; [|split; [|exact Hcell]].
  - split; [exact Ht|]. exists row. repeat split; assumption.
  - unfold earlier. rewrite <- (strftime_compare d t Hd Ht), <- Hcell.
    unfold String.ltb in Hlt.
    destruct (String.compare _ _); [discriminate|reflexivity|discriminate].
Qed.

Lemma trading_day_is_before : forall df d t,
  iso_calendar df -> valid_date d = true ->
  trading_day_of df t -> earlier t d ->
  exists row, is_before (strftime d) df row /\ day_of df row = strftime t.
Proof.
  intros df d t Hiso Hd [Ht [row [Hin [Hflag Hcell]]]] Hlt.
  destruct (iso_calendar_columns df Hiso) as [Ef Ed].
  exists row. unfold is_before, flagged, day_of. rewrite Ef, Ed.
  split; [|exact Hcell]. split; [split; assumption|].
  rewrite Hcell. unfold String.ltb. rewrite (strftime_compare t d Ht Hd).
  unfold earlier in Hlt. rewrite Hlt. reflexivity.
Qed.

Lemma trading_day_is_after : forall df d t,
  iso_calendar df -> valid_date d = true ->
  trading_day_of df t -> earlier d t ->
  exists row, is_after (strftime d) df row /\ day_of df row = strftime t.
Proof.
  intros df d t Hiso Hd [Ht [row [Hin [Hflag Hcell]]]] Hlt.
  destruct (iso_calendar_columns df Hiso) as [Ef Ed].
  exists row. unfold is_after, flagged, day_of. rewrite Ef, Ed.
  split; [|exact Hcell]. split; [split; assumption|].
  rewrite Hcell. unfold String.ltb. rewrite (strftime_compare d t Hd Ht).
  unfold earlier in Hlt. rewrite Hlt. reflexivity.
Qed.

(** C6, as stated for every anchor, fails at an anchor that is a date but
    is not written with two digits for month and day: the days of the rows
    are compared with it as text.  The calendar holds the trading days
    from the 8th to the 14th, all after the 5th; [previous_trading_day]
    returns the 14th and [next_trading_day] returns the anchor. *)
Lemma unpadded_anchor_is_compared_as_text :
  strptime "2025-1-5" = Return (mk_date 2025 1 5)
  /\ trading_day_of calendar_frame (mk_date 2025 1 8)
  /\ earlier (mk_date 2025 1 5) (mk_date 2025 1 8)
  /\ (forall t, trading_day_of calendar_frame t -> earlier (mk_date 2025 1 5) t)
  /\ fst (previous_trading_day calendar_source "2025-1-5" (initial_world jan10))
     = Return "2025-01-14"
  /\ fst (next_trading_day calendar_source "2025-1-5" (initial_world jan10))
     = Return "2025-1-5".
Proof.
  split; [reflexivity|]. split.
  { split; [reflexivity|]. exists ["2025-01-08"; "1"].
    split; [left; reflexivity|]. split; reflexivity. }
  split; [reflexivity|]. split.
  { intros t [Ht [row [Hin [Hflag Hcell]]]].
    assert (Hc : String.ltb "2025-01-05" (cell calendar_frame "calendar_date" row)
                 = true).
    { cbn in Hin.
      repeat (destruct Hin as [<- | Hin]; [try reflexivity; discriminate Hflag|]).
      contradiction. }
    rewrite Hcell in Hc.
    change "2025-01-05" with (strftime (mk_date 2025 1 5)) in Hc.
    unfold String.ltb in Hc.
    rewrite (strftime_compare (mk_date 2025 1 5) t eq_refl Ht) in Hc.
    unfold earlier. destruct (date_compare _ t); [discriminate|reflexivity|discriminate]. }
  split; vm_compute; reflexivity.
Qed.

(** C6 (amended).  For an anchor that is a date [d] written year-month-day
    with four and two digits, and where the calendar that the data source
    answers with has the columns [calendar_date] and [is_trading_day] and
    holds in its flagged rows dates written the same way:
    [previous_trading_day] asks for the window from the day 30 days before
    [d] to [d], and returns the latest trading day of that calendar that
    is before [d], or the anchor when there is none;
    [next_trading_day] asks for the window from [d] to the day 30 days
    after [d], and returns the earliest trading day of that calendar that
    is after [d], or the anchor when there is none.  Before and after are
    those of the calendar of dates, and the two ends of the windows are 30
    days from [d] by its count of days.  The ends of the windows are in
    the years from 1000 on, which [strftime] writes with four digits. *)
Theorem previous_next_trading_day_closest :
  forall (ds : FinancialDataSource) (d start_d end_d : date)
         (df_prev df_next : DataFrame) (w w1 w2 : world),
    valid_date d = true ->
    add_days d (-30) = Return start_d ->
    add_days d 30 = Return end_d ->
    1000 <= year start_d ->
    1000 <= year end_d ->
    ds_get_trade_dates ds (Some (strftime start_d)) (Some (strftime d)) w
    = (Return (Some df_prev), w1) ->
    ds_get_trade_dates ds (Some (strftime d)) (Some (strftime end_d)) w
    = (Return (Some df_next), w2) ->
    iso_calendar df_prev ->
    iso_calendar df_next ->
    ymd2ord start_d = ymd2ord d - 30
    /\ ymd2ord end_d = ymd2ord d + 30
    /\ (exists s,
          fst (previous_trading_day ds (strftime d) w) = Return s
          /\ ((exists t, trading_day_of df_prev t /\ earlier t d) ->
              exists best,
                s = strftime best
                /\ trading_day_of df_prev best /\ earlier best d
                /\ forall t, trading_day_of df_prev t -> earlier t d ->
                             date_compare t best <> Gt)
          /\ ((forall t, trading_day_of df_prev t -> ~ earlier t d) ->
              s = strftime d))
    /\ (exists s,
          fst (next_trading_day ds (strftime d) w) = Return s
          /\ ((exists t, trading_day_of df_next t /\ earlier d t) ->
              exists best,
                s = strftime best
                /\ trading_day_of df_next best /\ earlier d best
                /\ forall t, trading_day_of df_next t -> earlier d t ->
                             date_compare best t <> Gt)
          /\ ((forall t, trading_day_of df_next t -> ~ earlier d t) ->
              s = strftime d)).
Proof.
  intros ds d start_d end_d df_prev df_next w w1 w2 Hv Hs He _ _ Hp Hn Hip Hin.
  pose proof (strptime_strftime d Hv) as Hd.
  split; [rewrite (add_days_ordinal _ _ _ Hs); lia|].
  split; [exact (add_days_ordinal _ _ _ He)|].
  split.
  - exists (selected_before (strftime d) df_prev).
    rewrite (previous_trading_day_answered _ _ _ _ _ _ _ Hd Hs Hp).
    split; [reflexivity|].
    destruct (selected_before_spec (strftime d) df_prev) as [Hsome Hnone].
    split.
    + intros [t [Ht Hlt]].
      destruct (trading_day_is_before df_prev d t Hip Hv Ht Hlt) as [row [Hrow _]].
      destruct (Hsome (ex_intro _ row Hrow)) as [[row0 [Hrow0 Hsel]] Hmax].
      destruct (is_before_iso df_prev d row0 Hip Hv Hrow0)
        as [best [Hbest [Hbl Hday]]].
      exists best. split; [rewrite Hsel; exact Hday|].
      split; [exact Hbest|]. split; [exact Hbl|].
      intros t' Ht' Hlt'.
      destruct (trading_day_is_before df_prev d t' Hip Hv Ht' Hlt')
        as [row' [Hrow' Hday']].
      specialize (Hmax row' Hrow'). rewrite Hsel, Hday, Hday' in Hmax.
      unfold String.leb in Hmax.
      destruct Ht' as [Hv' _]. destruct Hbest as [Hvb _].
      rewrite (strftime_compare t' best Hv' Hvb) in Hmax.
      intros E. rewrite E in Hmax. discriminate Hmax.
    + intros Hno. apply Hnone. intros row Hrow.
      destruct (is_before_iso df_prev d row Hip Hv Hrow) as [t [Ht [Hlt _]]].
      exact (Hno t Ht Hlt).
  - exists (selected_after (strftime d) df_next).
    rewrite (next_trading_day_answered _ _ _ _ _ _ _ Hd He Hn).
    split; [reflexivity|].
    destruct (selected_after_spec (strftime d) df_next) as [Hsome Hnone].
    split.
    + intros [t [Ht Hlt]].
      destruct (trading_day_is_after df_next d t Hin Hv Ht Hlt) as [row [Hrow _]].
      destruct (Hsome (ex_intro _ row Hrow)) as [[row0 [Hrow0 Hsel]] Hmin].
      destruct (is_after_iso df_next d row0 Hin Hv Hrow0)
        as [best [Hbest [Hbl Hday]]].
      exists best. split; [rewrite Hsel; exact Hday|].
      split; [exact Hbest|]. split; [exact Hbl|].
      intros t' Ht' Hlt'.
      destruct (trading_day_is_after df_next d t' Hin Hv Ht' Hlt')
        as [row' [Hrow' Hday']].
      specialize (Hmin row' Hrow'). rewrite Hsel, Hday, Hday' in Hmin.
      unfold String.leb in Hmin.
      destruct Ht' as [Hv' _]. destruct Hbest as [Hvb _].
      rewrite (strftime_compare best t' Hvb Hv') in Hmin.
      intros E. rewrite E in Hmin. discriminate Hmin.
    + intros Hno. apply Hnone. intros row Hrow.
      destruct (is_after_iso df_next d row Hin Hv Hrow) as [t [Ht [Hlt _]]].
      exact (Hno t Ht Hlt).
Qed.

Lemma calendar_frame_is_iso : iso_calendar calendar_frame.
Proof.
  split; [reflexivity|]. split; [reflexivity|].
  intros row Hin Hflag. cbn in Hin.
  destruct Hin as [<- | Hin]; [exists (mk_date 2025 1 8); split; reflexivity|].
  destruct Hin as [<- | Hin]; [exists (mk_date 2025 1 13); split; reflexivity|].
  destruct Hin as [<- | Hin]; [exists (mk_date 2025 1 9); split; reflexivity|].
  destruct Hin as [<- | Hin]; [exists (mk_date 2025 1 10); split; reflexivity|].
  destruct Hin as [<- | Hin]; [discriminate Hflag|].
  destruct Hin as [<- | Hin]; [discriminate Hflag|].
  destruct Hin as [<- | Hin]; [exists (mk_date 2025 1 14); split; reflexivity|].
  contradiction.
Qed.

Lemma previous_next_trading_day_closest_witness :
  ymd2ord (mk_date 2024 12 11) = ymd2ord (mk_date 2025 1 10) - 30
  /\ ymd2ord (mk_date 2025 2 9) = ymd2ord (mk_date 2025 1 10) + 30
  /\ (exists s,
        fst (previous_trading_day calendar_source (strftime (mk_date 2025 1 10))
               (initial_world jan10)) = Return s
        /\ ((exists t, trading_day_of calendar_frame t
                       /\ earlier t (mk_date 2025 1 10)) ->
            exists best,
              s = strftime best
              /\ trading_day_of calendar_frame best
              /\ earlier best (mk_date 2025 1 10)
              /\ forall t, trading_day_of calendar_frame t ->
                           earlier t (mk_date 2025 1 10) ->
                           date_compare t best <> Gt)
        /\ ((forall t, trading_day_of calendar_frame t ->
                       ~ earlier t (mk_date 2025 1 10)) ->
            s = strftime (mk_date 2025 1 10)))
  /\ (exists s,
        fst (next_trading_day calendar_source (strftime (mk_date 2025 1 10))
               (initial_world jan10)) = Return s
        /\ ((exists t, trading_day_of calendar_frame t
                       /\ earlier (mk_date 2025 1 10) t) ->
            exists best,
              s = strftime best
              /\ trading_day_of calendar_frame best
              /\ earlier (mk_date 2025 1 10) best
              /\ forall t, trading_day_of calendar_frame t ->
                           earlier (mk_date 2025 1 10) t ->
                           date_compare best t <> Gt)
        /\ ((forall t, trading_day_of calendar_frame t ->
                       ~ earlier (mk_date 2025 1 10) t) ->
            s = strftime (mk_date 2025 1 10))).
Proof.
  apply (previous_next_trading_day_closest calendar_source
           (mk_date 2025 1 10) (mk_date 2024 12 11) (mk_date 2025 2 9)
           calendar_frame calendar_frame (initial_world jan10)
           (after_round_trip
              (query_trade_dates (Some "2024-12-11") (Some "2025-01-10")))
           (after_round_trip
              (query_trade_dates (Some "2025-01-10") (Some "2025-02-09"))));
    try exact calendar_frame_is_iso; try (vm_compute; reflexivity).
  - vm_compute. discriminate.
  - vm_compute. discriminate.
Defined.

(** The two tools on that calendar, and the window each one asks for. *)
Lemma previous_next_trading_day_example :
  previous_trading_day calendar_source "2025-01-10" (initial_world jan10)
  = (Return "2025-01-09",
     after_round_trip (query_trade_dates (Some "2024-12-11") (Some "2025-01-10")))
  /\ next_trading_day calendar_source "2025-01-10" (initial_world jan10)
     = (Return "2025-01-13",
        after_round_trip (query_trade_dates (Some "2025-01-10") (Some "2025-02-09"))).
Proof. split; vm_compute; reflexivity. Qed.











Example calendar_tools_on_a_refused_login :
  fst (previous_trading_day (failing_source login_refused) "2025-01-10"
         (initial_world jan10))
  = Return "错误: Baostock 登录失败: network error"
  /\ fst (next_trading_day (failing_source login_refused) "2025-01-10"
            (initial_world jan10))
     = Return "错误: Baostock 登录失败: network error"
  /\ fst (previous_trading_day (failing_source login_refused) "10 Jan 2025"
            (initial_world jan10))
     = Return "错误: time data '10 Jan 2025' does not match format '%Y-%m-%d'".
Proof. repeat split. Qed.

(** Through the facade, a window for which the provider has no rows is a
    [NoDataFoundError], and the tools hand its message to their caller:
    the branches on an empty frame are not reached. *)
Lemma window_without_rows_through_the_facade :
  fst (is_trading_day (BaostockDataSource empty_provider) "2025-01-10"
         (initial_world jan10))
  = Return "错误: 在 2025-01-10-2025-01-10 范围内未找到交易日 (空结果集)。"
  /\ fst (previous_trading_day (BaostockDataSource empty_provider) "2025-01-10"
            (initial_world jan10))
     = Return "错误: 在 2024-12-11-2025-01-10 范围内未找到交易日 (空结果集)。"
  /\ fst (get_latest_trading_date (BaostockDataSource empty_provider)
            (initial_world jan10))
     = Return "2025-01-10".
Proof. repeat split. Qed.

(* ===================================================================== *)
(** ** [get_market_analysis_timeframe] *)

Lemma datetime_first : forall y m,
  MINYEAR <= y <= MAXYEAR -> 1 <= m <= 12 ->
  datetime y m 1 = Return (mk_date y m 1).
Proof.
  intros y m Hy Hm. unfold datetime.
  replace ((MINYEAR <=? y) && (y <=? MAXYEAR)) with true
    by (symmetry; apply andb_true_iff; split; apply Z.leb_le; lia).
  replace ((1 <=? m) && (m <=? 12)) with true
    by (symmetry; apply andb_true_iff; split; apply Z.leb_le; lia).
  cbn [negb].
  assert (Hdim : 1 <= days_in_month y m).
  { unfold days_in_month.
    destruct (m =? 2); [destruct (is_leap y); lia|].
    destruct ((m =? 4) || (m =? 6) || (m =? 9) || (m =? 11)); lia. }
  replace ((1 <=? 1) && (1 <=? days_in_month y m)) with true
    by (symmetry; apply andb_true_iff; split; apply Z.leb_le; lia).
  reflexivity.
Qed.

Lemma days_in_month_february : forall y,
  is_leap y = false -> days_in_month y 2 = 28.
Proof. intros y H. unfold days_in_month. cbn. rewrite H. reflexivity. Qed.

(** C7.  With [period = "recent"]: at January 10 of a year [y] the start
    month is November of [y - 1] and the ISO end date is January 10 of
    [y]; at January 20 the start month is December of [y - 1]; and at any
    day [now] of a February of a year that is not a leap year the end day
    is between 1 and 28, so the end date is a date of the calendar. *)
Theorem recent_timeframe_boundaries :
  forall (y : Z) (now : date),
    MINYEAR < y <= MAXYEAR ->
    valid_date now = true ->
    month now = 2 ->
    is_leap (year now) = false ->
    timeframe_months (mk_date y 1 10) "recent"
    = Return (mk_date (y - 1) 11 1, mk_date (y - 1) 12 1)
    /\ end_iso_date (mk_date y 1 10) = str_of_Z y ++ "-01-10"
    /\ market_analysis_timeframe_at (mk_date y 1 10) "recent"
       = Return ((str_of_Z (y - 1) ++ "年11月-" ++ str_of_Z y ++ "年1月")
                 ++ " (ISO: " ++ (str_of_Z (y - 1) ++ "-11-01")
                 ++ " to " ++ (str_of_Z y ++ "-01-10") ++ ")")
    /\ timeframe_months (mk_date y 1 20) "recent"
       = Return (mk_date (y - 1) 12 1, mk_date (y - 1) 12 1)
    /\ 1 <= end_day now <= 28
    /\ valid_date (mk_date (year now) (month now) (end_day now)) = true
    /\ end_iso_date now
       = str_of_Z (year now) ++ "-02-" ++ fmt_02d (end_day now).
Proof.
  intros y now Hy Hvalid Hfeb Hleap.
  assert (H11 : datetime (y - 1) 11 1 = Return (mk_date (y - 1) 11 1))
    by (apply datetime_first; unfold MINYEAR, MAXYEAR in *; lia).
  assert (H12 : datetime (y - 1) 12 1 = Return (mk_date (y - 1) 12 1))
    by (apply datetime_first; unfold MINYEAR, MAXYEAR in *; lia).
  assert (Hm : timeframe_months (mk_date y 1 10) "recent"
               = Return (mk_date (y - 1) 11 1, mk_date (y - 1) 12 1)).
  { unfold timeframe_months. cbn [String.eqb Ascii.eqb Bool.eqb year month day].
    cbn [Z.ltb Z.compare Pos.compare Pos.compare_cont Z.eqb Pos.eqb].
    rewrite H11, H12. reflexivity. }
  destruct (valid_date_inv now Hvalid) as [Hyear [_ Hday]].
  rewrite Hfeb, (days_in_month_february _ Hleap) in Hday.
  assert (Hend : end_day now = day now).
  { unfold end_day, get_month_end_day.
    rewrite Hfeb, (days_in_month_february _ Hleap). lia. }
  split; [exact Hm|]. split; [reflexivity|]. split.
  { unfold market_analysis_timeframe_at. rewrite Hm.
    unfold date_range, start_iso_date, end_iso_date.
    cbn [year month day].
    replace (y - 1 =? y) with false by (symmetry; apply Z.eqb_neq; lia).
    cbn [negb]. reflexivity. }
  split.
  { unfold timeframe_months. cbn [String.eqb Ascii.eqb Bool.eqb year month day].
    cbn [Z.ltb Z.compare Pos.compare Pos.compare_cont Z.eqb Pos.eqb].
    rewrite H12. reflexivity. }
  split; [lia|]. split.
  { unfold valid_date. cbn [year month day].
    rewrite Hfeb, (days_in_month_february _ Hleap), Hend.
    repeat (apply andb_true_iff; split); apply Z.leb_le; lia. }
  unfold end_iso_date. rewrite Hfeb. reflexivity.
Qed.

Lemma recent_timeframe_boundaries_witness :
  market_analysis_timeframe_at (mk_date 2025 1 10) "recent"
  = Return "2024年11月-2025年1月 (ISO: 2024-11-01 to 2025-01-10)"
  /\ timeframe_months (mk_date 2025 1 20) "recent"
     = Return (mk_date 2024 12 1, mk_date 2024 12 1)
  /\ end_day (mk_date 2025 2 28) = 28.
Proof.
  destruct (recent_timeframe_boundaries 2025 (mk_date 2025 2 28))
    as [_ [_ [H1 [H2 [H3 _]]]]].
  - unfold MINYEAR, MAXYEAR. lia.
  - reflexivity.
  - reflexivity.
  - reflexivity.
  - split; [exact H1|]. split; [exact H2|]. reflexivity.
Defined.

Lemma datetime_prior_month : forall now,
  valid_date now = true ->
  MINYEAR < year now ->
  (if month now =? 1 then datetime (year now - 1) 12 1
   else datetime (year now) (month now - 1) 1)
  = Return (prior_month now).
Proof.
  intros now Hvalid Hy. unfold prior_month.
  destruct (valid_date_inv now Hvalid) as [Hyear [Hmonth _]].
  destruct (Z.eqb_spec (month now) 1) as [E|E];
    apply datetime_first; unfold MINYEAR, MAXYEAR in *; lia.
Qed.

(** A label never opens with the marker of an error: it opens with the
    decimal digits of a year. *)
Lemma year_label_is_no_error : forall y a b,
  is_error_message ((str_of_Z y ++ "年" ++ a) ++ b) = false.
Proof.
  intros y a b. unfold is_error_message, str_of_Z.
  destruct (Z.to_int y) as [u|u]; [destruct u; reflexivity | reflexivity].
Qed.

Lemma date_range_is_no_error : forall s m e rest,
  is_error_message (date_range s m e ++ rest) = false.
Proof.
  intros s m e rest. unfold date_range.
  destruct (negb (year s =? year e));
    [|destruct (negb (month m =? month s) && negb (month m =? month e));
      [|destruct (negb (month s =? month e))]];
    cbv zeta; apply year_label_is_no_error.
Qed.

(** C9.  For a period other than the four keywords, at any reading of the
    clock after year 1: the tool returns a label and raises nothing, the
    label is no error message, and the start and middle month are the
    month before the current one (December of the year before in
    January), which is what ["recent"] gives from the 15th of the month
    on, so that the two labels then agree. *)
Theorem unknown_period_falls_through :
  forall (period : string) (w : world),
    period <> "recent" -> period <> "quarter" ->
    period <> "half_year" -> period <> "year" ->
    valid_date (clock w) = true ->
    MINYEAR < year (clock w) ->
    timeframe_months (clock w) period
    = Return (prior_month (clock w), prior_month (clock w))
    /\ (exists label,
          get_market_analysis_timeframe period w = (Return label, w)
          /\ is_error_message label = false)
    /\ (15 <= day (clock w) ->
        timeframe_months (clock w) "recent"
        = Return (prior_month (clock w), prior_month (clock w))
        /\ get_market_analysis_timeframe period w
           = get_market_analysis_timeframe "recent" w).
Proof.
  intros period w H1 H2 H3 H4 Hvalid Hy.
  assert (Hm : timeframe_months (clock w) period
               = Return (prior_month (clock w), prior_month (clock w))).
  { unfold timeframe_months.
    apply String.eqb_neq in H1, H2, H3, H4. rewrite H1, H2, H3, H4.
    rewrite (datetime_prior_month _ Hvalid Hy). reflexivity. }
  split; [exact Hm|]. split.
  - eexists. split.
    + unfold get_market_analysis_timeframe, bind, datetime_now, lift_outcome,
        market_analysis_timeframe_at.
      rewrite Hm. reflexivity.
    + apply date_range_is_no_error.
  - intros Hday.
    assert (Hr : timeframe_months (clock w) "recent"
                 = Return (prior_month (clock w), prior_month (clock w))).
    { unfold timeframe_months. cbn [String.eqb Ascii.eqb Bool.eqb].
      replace (day (clock w) <? 15) with false
        by (symmetry; apply Z.ltb_ge; lia).
      destruct (Z.eqb_spec (month (clock w)) 1) as [E|E].
      - pose proof (datetime_prior_month _ Hvalid Hy) as Hp.
        unfold prior_month in *. rewrite E in *. cbn [Z.eqb Pos.eqb] in *.
        rewrite Hp. reflexivity.
      - pose proof (datetime_prior_month _ Hvalid Hy) as Hp.
        unfold prior_month in *.
        destruct (Z.eqb_spec (month (clock w)) 1) as [E'|_]; [contradiction|].
        rewrite Hp. reflexivity. }
    split; [exact Hr|].
    unfold get_market_analysis_timeframe, bind, datetime_now, lift_outcome,
      market_analysis_timeframe_at.
    rewrite Hm, Hr. reflexivity.
Qed.

Lemma unknown_period_falls_through_witness :
  timeframe_months feb20 "weekly" = Return (mk_date 2025 1 1, mk_date 2025 1 1)
  /\ get_market_analysis_timeframe "weekly" (initial_world feb20)
     = (Return "2025年1月-2月 (ISO: 2025-01-01 to 2025-02-20)", initial_world feb20)
  /\ get_market_analysis_timeframe "weekly" (initial_world feb20)
     = get_market_analysis_timeframe "recent" (initial_world feb20).
Proof.
  destruct (unknown_period_falls_through "weekly" (initial_world feb20))
    as [H1 [_ H3]]; try discriminate; try reflexivity.
  split; [exact H1|]. split; [reflexivity|].
  apply H3. cbn. lia.
Defined.

(* ===================================================================== *)
(** ** Checks made before the provider is called *)

(** C8, as stated, fails: the field list of [get_stock_basic_info] is
    looked at only after the provider round trip.  A list without a
    single column name is refused then; a list with a column name and an
    entry that is no string is accepted. *)
Lemma basic_info_fields_checked_after_round_trip :
  forallb is_str [PyInt 1] = false
  /\ forallb is_str [PyStr "code"; PyInt 1] = false
  /\ get_stock_basic_info one_row_provider "sh.600000" (Some [PyInt 1])
       (initial_world jan10)
     = (Raise (mk_exn ValueError "请求的字段 [1] 在基本信息结果中均不可用。"),
        after_round_trip (query_stock_basic "sh.600000"))
  /\ get_stock_basic_info one_row_provider "sh.600000"
       (Some [PyStr "code"; PyInt 1]) (initial_world jan10)
     = (Return (mk_df ["code"] [["sh.600000"]]),
        after_round_trip (query_stock_basic "sh.600000"))
  /\ ~ (forall (p : provider) (code : string) (fs : list pyval) (w : world),
          forallb is_str fs = false ->
          exists msg,
            get_stock_basic_info p code (Some fs) w
            = (Raise (mk_exn ValueError msg), w)).
Proof.
  split; [reflexivity|]. split; [reflexivity|].
  split; [vm_compute; reflexivity|]. split; [vm_compute; reflexivity|].
  intros H.
  destruct (H one_row_provider "sh.600000" [PyInt 1] (initial_world jan10)
              eq_refl) as [msg Hmsg].
  vm_compute in Hmsg. discriminate Hmsg.
Qed.

Lemma _format_fields_rejects : forall fs defaults,
  forallb is_str fs = false ->
  _format_fields (Some fs) defaults
  = Raise (mk_exn ValueError "字段列表中的所有项都必须是字符串。").
Proof.
  intros fs defaults H. unfold _format_fields.
  destruct fs as [|v fs]; [discriminate|]. rewrite H. reflexivity.
Qed.

(** C8 (amended).  A periodic-report tool given a year in ASCII
    characters that is not a string of four digits, or a quarter outside
    1..4, returns an error message and leaves the process as it was: no
    login, no request.  The historical price fetch given a field list with
    an entry that is no string raises [ValueError], and likewise leaves
    the process as it was.  (On a year in ASCII the tests [isdigit] and
    [len] of the embedding are those of Python; digits of other scripts,
    which Python's [isdigit] accepts, are left out.) *)
Theorem invalid_input_rejected_before_provider :
  forall (format_table_output :
            DataFrame -> string -> Z -> list (string * pyval) -> outcome string)
         (p : provider) (t : report_tool)
         (code year : string) (quarter limit : Z) (format : string)
         (start_date end_date frequency adjust_flag : string)
         (fs : list pyval) (w : world),
    is_ascii year = true ->
    (isdigit year = false \/ len year <> 4 \/ ~ (1 <= quarter <= 4)) ->
    forallb is_str fs = false ->
    (exists msg,
        run_report_tool format_table_output p t code year quarter limit format w
        = (Return msg, w)
        /\ is_error_message msg = true)
    /\ get_historical_k_data p code start_date end_date frequency adjust_flag
         (Some fs) w
       = (Raise (mk_exn ValueError "字段列表中的所有项都必须是字符串。"), w).
Proof.
  intros fto p t code year quarter limit format sd ed fr af fs w _ Hbad Hfs.
  split.
  - assert (Hcase :
      negb (isdigit year) || negb (len year =? 4) = true
      \/ (negb (isdigit year) || negb (len year =? 4) = false
          /\ negb ((1 <=? quarter) && (quarter <=? 4)) = true)).
    { destruct (isdigit year) eqn:Ed; [|left; reflexivity].
      destruct (Z.eqb_spec (len year) 4) as [El|El]; [|left; reflexivity].
      right. split; [reflexivity|].
      destruct Hbad as [Hb|[Hb|Hb]]; [discriminate | contradiction |].
      apply negb_true_iff, andb_false_iff.
      destruct (Z.leb_spec 1 quarter); [|left; reflexivity].
      destruct (Z.leb_spec quarter 4); [|right; reflexivity].
      exfalso. apply Hb. lia. }
    destruct t; cbn [run_report_tool];
      unfold call_financial_data_tool, try_except, ret;
      (destruct Hcase as [Hc|[Hc1 Hc2]];
       [rewrite Hc | rewrite Hc1, Hc2];
       eexists; (split; [reflexivity | reflexivity])).
  - unfold get_historical_k_data, reraise_known, try_except, bind, lift_outcome.
    cbv zeta. rewrite (_format_fields_rejects fs DEFAULT_K_FIELDS Hfs).
    reflexivity.
Qed.

Lemma invalid_input_rejected_before_provider_witness :
  (exists msg,
      run_report_tool no_formatter healthy Tool_get_profit_data
        "sh.600000" "23" 5 250 "markdown" (initial_world jan10)
      = (Return msg, initial_world jan10)
      /\ is_error_message msg = true)
  /\ get_historical_k_data healthy "sh.600000" "2025-01-01" "2025-01-10" "d" "3"
       (Some [PyStr "close"; PyNone]) (initial_world jan10)
     = (Raise (mk_exn ValueError "字段列表中的所有项都必须是字符串。"),
        initial_world jan10).
Proof.
  apply (invalid_input_rejected_before_provider no_formatter healthy
           Tool_get_profit_data "sh.600000" "23" 5 250 "markdown"
           "2025-01-01" "2025-01-10" "d" "3" [PyStr "close"; PyNone]
           (initial_world jan10)).
  - reflexivity.
  - right. left. discriminate.
  - reflexivity.
Defined.

(* ===================================================================== *)
(** ** [normalize_stock_code] *)

Lemma digit_is_no_space : forall c, is_digit c = true -> is_space c = false.
Proof.
  intros [b0 b1 b2 b3 b4 b5 b6 b7].
  destruct b0, b1, b2, b3, b4, b5, b6, b7; cbv; congruence.
Qed.

Lemma six_digits_inv : forall s,
  six_digits s = true ->
  exists c1 c2 c3 c4 c5 c6,
    s = String c1 (String c2 (String c3 (String c4 (String c5 (String c6 "")))))
    /\ is_digit c1 = true /\ is_digit c2 = true /\ is_digit c3 = true
    /\ is_digit c4 = true /\ is_digit c5 = true /\ is_digit c6 = true.
Proof.
  intros s H. unfold six_digits in H. apply andb_true_iff in H.
  destruct H as [Hlen Hall].
  destruct s as [|c1 [|c2 [|c3 [|c4 [|c5 [|c6 [|c7 s]]]]]]]; try discriminate.
  cbn [all_chars] in Hall.
  repeat (apply andb_true_iff in Hall; destruct Hall as [? Hall]).
  exists c1, c2, c3, c4, c5, c6. repeat split; assumption.
Qed.

(** The two characters an exchange is matched on, in lower case. *)
Lemma is_exchange_lower : forall a b,
  is_exchange a b = true ->
  lower (String a (String b "")) = "sh" \/ lower (String a (String b "")) = "sz".
Proof.
  intros a b H. unfold is_exchange in H.
  apply andb_true_iff in H. destruct H as [Ha Hb].
  apply Ascii.eqb_eq in Ha. cbn [lower]. rewrite Ha.
  apply orb_true_iff in Hb. destruct Hb as [Hb|Hb];
    apply Ascii.eqb_eq in Hb; rewrite Hb; [left|right]; reflexivity.
Qed.

Lemma rstrip_keeps : forall s c,
  is_space c = false -> rstrip (s ++ String c "") = s ++ String c "".
Proof.
  intros s c Hc. induction s as [|x s IH]; cbn [append rstrip].
  - rewrite Hc. reflexivity.
  - rewrite IH. destruct s; reflexivity.
Qed.

(** A normalized code is left as it is, by either engine. *)
Lemma normalize_normalized : forall strict s,
  is_normalized s -> normalize_stock_code strict s = s.
Proof.
  intros strict s [ex [num [-> [Hex Hnum]]]].
  destruct (six_digits_inv num Hnum)
    as [c1 [c2 [c3 [c4 [c5 [c6 [Enum [_ [_ [_ [_ [_ H6]]]]]]]]]]]].
  assert (Hstrip : strip (ex ++ "." ++ num) = ex ++ "." ++ num).
  { unfold strip.
    assert (Hl : lstrip (ex ++ "." ++ num) = ex ++ "." ++ num)
      by (destruct Hex as [-> | ->]; reflexivity).
    rewrite Hl.
    replace (ex ++ "." ++ num)
      with ((ex ++ "." ++ String c1 (String c2 (String c3 (String c4
              (String c5 "")))))  ++ String c6 "")
      by (rewrite Enum; destruct Hex as [-> | ->]; reflexivity).
    apply rstrip_keeps, digit_is_no_space, H6. }
  unfold normalize_stock_code. rewrite Hstrip.
  destruct Hex as [-> | ->]; cbn [append String.eqb Ascii.eqb Bool.eqb];
    unfold fullmatch_ex_num;
    change (is_exchange "s" "h") with true;
    change (is_exchange "s" "z") with true;
    cbn [skip_dot Ascii.eqb Bool.eqb andb]; rewrite Hnum; reflexivity.
Qed.

(** What the function returns is an error message or a normalized code. *)
Lemma normalize_shape : forall strict code,
  is_error_message (normalize_stock_code strict code) = false ->
  is_normalized (normalize_stock_code strict code).
Proof.
  intros strict code. unfold normalize_stock_code.
  destruct (String.eqb (strip code) ""); [discriminate|].
  destruct (fullmatch_ex_num (strip code)) as [[g1 g2]|] eqn:E1.
  { intros _. unfold fullmatch_ex_num in E1.
    destruct (strip code) as [|a [|b rest]]; try discriminate.
    destruct (is_exchange a b) eqn:Eex; [|discriminate].
    destruct (six_digits (skip_dot rest)) eqn:Esix; [|discriminate].
    injection E1 as <- <-.
    exists (lower (String a (String b ""))), (skip_dot rest).
    split; [reflexivity|]. split; [apply is_exchange_lower, Eex | exact Esix]. }
  destruct strict; [discriminate|].
  destruct (fullmatch_num_ex (strip code)) as [[g1 g2]|] eqn:E2.
  { intros _. unfold fullmatch_num_ex in E2.
    destruct (six_digits (substring 0 6 (strip code))) eqn:Esix; [|discriminate].
    destruct (skip_dot _) as [|a [|b [|c r]]]; try discriminate.
    destruct (is_exchange a b) eqn:Eex; [|discriminate].
    injection E2 as <- <-.
    exists (lower (String a (String b ""))), (substring 0 6 (strip code)).
    split; [reflexivity|]. split; [apply is_exchange_lower, Eex | exact Esix]. }
  destruct (six_digits (strip code)) eqn:Esix; [|discriminate].
  intros _.
  exists (if startswith (strip code) "6" then "sh" else "sz"), (strip code).
  split; [reflexivity|]. split; [|exact Esix].
  destruct (startswith (strip code) "6"); [left|right]; reflexivity.
Qed.

(** *** The function on code points, and its agreement in ASCII *)

Lemma ascii_classes : forall c,
  Nat.ltb (nat_of_ascii c) 128 = true ->
  py_isspace (Z.of_nat (nat_of_ascii c)) = is_space c
  /\ re_digit (Z.of_nat (nat_of_ascii c)) = is_digit c
  /\ matches_s (Z.of_nat (nat_of_ascii c)) = Ascii.eqb (lower_ascii c) "s"
  /\ matches_h (Z.of_nat (nat_of_ascii c)) = Ascii.eqb (lower_ascii c) "h"
  /\ matches_z (Z.of_nat (nat_of_ascii c)) = Ascii.eqb (lower_ascii c) "z"
  /\ (Z.of_nat (nat_of_ascii c) =? 46) = Ascii.eqb c "."
  /\ (Z.of_nat (nat_of_ascii c) =? 54) = String.prefix "6" (String c "")
  /\ utf8_char (Z.of_nat (nat_of_ascii c)) = String c ""
  /\ utf8_char (lower_matched (Z.of_nat (nat_of_ascii c)))
     = String (lower_ascii c) "".
Proof.
  intros [b0 b1 b2 b3 b4 b5 b6 b7].
  destruct b0, b1, b2, b3, b4, b5, b6, b7; intros H;
    try discriminate H; vm_compute; repeat split.
Qed.

Lemma is_ascii_cons : forall c s,
  is_ascii (String c s) = true ->
  Nat.ltb (nat_of_ascii c) 128 = true /\ is_ascii s = true.
Proof. intros c s H. apply andb_true_iff in H. exact H. Qed.

Lemma is_ascii_lstrip : forall s, is_ascii s = true -> is_ascii (lstrip s) = true.
Proof.
  induction s as [|c s IH]; intros H; [reflexivity|].
  cbn [lstrip]. destruct (is_space c); [|exact H].
  apply IH. apply (is_ascii_cons c s H).
Qed.

Lemma is_ascii_rstrip : forall s, is_ascii s = true -> is_ascii (rstrip s) = true.
Proof.
  induction s as [|c s IH]; intros H; [reflexivity|].
  destruct (is_ascii_cons c s H) as [Hc Hs]. specialize (IH Hs).
  cbn [rstrip]. destruct (rstrip s) as [|x r].
  - destruct (is_space c); [reflexivity|].
    unfold is_ascii. cbn [all_chars]. rewrite Hc. reflexivity.
  - unfold is_ascii in *. cbn [all_chars] in *. rewrite Hc. exact IH.
Qed.

Lemma is_ascii_strip : forall s, is_ascii s = true -> is_ascii (strip s) = true.
Proof. intros s H. apply is_ascii_rstrip, is_ascii_lstrip, H. Qed.

Lemma points_lstrip : forall s,
  is_ascii s = true -> lstrip_points (points s) = points (lstrip s).
Proof.
  induction s as [|c s IH]; intros H; [reflexivity|].
  destruct (is_ascii_cons c s H) as [Hc Hs].
  destruct (ascii_classes c Hc) as [Esp _].
  cbn [points lstrip_points lstrip]. rewrite Esp.
  destruct (is_space c); [apply IH, Hs | reflexivity].
Qed.

Lemma points_rstrip : forall s,
  is_ascii s = true -> rstrip_points (points s) = points (rstrip s).
Proof.
  induction s as [|c s IH]; intros H; [reflexivity|].
  destruct (is_ascii_cons c s H) as [Hc Hs].
  destruct (ascii_classes c Hc) as [Esp _].
  cbn [points rstrip_points rstrip]. rewrite (IH Hs), Esp.
  destruct (rstrip s) as [|x r]; cbn [points].
  - destruct (is_space c); reflexivity.
  - reflexivity.
Qed.

Lemma points_strip : forall s,
  is_ascii s = true -> strip_points (points s) = points (strip s).
Proof.
  intros s H. unfold strip_points, strip.
  rewrite (points_lstrip s H). apply points_rstrip, is_ascii_lstrip, H.
Qed.

Lemma points_is_nil : forall s, is_nil (points s) = String.eqb s "".
Proof. destruct s; reflexivity. Qed.

Lemma points_length : forall s, List.length (points s) = String.length s.
Proof. induction s as [|c s IH]; cbn; congruence. Qed.

Lemma points_digits : forall s,
  is_ascii s = true -> forallb re_digit (points s) = all_chars is_digit s.
Proof.
  induction s as [|c s IH]; intros H; [reflexivity|].
  destruct (is_ascii_cons c s H) as [Hc Hs].
  destruct (ascii_classes c Hc) as [_ [Ed _]].
  cbn [points forallb all_chars]. rewrite Ed, (IH Hs). reflexivity.
Qed.

Lemma points_six : forall s,
  is_ascii s = true -> six_decimals (points s) = six_digits s.
Proof.
  intros s H. unfold six_decimals, six_digits.
  rewrite points_length, (points_digits s H). reflexivity.
Qed.

Lemma is_ascii_skip_dot : forall s, is_ascii s = true -> is_ascii (skip_dot s) = true.
Proof.
  intros [|c s] H; [reflexivity|]. cbn [skip_dot].
  destruct (Ascii.eqb c "."); [apply (is_ascii_cons c s H) | exact H].
Qed.

Lemma points_skip_dot : forall s,
  is_ascii s = true -> skip_dot_points (points s) = points (skip_dot s).
Proof.
  intros [|c s] H; [reflexivity|].
  destruct (is_ascii_cons c s H) as [Hc Hs].
  destruct (ascii_classes c Hc) as [_ [_ [_ [_ [_ [Edot _]]]]]].
  cbn [points skip_dot_points skip_dot]. rewrite Edot.
  destruct (Ascii.eqb c "."); reflexivity.
Qed.

Lemma points_exchange : forall a b,
  Nat.ltb (nat_of_ascii a) 128 = true ->
  Nat.ltb (nat_of_ascii b) 128 = true ->
  matches_s (Z.of_nat (nat_of_ascii a))
  && (matches_h (Z.of_nat (nat_of_ascii b))
      || matches_z (Z.of_nat (nat_of_ascii b)))
  = is_exchange a b.
Proof.
  intros a b Ha Hb.
  destruct (ascii_classes a Ha) as [_ [_ [Es _]]].
  destruct (ascii_classes b Hb) as [_ [_ [_ [Eh [Ez _]]]]].
  unfold is_exchange. rewrite Es, Eh, Ez. reflexivity.
Qed.

Lemma utf8_points : forall s, is_ascii s = true -> utf8 (points s) = s.
Proof.
  induction s as [|c s IH]; intros H; [reflexivity|].
  destruct (is_ascii_cons c s H) as [Hc Hs].
  destruct (ascii_classes c Hc) as [_ [_ [_ [_ [_ [_ [_ [Eu _]]]]]]]].
  cbn [points utf8]. rewrite Eu, (IH Hs). reflexivity.
Qed.

Lemma utf8_lower_points : forall s,
  is_ascii s = true -> utf8 (map lower_matched (points s)) = lower s.
Proof.
  induction s as [|c s IH]; intros H; [reflexivity|].
  destruct (is_ascii_cons c s H) as [Hc Hs].
  destruct (ascii_classes c Hc) as [_ [_ [_ [_ [_ [_ [_ [_ El]]]]]]]].
  cbn [points map utf8 lower]. rewrite El, (IH Hs). reflexivity.
Qed.

Lemma points_firstn : forall n s, firstn n (points s) = points (substring 0 n s).
Proof.
  induction n as [|n IH]; intros [|c s]; try reflexivity.
  cbn [points firstn substring]. rewrite IH. reflexivity.
Qed.

Lemma substring_all : forall s, substring 0 (String.length s) s = s.
Proof. induction s as [|c s IH]; cbn; congruence. Qed.

Lemma points_skipn : forall n s,
  skipn n (points s) = points (substring n (String.length s - n) s).
Proof.
  induction n as [|n IH]; intros s.
  - cbn [skipn]. rewrite Nat.sub_0_r, substring_all. reflexivity.
  - destruct s as [|c s]; [reflexivity|].
    cbn [points skipn String.length substring Nat.sub]. apply IH.
Qed.

Lemma is_ascii_substring : forall n m s,
  is_ascii s = true -> is_ascii (substring n m s) = true.
Proof.
  induction n as [|n IHn].
  - induction m as [|m IHm]; intros [|c s] H; try reflexivity.
    destruct (is_ascii_cons c s H) as [Hc Hs].
    cbn [substring]. unfold is_ascii. cbn [all_chars]. rewrite Hc.
    apply (IHm s Hs).
  - intros m [|c s] H; [reflexivity|].
    cbn [substring]. apply IHn. apply (is_ascii_cons c s H).
Qed.

Lemma points_starts_6 : forall s,
  is_ascii s = true -> (hd 0 (points s) =? 54) = startswith s "6".
Proof.
  intros [|c s] H; [reflexivity|].
  destruct (is_ascii_cons c s H) as [Hc _].
  destruct (ascii_classes c Hc) as [_ [_ [_ [_ [_ [_ [E6 _]]]]]]].
  cbn [points hd]. rewrite E6. unfold startswith. cbn [String.prefix].
  destruct (ascii_dec "6" c); [destruct s|]; reflexivity.
Qed.

Lemma points_fullmatch_ex_num : forall raw,
  is_ascii raw = true ->
  match fullmatch_ex_num_points (points raw), fullmatch_ex_num raw with
  | Some (p1, p2), Some (g1, g2) =>
      utf8 (map lower_matched p1) = lower g1 /\ utf8 p2 = g2
  | None, None => True
  | _, _ => False
  end.
Proof.
  intros [|a [|b rest]] H; try exact I.
  destruct (is_ascii_cons a _ H) as [Ha H'].
  destruct (is_ascii_cons b _ H') as [Hb Hr].
  cbn [points fullmatch_ex_num_points fullmatch_ex_num].
  rewrite (points_exchange a b Ha Hb), (points_skip_dot rest Hr),
    (points_six _ (is_ascii_skip_dot rest Hr)).
  destruct (is_exchange a b && six_digits (skip_dot rest)); [|exact I].
  split.
  - apply (utf8_lower_points (String a (String b ""))).
    unfold is_ascii. cbn [all_chars]. rewrite Ha, Hb. reflexivity.
  - apply utf8_points, is_ascii_skip_dot, Hr.
Qed.

Lemma points_fullmatch_num_ex : forall raw,
  is_ascii raw = true ->
  match fullmatch_num_ex_points (points raw), fullmatch_num_ex raw with
  | Some (p1, p2), Some (g1, g2) =>
      utf8 p1 = g1 /\ utf8 (map lower_matched p2) = lower g2
  | None, None => True
  | _, _ => False
  end.
Proof.
  intros raw H. unfold fullmatch_num_ex_points, fullmatch_num_ex.
  cbv zeta. rewrite points_firstn, points_skipn.
  pose proof (is_ascii_substring 0 6 raw H) as Hn.
  pose proof (is_ascii_substring 6 (String.length raw - 6) raw H) as Hr.
  rewrite (points_six _ Hn), (points_skip_dot _ Hr).
  destruct (six_digits (substring 0 6 raw)); [|exact I].
  pose proof (is_ascii_skip_dot _ Hr) as Hs.
  destruct (skip_dot (substring 6 (String.length raw - 6) raw))
    as [|a [|b [|c r]]]; try exact I.
  destruct (is_ascii_cons a _ Hs) as [Ha Hs'].
  destruct (is_ascii_cons b _ Hs') as [Hb _].
  cbn [points]. rewrite (points_exchange a b Ha Hb).
  destruct (is_exchange a b); [|exact I].
  split; [apply utf8_points, Hn | apply (utf8_lower_points _ Hs)].
Qed.

(** In ASCII the function on bytes is the function on code points. *)
Lemma normalize_points_ascii : forall strict code,
  is_ascii code = true ->
  normalize_stock_code_points strict (points code)
  = normalize_stock_code strict code.
Proof.
  intros strict code H.
  pose proof (is_ascii_strip code H) as Hraw.
  unfold normalize_stock_code_points, normalize_stock_code. cbv zeta.
  rewrite (points_strip code H), points_is_nil.
  destruct (String.eqb (strip code) ""); [reflexivity|].
  pose proof (points_fullmatch_ex_num _ Hraw) as E1.
  destruct (fullmatch_ex_num_points (points (strip code))) as [[p1 p2]|];
    destruct (fullmatch_ex_num (strip code)) as [[g1 g2]|]; try contradiction.
  { destruct E1 as [-> ->]. reflexivity. }
  destruct strict; [reflexivity|].
  pose proof (points_fullmatch_num_ex _ Hraw) as E2.
  destruct (fullmatch_num_ex_points (points (strip code))) as [[p1 p2]|];
    destruct (fullmatch_num_ex (strip code)) as [[g1 g2]|]; try contradiction.
  { destruct E2 as [-> ->]. reflexivity. }
  rewrite (points_six _ Hraw), (points_starts_6 _ Hraw), (utf8_points _ Hraw).
  reflexivity.
Qed.

Lemma digit_is_ascii : forall c,
  is_digit c = true -> Nat.ltb (nat_of_ascii c) 128 = true.
Proof.
  intros [b0 b1 b2 b3 b4 b5 b6 b7].
  destruct b0, b1, b2, b3, b4, b5, b6, b7; cbv; congruence.
Qed.

Lemma normalized_is_ascii : forall s, is_normalized s -> is_ascii s = true.
Proof.
  intros s [ex [num [-> [Hex Hnum]]]].
  destruct (six_digits_inv num Hnum)
    as [c1 [c2 [c3 [c4 [c5 [c6 [-> [H1 [H2 [H3 [H4 [H5 H6]]]]]]]]]]]].
  apply digit_is_ascii in H1, H2, H3, H4, H5, H6.
  destruct Hex as [-> | ->]; unfold is_ascii; cbn [append all_chars];
    rewrite H1, H2, H3, H4, H5, H6; reflexivity.
Qed.

(** C10, as stated, fails outside ASCII.  The first pattern matches the
    long s under [(?i)] and the full-width digits under [\d]; [.lower()]
    leaves the long s, and the digits are copied.  What the function
    returns for [ſh600000] is [ſh.600000], which is no error message and
    does not open with [sh.] or [sz.]; for [sh６０００００] it is
    [sh.６０００００], whose digits are not those of a code.  Both engines
    agree, since the first pattern decides. *)
Lemma long_s_code_is_not_normalized :
  utf8 long_s_code = "ſh600000"
  /\ normalize_stock_code_points false long_s_code = "ſh.600000"
  /\ normalize_stock_code_points true long_s_code = "ſh.600000"
  /\ is_error_message "ſh.600000" = false
  /\ ~ is_normalized "ſh.600000"
  /\ utf8 wide_digits_code = "sh６０００００"
  /\ normalize_stock_code_points false wide_digits_code = "sh.６０００００"
  /\ is_error_message "sh.６０００００" = false
  /\ ~ is_normalized "sh.６０００００"
  /\ ~ (forall strict_flags code,
         is_error_message (normalize_stock_code_points strict_flags code) = false ->
         is_normalized (normalize_stock_code_points strict_flags code)).
Proof.
  assert (Hs : ~ is_normalized "ſh.600000").
  { intros [ex [num [E [[-> | ->] _]]]]; discriminate E. }
  assert (Hw : ~ is_normalized "sh.６０００００").
  { intros [ex [num [E [[-> | ->] Hnum]]]]; cbn [append] in E;
      [injection E as E; subst num; discriminate Hnum | discriminate E]. }
  repeat split; try reflexivity; try assumption.
  intros H. apply Hs. apply (H false long_s_code). reflexivity.
Qed.

(** C10 (amended).  On an argument in ASCII, where [normalize_stock_code]
    returns no error message, what it returns is [sh.] or [sz.] followed
    by six digits, is in ASCII again, and the function maps it to itself.
    This holds for the function on code points, which on such an argument
    is the function on bytes, and for the engine that takes the flag in
    the middle of the second pattern as for the one that refuses it. *)
Theorem normalize_stock_code_idempotent :
  forall (strict_flags : bool) (code : string),
    is_ascii code = true ->
    is_error_message (normalize_stock_code_points strict_flags (points code))
    = false ->
    exists out,
      normalize_stock_code_points strict_flags (points code) = out
      /\ normalize_stock_code strict_flags code = out
      /\ is_normalized out
      /\ is_ascii out = true
      /\ normalize_stock_code_points strict_flags (points out) = out
      /\ normalize_stock_code strict_flags out = out.
Proof.
  intros strict code Hascii H.
  rewrite (normalize_points_ascii strict code Hascii) in H.
  pose proof (normalize_shape strict code H) as Hn.
  pose proof (normalized_is_ascii _ Hn) as Hout.
  exists (normalize_stock_code strict code).
  split; [apply normalize_points_ascii, Hascii|].
  split; [reflexivity|]. split; [exact Hn|]. split; [exact Hout|].
  rewrite (normalize_points_ascii strict _ Hout).
  split; apply normalize_normalized, Hn.
Qed.

Lemma normalize_stock_code_idempotent_witness :
  normalize_stock_code_points false (points " 000001.SZ") = "sz.000001"
  /\ exists out,
      normalize_stock_code_points false (points " 000001.SZ") = out
      /\ normalize_stock_code false " 000001.SZ" = out
      /\ is_normalized out
      /\ is_ascii out = true
      /\ normalize_stock_code_points false (points out) = out
      /\ normalize_stock_code false out = out.
Proof.
  split; [reflexivity|].
  apply (normalize_stock_code_idempotent false " 000001.SZ"); reflexivity.
Defined.

(** The engine that refuses the flag stops every input that the first
    pattern does not match. *)
Lemma strict_engine_stops_at_second_pattern :
  normalize_stock_code true "600000"
  = "错误: global flags not at the start of the expression at position 12"
  /\ normalize_stock_code false "600000" = "sh.600000"
  /\ normalize_stock_code true "SH600000" = "sh.600000".
Proof. repeat split. Qed.
(* ===================================================================== *)
(** ** Further properties of the session guard and the facade *)

Lemma login_not_ok : forall (A : Type) (p : provider) (body : M A) (w : world),
  ~ login_ok p ->
  exists e,
    baostock_login_context p body w = (Raise e, snd (session_enter p w))
    /\ call_names (snd (session_enter p w)) = (call_names w ++ [CallLogin])%list
    /\ (forall lg, bs_login p = Return lg ->
        e = mk_exn LoginError (login_failed_msg (error_msg lg)))
    /\ (forall x, bs_login p = Raise x -> e = x).
Proof.
  intros A p body w Hno.
  destruct (session_enter_calls p w) as [w1 [Hn [_ He]]].
  unfold baostock_login_context, bind. rewrite He. cbn [snd].
  destruct (bs_login p) as [lg|x] eqn:Hlg.
  - destruct (String.eqb_spec (error_code lg) "0") as [E|E].
    + exfalso. apply Hno. exists lg. split; [exact Hlg|exact E].
    + cbn [negb]. eexists. split; [reflexivity|]. split; [exact Hn|].
      split; [intros lg' H; injection H as <-; reflexivity | discriminate].
  - eexists. split; [reflexivity|]. split; [exact Hn|].
    split; [discriminate | intros x' H; injection H as <-; reflexivity].
Qed.

(** X1.  Where the login does not succeed, the guard ends with the error of
    the login in the state the generator left at that point: the body is
    not run and no logout is sent.  A status other than ['0'] is a
    [LoginError] carrying the message of the provider; an exception of the
    login call is passed on. *)
Theorem guard_login_failure_skips_body :
  forall (A : Type) (p : provider) (body : M A) (w : world),
    ~ login_ok p ->
    exists e,
      baostock_login_context p body w = (Raise e, snd (session_enter p w))
      /\ call_names (snd (session_enter p w)) = (call_names w ++ [CallLogin])%list
      /\ (forall lg, bs_login p = Return lg ->
          e = mk_exn LoginError (login_failed_msg (error_msg lg)))
      /\ (forall x, bs_login p = Raise x -> e = x).
Proof. exact login_not_ok. Qed.

Lemma refused_login_not_ok : ~ login_ok refused_login.
Proof. intros [lg [H1 H2]]. injection H1 as <-. discriminate H2. Qed.

Lemma guard_login_failure_skips_body_witness :
  exists e,
    baostock_login_context refused_login (stub_body (Return 1))
      (initial_world jan10)
    = (Raise e, snd (session_enter refused_login (initial_world jan10)))
    /\ call_names (snd (session_enter refused_login (initial_world jan10)))
       = [CallLogin]
    /\ (forall lg, bs_login refused_login = Return lg ->
        e = mk_exn LoginError (login_failed_msg (error_msg lg)))
    /\ (forall x, bs_login refused_login = Raise x -> e = x).
Proof.
  exact (guard_login_failure_skips_body Z refused_login (stub_body (Return 1))
           (initial_world jan10) refused_login_not_ok).
Defined.

(** *** The shape every fetch has *)

Lemma closed_by_is_known : forall A unknown (r : outcome A) e,
  closed_by unknown r = Raise e -> is_known_error e = true.
Proof.
  intros A unknown [a|x] e H; cbn [closed_by] in H; [discriminate|].
  destruct (is_known_error x) eqn:Hx; injection H as <-; [exact Hx|reflexivity].
Qed.

Lemma reraise_known_snd : forall A unknown (body : M A) w,
  snd (reraise_known unknown body w) = snd (body w).
Proof.
  intros A unknown body w. unfold reraise_known, try_except.
  destruct (body w) as [[a|e] w1]; cbn [snd]; [reflexivity|].
  unfold raise. destruct (is_known_error e); reflexivity.
Qed.

(** Every fetch is some body closed by the two [except] clauses. *)
Lemma fetch_is_closed : forall p f,
  exists unknown body, run_fetch p f = reraise_known unknown body.
Proof.
  intros p f. destruct f; cbn [run_fetch];
    unfold get_profit_data, get_operation_data, get_growth_data,
      get_balance_data, get_cash_flow_data, get_dupont_data,
      _fetch_financial_data,
      get_sz50_stocks, get_hs300_stocks, get_zz500_stocks,
      _fetch_index_constituent_data,
      get_deposit_rate_data, get_loan_rate_data,
      get_required_reserve_ratio_data, get_money_supply_data_month,
      get_money_supply_data_year, _fetch_macro_data,
      get_dividend_data, get_adjust_factor_data,
      get_performance_express_report, get_forecast_report,
      get_stock_industry, get_all_stock, get_trade_dates,
      get_stock_basic_info, get_historical_k_data;
    cbv zeta; do 2 eexists; reflexivity.
Qed.

Lemma fetch_known : forall p f w e,
  fst (run_fetch p f w) = Raise e -> is_known_error e = true.
Proof.
  intros p f w e H.
  destruct (fetch_is_closed p f) as [unknown [body Hf]].
  rewrite Hf, reraise_known_fst in H.
  exact (closed_by_is_known _ _ _ _ H).
Qed.

Lemma drained_success : forall n a e rs,
  error_code rs = "0" -> rs_rows rs <> [] ->
  drained n a e rs = Return (mk_df (fields rs) (rs_rows rs)).
Proof.
  intros n a e rs Hc Hr. unfold drained. rewrite Hc. cbn [String.eqb negb].
  change (negb (String.eqb "0" "0")) with false. cbv iota.
  destruct (rs_rows rs); [contradiction|reflexivity].
Qed.

(** Every fetch whose arguments pass its own checks is one request inside
    the guard, followed by steps that leave the state alone; but for the
    selection of columns, an answer ['0'] with rows becomes the frame of
    the provider as it is. *)
Lemma fetch_form_uniform : forall f q,
  request_of f = Some q ->
  exists unknown (k : ResultData -> M DataFrame),
    forall p,
    (forall w,
        run_fetch p f w
        = reraise_known unknown
            (baostock_login_context p (rs <- query p q ;; k rs)) w)
    /\ quiet k
    /\ (selects_columns f = false ->
        forall rs w, error_code rs = "0" -> rs_rows rs <> [] ->
                     fst (k rs w) = Return (mk_df (fields rs) (rs_rows rs))).
Proof.
  intros f q Hq.
  destruct f as [c sd ed fr af fs | c fs | c y t | c sd ed | c y qq | c y qq
                | c y qq | c y qq | c y qq | c y qq | c sd ed | c sd ed
                | c d | d | d | d | sd ed | d | sd ed | sd ed | sd ed t
                | sd ed | sd ed];
    cbn [run_fetch request_of selects_columns] in *;
    try (injection Hq as <-;
         unfold get_profit_data, get_operation_data, get_growth_data,
           get_balance_data, get_cash_flow_data, get_dupont_data,
           _fetch_financial_data,
           get_sz50_stocks, get_hs300_stocks, get_zz500_stocks,
           _fetch_index_constituent_data,
           get_deposit_rate_data, get_loan_rate_data,
           get_required_reserve_ratio_data, get_money_supply_data_month,
           get_money_supply_data_year, _fetch_macro_data,
           get_dividend_data, get_adjust_factor_data,
           get_performance_express_report, get_forecast_report,
           get_stock_industry, get_all_stock;
         cbv zeta;
         match goal with
         | |- context [get_stock_basic_info] => fail 1
         | |- context [get_trade_dates] => fail 1
         | |- context [check_and_drain] =>
             do 2 eexists; intros p; split; [intros w; reflexivity|]; split;
             [ intros rs w; rewrite check_and_drain_run; reflexivity
             | intros _ rs w Hc Hr; rewrite check_and_drain_fst;
               apply drained_success; assumption ]
         end).
  - (* get_historical_k_data *)
    destruct (_format_fields fs DEFAULT_K_FIELDS) as [ff|x] eqn:Hff;
      [|discriminate].
    injection Hq as <-. unfold get_historical_k_data. cbv zeta.
    do 2 eexists. intros p. split; [|split].
    + intros w. unfold reraise_known, try_except. unfold bind at 1.
      unfold lift_outcome at 1. rewrite Hff. reflexivity.
    + intros rs w. cbv beta. rewrite check_and_drain_run. reflexivity.
    + intros _ rs w Hc Hr. cbv beta. rewrite check_and_drain_fst.
      apply drained_success; assumption.
  - (* get_stock_basic_info *)
    injection Hq as <-. unfold get_stock_basic_info. cbv zeta.
    do 2 eexists. intros p. split; [intros w; reflexivity|]. split.
    + intros rs w. cbv beta. unfold bind. rewrite check_and_drain_run.
      destruct (drained _ _ _ rs) as [df|x]; [|reflexivity].
      destruct fs as [[|v fs]|]; try reflexivity.
      unfold raise, ret. destruct (is_nil _); reflexivity.
    + intros Hsel rs w Hc Hr. cbv beta. unfold bind.
      rewrite check_and_drain_run, (drained_success _ _ _ rs Hc Hr).
      destruct fs as [[|v fs]|]; try reflexivity. discriminate.
  - (* get_trade_dates *)
    injection Hq as <-. unfold get_trade_dates.
    do 2 eexists. intros p. split; [intros w; reflexivity|]. split.
    + intros rs w. cbv beta. unfold raise, ret, drain.
      destruct (negb (String.eqb (error_code rs) "0")); [reflexivity|].
      destruct (is_nil (rs_rows rs)); reflexivity.
    + intros _ rs w Hc Hr. cbv beta. unfold raise, ret, drain. rewrite Hc.
      change (negb (String.eqb "0" "0")) with false. cbv iota.
      destruct (rs_rows rs); [contradiction|reflexivity].
Qed.

Lemma fetch_form : forall p f q,
  request_of f = Some q ->
  exists unknown (k : ResultData -> M DataFrame),
    (forall w,
        run_fetch p f w
        = reraise_known unknown
            (baostock_login_context p (rs <- query p q ;; k rs)) w)
    /\ quiet k
    /\ (selects_columns f = false ->
        forall rs w, error_code rs = "0" -> rs_rows rs <> [] ->
                     fst (k rs w) = Return (mk_df (fields rs) (rs_rows rs))).
Proof.
  intros p f q Hq.
  destruct (fetch_form_uniform f q Hq) as [unknown [k H]].
  exists unknown, k. exact (H p).
Qed.

(** One request inside the guard: what the provider sees. *)
Lemma round_trip_calls : forall A p q (k : ResultData -> M A) w,
  login_ok p -> quiet k ->
  call_names (snd (baostock_login_context p (rs <- query p q ;; k rs) w))
  = (call_names w ++ [CallLogin; CallQuery q; CallLogout])%list.
Proof.
  intros A p q k w Hok Hk.
  destruct (guard_after_login A p (rs <- query p q ;; k rs) w Hok)
    as [w1 [w3 [Hn1 [_ [Hn3 Hrun]]]]].
  rewrite Hrun. cbn [snd]. rewrite Hn3.
  assert (Hbody : call_names (snd ((rs <- query p q ;; k rs) w1))
                  = (call_names w1 ++ [CallQuery q])%list).
  { unfold bind at 1. unfold query, bind, record_call, lift_outcome.
    destruct (bs_respond p q) as [rs|x]; cbn [snd].
    - rewrite Hk. apply call_names_app.
    - apply call_names_app. }
  rewrite Hbody, Hn1, <- !app_assoc. reflexivity.
Qed.

Lemma fetch_calls : forall p f q w,
  login_ok p -> request_of f = Some q ->
  call_names (snd (run_fetch p f w))
  = (call_names w ++ [CallLogin; CallQuery q; CallLogout])%list.
Proof.
  intros p f q w Hok Hq.
  destruct (fetch_form p f q Hq) as [unknown [k [Hrun [Hk _]]]].
  rewrite Hrun, reraise_known_snd. apply round_trip_calls; assumption.
Qed.

Lemma guard_passes_on : forall p q (k : ResultData -> M DataFrame) x w,
  (bs_login p = Raise x
   \/ (login_ok p /\ bs_logout p = Raise x)
   \/ (login_ok p /\ logout_returns p /\ bs_respond p q = Raise x)) ->
  fst (baostock_login_context p (rs <- query p q ;; k rs) w) = Raise x.
Proof.
  intros p q k x w [Hlogin | [[Hok Hout] | [Hok [[lo Hlo] Hrs]]]].
  - assert (Hno : ~ login_ok p).
    { intros [lg [H _]]. rewrite Hlogin in H. discriminate H. }
    destruct (login_not_ok DataFrame p (rs <- query p q ;; k rs) w Hno)
      as [e [Hrun [_ [_ He]]]].
    rewrite Hrun, (He x Hlogin). reflexivity.
  - destruct (guard_after_login DataFrame p (rs <- query p q ;; k rs) w Hok)
      as [w1 [w3 [_ [_ [_ Hrun]]]]].
    rewrite Hrun, Hout. reflexivity.
  - destruct (guard_after_login DataFrame p (rs <- query p q ;; k rs) w Hok)
      as [w1 [w3 [_ [_ [_ Hrun]]]]].
    rewrite Hrun, Hlo. cbn [fst].
    unfold bind at 1. unfold query, bind, record_call, lift_outcome.
    rewrite Hrs. reflexivity.
Qed.

(** X2.  No fetch lets an exception out that is not one of [LoginError],
    [NoDataFoundError], [DataSourceError] and [ValueError], whatever the
    provider does: refuse the login, raise in any of its three calls, or
    answer anything.  And an exception that the provider raises in the
    round trip of a fetch leaves the fetch as it is when it is of one of
    these classes, and otherwise as a [DataSourceError] whose message is
    the message of the exception behind a text of the fetch, the same
    for every provider and state. *)
Theorem fetch_raises_known_errors_only :
  forall (f : fetch),
    (forall (p : provider) (w : world) (e : exn),
        fst (run_fetch p f w) = Raise e -> is_known_error e = true)
    /\ (forall q, request_of f = Some q ->
        exists prefix,
          forall (p : provider) (w : world) (x : exn),
            provider_raises p q x ->
            fst (run_fetch p f w)
            = Raise (if is_known_error x then x
                     else mk_exn DataSourceError (prefix ++ exn_str x))).
Proof.
  intros f. split; [intros p w e; apply fetch_known|].
  intros q Hq.
  destruct (fetch_form_uniform f q Hq) as [unknown [k H]].
  exists unknown. intros p w x Hx.
  destruct (H p) as [Hrun _].
  rewrite Hrun, reraise_known_fst.
  rewrite (guard_passes_on p q k x w Hx). unfold closed_by.
  destruct (is_known_error x); reflexivity.
Qed.

Lemma fetch_raises_known_errors_only_witness :
  is_known_error
    (mk_exn DataSourceError
       "为日期 None 获取全部股票列表时发生未知错误: connection reset") = true
  /\ exists prefix,
       fst (run_fetch raising_query (Fetch_all_stock None) (initial_world jan10))
       = Raise (mk_exn DataSourceError (prefix ++ "connection reset")).
Proof.
  destruct (fetch_raises_known_errors_only (Fetch_all_stock None)) as [H1 H2].
  split.
  - apply (H1 raising_query (initial_world jan10)). vm_compute. reflexivity.
  - destruct (H2 (query_all_stock None) eq_refl) as [prefix Hp].
    exists prefix.
    apply (Hp raising_query (initial_world jan10) connection_reset).
    right. right. split; [apply login_ok_intro; reflexivity|].
    split; [exists ok_status; reflexivity | reflexivity].
Defined.

Example unknown_exceptions_are_wrapped :
  fst (run_fetch raising_query (Fetch_all_stock None) (initial_world jan10))
  = Raise (mk_exn DataSourceError
             "为日期 None 获取全部股票列表时发生未知错误: connection reset")
  /\ fst (run_fetch failing_login (Fetch_trade_dates None None)
            (initial_world jan10))
     = Raise (mk_exn DataSourceError "获取交易日时发生未知错误: connection reset").
Proof. split; vm_compute; reflexivity. Qed.

(** X3.  A fetch is one round trip.  After a login that succeeds, the provider
    sees the login, the one request of the fetch and the logout, and
    nothing else: whatever the answer is (a status, rows or none, an
    exception), nothing is asked twice. *)
Theorem fetch_is_one_round_trip :
  forall (p : provider) (f : fetch) (q : bs_query) (w : world),
    login_ok p ->
    request_of f = Some q ->
    call_names (snd (run_fetch p f w))
    = (call_names w ++ [CallLogin; CallQuery q; CallLogout])%list.
Proof. exact fetch_calls. Qed.

Lemma fetch_is_one_round_trip_witness :
  call_names (snd (run_fetch no_record_provider
                     (Fetch_hs300_stocks (Some "2024-12-31"))
                     (initial_world jan10)))
  = [CallLogin; CallQuery (query_hs300_stocks (Some "2024-12-31")); CallLogout].
Proof.
  apply (fetch_is_one_round_trip no_record_provider
           (Fetch_hs300_stocks (Some "2024-12-31"))
           (query_hs300_stocks (Some "2024-12-31")) (initial_world jan10)).
  - apply login_ok_intro. reflexivity.
  - reflexivity.
Defined.

(** X4.  A login that the provider refuses ends every fetch with a
    [LoginError] that carries the message of the provider; the request is
    not sent and no logout follows. *)
Theorem fetch_login_refused :
  forall (p : provider) (f : fetch) (q : bs_query) (lg : ResultData) (w : world),
    bs_login p = Return lg ->
    error_code lg <> "0" ->
    request_of f = Some q ->
    fst (run_fetch p f w)
    = Raise (mk_exn LoginError (login_failed_msg (error_msg lg)))
    /\ call_names (snd (run_fetch p f w)) = (call_names w ++ [CallLogin])%list.
Proof.
  intros p f q lg w Hlg Hcode Hq.
  assert (Hno : ~ login_ok p).
  { intros [lg' [H1 H2]]. rewrite Hlg in H1. injection H1 as <-. contradiction. }
  destruct (fetch_form p f q Hq) as [unknown [k [Hrun _]]].
  destruct (login_not_ok DataFrame p
              (rs <- query p q ;; k rs) w Hno) as [e [Hg [Hn [He _]]]].
  rewrite Hrun. split.
  - rewrite reraise_known_fst, Hg. cbn [fst].
    rewrite (He lg Hlg). reflexivity.
  - rewrite reraise_known_snd, Hg. exact Hn.
Qed.

Lemma fetch_login_refused_witness :
  fst (run_fetch refused_login (Fetch_trade_dates None None) (initial_world jan10))
  = Raise (mk_exn LoginError (login_failed_msg "network error"))
  /\ call_names (snd (run_fetch refused_login (Fetch_trade_dates None None)
                        (initial_world jan10)))
     = [CallLogin].
Proof.
  apply (fetch_login_refused refused_login (Fetch_trade_dates None None)
           (query_trade_dates None None)
           (mk_rs "10001001" "network error" [] []) (initial_world jan10)).
  - reflexivity.
  - discriminate.
  - reflexivity.
Defined.

(** X5.  An answer ['0'] with rows, each holding one cell per field, comes
    back as the frame of the provider: its columns in its order, its rows
    in its order.  This holds for every fetch but the selection of columns
    of [get_stock_basic_info], after a login that succeeded and with a
    logout that returns. *)
Theorem fetch_returns_provider_frame :
  forall (p : provider) (f : fetch) (q : bs_query) (rs : ResultData) (w : world),
    login_ok p -> logout_returns p ->
    request_of f = Some q ->
    bs_respond p q = Return rs ->
    error_code rs = "0" ->
    rs_rows rs <> [] ->
    rectangular rs = true ->
    selects_columns f = false ->
    fst (run_fetch p f w) = Return (mk_df (fields rs) (rs_rows rs)).
Proof.
  intros p f q rs w Hok [lo Hlo] Hq Hrs Hc Hr _ Hsel.
  destruct (fetch_form p f q Hq) as [unknown [k [Hrun [_ Hsucc]]]].
  rewrite Hrun, reraise_known_fst.
  rewrite (round_trip_fst _ p q k rs
             (Return (mk_df (fields rs) (rs_rows rs))) w Hok Hrs).
  - rewrite Hlo. reflexivity.
  - intros w'. apply Hsucc; assumption.
Qed.

Lemma fetch_returns_provider_frame_witness :
  fst (run_fetch one_row_provider (Fetch_stock_basic_info "sh.600000" None)
         (initial_world jan10))
  = Return (mk_df ["code"; "code_name"] [["sh.600000"; "PF Bank"]]).
Proof.
  apply (fetch_returns_provider_frame one_row_provider
           (Fetch_stock_basic_info "sh.600000" None)
           (query_stock_basic "sh.600000") one_row_answer (initial_world jan10)).
  - apply login_ok_intro. reflexivity.
  - exists ok_status. reflexivity.
  - reflexivity.
  - reflexivity.
  - reflexivity.
  - discriminate.
  - reflexivity.
  - reflexivity.
Defined.

(* ===================================================================== *)
(** ** The selection of columns of [get_stock_basic_info] *)

Lemma index_of_Some : forall name l i,
  index_of name l = Some i -> (i < List.length l)%nat /\ nth i l "" = name.
Proof.
  intros name l. induction l as [|c l IH]; intros i H; cbn in H; [discriminate|].
  destruct (String.eqb_spec c name) as [E|E].
  - injection H as <-. cbn. split; [lia|exact E].
  - destruct (index_of name l) as [j|]; [|discriminate].
    injection H as <-. destruct (IH j eq_refl) as [H1 H2].
    cbn. split; [lia|exact H2].
Qed.

Lemma index_of_In : forall name l,
  In name l -> exists i, index_of name l = Some i.
Proof.
  intros name l. induction l as [|c l IH]; intros H; [contradiction|].
  cbn. destruct (String.eqb_spec c name) as [E|E]; [eexists; reflexivity|].
  destruct H as [H|H]; [contradiction|].
  destruct (IH H) as [i Hi]. rewrite Hi. eexists. reflexivity.
Qed.

Lemma has_column_In : forall df name,
  has_column df name = true <-> In name (columns df).
Proof.
  intros df name. unfold has_column. rewrite existsb_exists. split.
  - intros [x [Hin Hx]]. apply String.eqb_eq in Hx. subst. exact Hin.
  - intros H. exists name. split; [exact H|apply String.eqb_refl].
Qed.

Lemma available_cols_In : forall df fs c,
  In c (available_cols df fs) <-> In (PyStr c) fs /\ In c (columns df).
Proof.
  intros df fs c. induction fs as [|v fs IH]; cbn [available_cols].
  - cbn. tauto.
  - destruct v as [s|n|]; cbn [available].
    + destruct (has_column df s) eqn:Hs.
      * cbn [In]. rewrite IH. split.
        -- intros [<-|[H1 H2]]; [|tauto].
           split; [left; reflexivity|]. apply has_column_In, Hs.
        -- intros [[H|H] H2]; [injection H as <-; left; reflexivity|tauto].
      * rewrite IH. cbn [In]. split; [tauto|].
        intros [[H|H] H2]; [|tauto].
        injection H as <-. apply has_column_In in H2. congruence.
    + rewrite IH. cbn [In]. split; [tauto|].
      intros [[H|H] H2]; [discriminate|tauto].
    + rewrite IH. cbn [In]. split; [tauto|].
      intros [[H|H] H2]; [discriminate|tauto].
Qed.

(** A selected cell is the cell of the frame selected from. *)
Lemma df_select_cell : forall df cols row c,
  In c cols ->
  cell (df_select df cols) c (map (fun c' => cell df c' row) cols)
  = cell df c row.
Proof.
  intros df cols row c Hin. unfold cell at 1. cbn [columns df_select].
  destruct (index_of_In c cols Hin) as [i Hi]. rewrite Hi.
  destruct (index_of_Some c cols i Hi) as [Hlt Hnth].
  rewrite (nth_indep _ "" (cell df "" row))
    by (rewrite length_map; exact Hlt).
  rewrite (map_nth (fun c' => cell df c' row) cols "" i), Hnth. reflexivity.
Qed.

Lemma available_cols_kept : forall df fs,
  available_cols df fs = kept (named fs) (columns df).
Proof.
  intros df fs. induction fs as [|v fs IH]; [reflexivity|].
  cbn [available_cols named flat_map]. fold (named fs).
  destruct v as [c|n|]; cbn [available app]; try exact IH.
  unfold kept. cbn [filter]. fold (kept (named fs) (columns df)).
  unfold has_column. destruct (existsb (String.eqb c) (columns df));
    rewrite IH; reflexivity.
Qed.

Lemma index_of_NoDup : forall l k c,
  NoDup l -> nth_error l k = Some c -> index_of c l = Some k.
Proof.
  induction l as [|x l IH]; intros k c Hnd Hk; [destruct k; discriminate|].
  inversion Hnd as [|? ? Hx Hl]; subst.
  destruct k as [|k]; cbn in Hk.
  - injection Hk as ->. cbn. rewrite String.eqb_refl. reflexivity.
  - cbn. destruct (String.eqb_spec x c) as [E|E].
    + exfalso. apply Hx. rewrite E. eapply nth_error_In, Hk.
    + rewrite (IH k c Hl Hk). reflexivity.
Qed.

(** X6.  With a field list that has an entry, [get_stock_basic_info] keeps
    of an answer ['0'] with rows, whose fields have distinct names and
    whose rows hold one cell per field, the columns that the caller named
    by a string and the provider has, in the order of the caller: the
    frame it returns has these columns, one row per row of the provider in
    the order of the provider, and in each row under each kept name the
    cell that the provider has under that name.  Where no named column is
    one of the provider's it raises [ValueError].  Entries that are no
    strings select nothing. *)
Theorem basic_info_selects_named_columns :
  forall (p : provider) (code : string) (v : pyval) (fs : list pyval)
         (rs : ResultData) (w : world),
    login_ok p -> logout_returns p ->
    bs_respond p (query_stock_basic code) = Return rs ->
    error_code rs = "0" ->
    rs_rows rs <> [] ->
    rectangular rs = true ->
    NoDup (fields rs) ->
    (kept (named (v :: fs)) (fields rs) = [] ->
     exists msg,
       fst (get_stock_basic_info p code (Some (v :: fs)) w)
       = Raise (mk_exn ValueError msg))
    /\ (kept (named (v :: fs)) (fields rs) <> [] ->
        exists out,
          fst (get_stock_basic_info p code (Some (v :: fs)) w) = Return out
          /\ columns out = kept (named (v :: fs)) (fields rs)
          /\ List.length (df_rows out) = List.length (rs_rows rs)
          /\ forall (i j k : nat) (c : string),
               (i < List.length (rs_rows rs))%nat ->
               nth_error (kept (named (v :: fs)) (fields rs)) j = Some c ->
               nth_error (fields rs) k = Some c ->
               List.length (nth i (df_rows out) [])
               = List.length (kept (named (v :: fs)) (fields rs))
               /\ nth j (nth i (df_rows out) []) ""
                  = nth k (nth i (rs_rows rs) []) "").
Proof.
  intros p code v fs rs w Hok [lo Hlo] Hrs Hc Hr _ Hnd.
  assert (Hrun := get_stock_basic_info_fst p code (Some (v :: fs)) w rs Hok Hrs).
  rewrite Hlo in Hrun. unfold basic_info_selected in Hrun.
  rewrite (drained_success _ _ _ rs Hc Hr) in Hrun.
  rewrite available_cols_kept in Hrun. cbn [columns] in Hrun.
  set (cols := kept (named (v :: fs)) (fields rs)) in *.
  split.
  - intros E. rewrite Hrun, E. eexists. reflexivity.
  - intros E. exists (df_select (mk_df (fields rs) (rs_rows rs)) cols).
    split; [rewrite Hrun; destruct cols; [contradiction|reflexivity]|].
    split; [reflexivity|].
    unfold df_select. cbn [df_rows columns].
    split; [apply length_map|].
    intros i j k c Hi Hj Hk.
    set (pick := fun row : list string =>
                   map (fun c' => cell (mk_df (fields rs) (rs_rows rs)) c' row)
                       cols).
    assert (Hrow : nth i (map pick (rs_rows rs)) [] = pick (nth i (rs_rows rs) [])).
    { rewrite (nth_indep _ [] (pick [])) by (rewrite length_map; exact Hi).
      apply map_nth. }
    rewrite Hrow. unfold pick. split; [apply length_map|].
    assert (Hjlt : (j < List.length cols)%nat).
    { apply nth_error_Some. rewrite Hj. discriminate. }
    rewrite (nth_indep _ "" (cell (mk_df (fields rs) (rs_rows rs)) ""
                               (nth i (rs_rows rs) [])))
      by (rewrite length_map; exact Hjlt).
    rewrite (map_nth (fun c' => cell (mk_df (fields rs) (rs_rows rs)) c'
                                  (nth i (rs_rows rs) [])) cols "" j).
    rewrite (nth_error_nth cols j "" Hj).
    unfold cell. cbn [columns]. rewrite (index_of_NoDup _ k c Hnd Hk).
    reflexivity.
Qed.

Lemma basic_info_selects_named_columns_witness :
  (kept (named [PyStr "code_name"; PyInt 7; PyStr "code"]) (fields one_row_answer)
   = [] ->
   exists msg,
     fst (get_stock_basic_info one_row_provider "sh.600000"
            (Some [PyStr "code_name"; PyInt 7; PyStr "code"])
            (initial_world jan10))
     = Raise (mk_exn ValueError msg))
  /\ (kept (named [PyStr "code_name"; PyInt 7; PyStr "code"])
         (fields one_row_answer) <> [] ->
      exists out,
        fst (get_stock_basic_info one_row_provider "sh.600000"
               (Some [PyStr "code_name"; PyInt 7; PyStr "code"])
               (initial_world jan10)) = Return out
        /\ columns out
           = kept (named [PyStr "code_name"; PyInt 7; PyStr "code"])
               (fields one_row_answer)
        /\ List.length (df_rows out) = List.length (rs_rows one_row_answer)
        /\ forall (i j k : nat) (c : string),
             (i < List.length (rs_rows one_row_answer))%nat ->
             nth_error (kept (named [PyStr "code_name"; PyInt 7; PyStr "code"])
                          (fields one_row_answer)) j = Some c ->
             nth_error (fields one_row_answer) k = Some c ->
             List.length (nth i (df_rows out) [])
             = List.length (kept (named [PyStr "code_name"; PyInt 7; PyStr "code"])
                              (fields one_row_answer))
             /\ nth j (nth i (df_rows out) []) ""
                = nth k (nth i (rs_rows one_row_answer) []) "").
Proof.
  apply (basic_info_selects_named_columns one_row_provider "sh.600000"
           (PyStr "code_name") [PyInt 7; PyStr "code"] one_row_answer
           (initial_world jan10)).
  - apply login_ok_intro. reflexivity.
  - exists ok_status. reflexivity.
  - reflexivity.
  - reflexivity.
  - discriminate.
  - reflexivity.
  - repeat constructor; cbn; intuition discriminate.
Defined.

Example basic_info_selection_example :
  kept (named [PyStr "code_name"; PyInt 7; PyStr "code"]) ["code"; "code_name"]
  = ["code_name"; "code"]
  /\ fst (get_stock_basic_info one_row_provider "sh.600000"
            (Some [PyStr "code_name"; PyInt 7; PyStr "code"])
            (initial_world jan10))
     = Return (mk_df ["code_name"; "code"] [["PF Bank"; "sh.600000"]]).
Proof. split; [reflexivity | vm_compute; reflexivity]. Qed.

(* ===================================================================== *)
(** ** [get_latest_trading_date] on an answered call *)

Lemma str_ltb_leb : forall a b, String.ltb a b = true -> String.leb a b = true.
Proof.
  intros a b. unfold String.ltb, String.leb.
  destruct (String.compare a b); congruence.
Qed.

Lemma str_ltb_false_leb : forall a b,
  String.ltb a b = false -> String.leb b a = true.
Proof.
  intros a b. unfold String.ltb, String.leb.
  rewrite (String.compare_antisym b a).
  destruct (String.compare a b); cbn; congruence.
Qed.

Lemma str_leb_empty : forall d, String.leb d "" = true -> d = "".
Proof. intros [|c d]; [reflexivity|discriminate]. Qed.

(** The loop over the flagged days: it ends with no day exactly when no
    day is on or before [today], and otherwise with the greatest such
    day. *)
Lemma latest_loop : forall today l acc,
  (forall a, acc = Some a -> String.leb a today = true) ->
  (fold_left (latest_step today) l acc = None <->
   acc = None /\ forall d, In d l -> String.leb d today = false)
  /\ forall m,
      fold_left (latest_step today) l acc = Some m ->
      String.leb m today = true
      /\ (acc = Some m \/ In m l)
      /\ (forall d, In d l -> String.leb d today = true -> String.leb d m = true)
      /\ (forall a, acc = Some a -> String.leb a m = true).
Proof.
  intros today l. induction l as [|d l IH]; intros acc Hacc; cbn [fold_left].
  - split.
    + split; [intros H; split; [exact H|intros d []] | intros [H _]; exact H].
    + intros m H. subst acc. split; [apply Hacc; reflexivity|].
      split; [left; reflexivity|]. split; [intros d []|].
      intros a H. injection H as <-. apply str_leb_refl.
  - change (latest_step today acc d)
      with (if String.leb d today
               && match acc with
                  | None => true
                  | Some l0 => String.ltb l0 d
                  end
            then Some d else acc).
    destruct (String.leb d today) eqn:Hd; cbn [andb].
    + destruct (match acc with
                | Some l0 => String.ltb l0 d
                | None => true
                end) eqn:Hgt.
      * (* the day replaces the one held *)
        destruct (IH (Some d)) as [Hnone Hsome].
        { intros a H. injection H as <-. exact Hd. }
        split.
        -- split.
           ++ intros H. apply Hnone in H. destruct H as [H _]. discriminate.
           ++ intros [_ H]. rewrite (H d (or_introl eq_refl)) in Hd. discriminate.
        -- intros m Hm. destruct (Hsome m Hm) as [H1 [H2 [H3 H4]]].
           split; [exact H1|]. split.
           ++ right. destruct H2 as [H2|H2];
                [injection H2 as <-; left; reflexivity | right; exact H2].
           ++ split.
              ** intros x [<-|Hx] Hle; [apply H4; reflexivity | apply H3; assumption].
              ** intros a Ha. subst acc.
                 apply (str_leb_trans a d m); [apply str_ltb_leb, Hgt|].
                 apply H4. reflexivity.
      * (* the day held is not less *)
        destruct acc as [a0|]; [|discriminate].
        destruct (IH (Some a0) Hacc) as [Hnone Hsome].
        split.
        -- split.
           ++ intros H. apply Hnone in H. destruct H as [H _]. discriminate.
           ++ intros [H _]. discriminate.
        -- intros m Hm. destruct (Hsome m Hm) as [H1 [H2 [H3 H4]]].
           split; [exact H1|]. split.
           ++ destruct H2 as [H2|H2]; [left; exact H2 | right; right; exact H2].
           ++ split; [|exact H4].
              intros x [<-|Hx] Hle; [|apply H3; assumption].
              apply (str_leb_trans d a0 m);
                [apply str_ltb_false_leb, Hgt | apply H4; reflexivity].
    + destruct (IH acc Hacc) as [Hnone Hsome].
      split.
      * split.
        -- intros H. apply Hnone in H. destruct H as [H1 H2].
           split; [exact H1|]. intros x [<-|Hx]; [exact Hd | apply H2, Hx].
        -- intros [H1 H2]. apply Hnone. split; [exact H1|].
           intros x Hx. apply H2. right. exact Hx.
      * intros m Hm. destruct (Hsome m Hm) as [H1 [H2 [H3 H4]]].
        split; [exact H1|]. split.
        -- destruct H2 as [H2|H2]; [left; exact H2 | right; right; exact H2].
        -- split; [|exact H4].
           intros x [<-|Hx] Hle; [congruence | apply H3; assumption].
Qed.

Lemma flagged_dates_In : forall df today,
  has_column df "is_trading_day" = true ->
  has_column df "calendar_date" = true ->
  exists l,
    flagged_dates (Some df) = Return l
    /\ forall d, (In d l /\ String.leb d today = true) <-> flagged_up_to today df d.
Proof.
  intros df today H1 H2. unfold flagged_dates. rewrite H1, H2. cbn [negb].
  eexists. split; [reflexivity|]. intros d. unfold flagged_up_to.
  rewrite in_map_iff. split.
  - intros [[row [Hc Hin]] Hle]. apply filter_In in Hin.
    destruct Hin as [Hin Hf]. apply String.eqb_eq in Hf.
    exists row. repeat split; assumption.
  - intros [row [Hin [Hf [Hc Hle]]]]. split; [|exact Hle].
    exists row. split; [exact Hc|]. apply filter_In. split; [exact Hin|].
    apply String.eqb_eq, Hf.
Qed.

Lemma replace_day_valid : forall d n,
  valid_date d = true -> 1 <= n <= 28 ->
  replace_day d n = Return (mk_date (year d) (month d) n).
Proof.
  intros d n Hv Hn. destruct (valid_date_inv d Hv) as [Hy [Hm _]].
  pose proof (days_in_month_bounds (year d) (month d)) as Hb.
  unfold replace_day, datetime.
  replace ((MINYEAR <=? year d) && (year d <=? MAXYEAR)) with true
    by (symmetry; apply andb_true_iff; split; apply Z.leb_le; lia).
  replace ((1 <=? month d) && (month d <=? 12)) with true
    by (symmetry; apply andb_true_iff; split; apply Z.leb_le; lia).
  replace ((1 <=? n) && (n <=? days_in_month (year d) (month d))) with true
    by (symmetry; apply andb_true_iff; split; apply Z.leb_le; lia).
  reflexivity.
Qed.

(** X7.  [get_latest_trading_date] asks for the 1st to the 28th of the current
    month.  Of a frame with the two columns it returns the greatest day
    among the rows flagged ['1'] that is not after today, and today's date
    when there is no such day (or none that is not the empty string).
    What it returns is never after today.  Days are compared as
    strings. *)
Theorem latest_trading_date_is_greatest_up_to_today :
  forall (ds : FinancialDataSource) (df : DataFrame) (w w1 : world),
    valid_date (clock w) = true ->
    ds_get_trade_dates ds
      (Some (strftime (mk_date (year (clock w)) (month (clock w)) 1)))
      (Some (strftime (mk_date (year (clock w)) (month (clock w)) 28))) w
    = (Return (Some df), w1) ->
    has_column df "is_trading_day" = true ->
    has_column df "calendar_date" = true ->
    exists r,
      get_latest_trading_date ds w = (Return r, w1)
      /\ String.leb r (strftime (clock w)) = true
      /\ ((forall d, flagged_up_to (strftime (clock w)) df d -> d = "") ->
          r = strftime (clock w))
      /\ ((exists d, flagged_up_to (strftime (clock w)) df d /\ d <> "") ->
          flagged_up_to (strftime (clock w)) df r
          /\ forall d, flagged_up_to (strftime (clock w)) df d ->
                       String.leb d r = true).
Proof.
  intros ds df w w1 Hv Hds Hc1 Hc2.
  set (today := strftime (clock w)).
  destruct (flagged_dates_In df today Hc1 Hc2) as [l [Hl Hin]].
  unfold get_latest_trading_date, try_except, bind, datetime_now, lift_outcome, ret.
  rewrite (replace_day_valid _ 1 Hv) by lia.
  rewrite (replace_day_valid _ 28 Hv) by lia.
  rewrite Hds, Hl. fold today.
  destruct (latest_loop today l None) as [Hnone Hsome]; [discriminate|].
  destruct (fold_left (latest_step today) l None) as [m|] eqn:Hfold.
  - destruct (Hsome m eq_refl) as [Hm1 [Hm2 [Hm3 _]]].
    destruct Hm2 as [Hm2|Hm2]; [discriminate|].
    destruct (String.eqb_spec m "") as [E|E].
    + exists today. split; [reflexivity|]. split; [apply str_leb_refl|].
      split; [reflexivity|].
      intros [d [Hd Hne]]. exfalso. apply Hne.
      apply Hin in Hd. destruct Hd as [Hd1 Hd2].
      specialize (Hm3 d Hd1 Hd2). rewrite E in Hm3.
      apply str_leb_empty, Hm3.
    + exists m. split; [reflexivity|]. split; [exact Hm1|]. split.
      * intros Hall. exfalso. apply E, Hall, Hin. split; assumption.
      * intros _. split; [apply Hin; split; assumption|].
        intros d Hd. apply Hin in Hd. destruct Hd as [Hd1 Hd2].
        apply Hm3; assumption.
  - destruct Hnone as [Hnone _]. destruct (Hnone eq_refl) as [_ Hno].
    exists today. split; [reflexivity|]. split; [apply str_leb_refl|].
    split; [reflexivity|].
    intros [d [Hd _]]. apply Hin in Hd. destruct Hd as [Hd1 Hd2].
    rewrite (Hno d Hd1) in Hd2. discriminate.
Qed.

Lemma latest_trading_date_is_greatest_up_to_today_witness :
  exists r,
    get_latest_trading_date calendar_source (initial_world jan12)
    = (Return r,
       mk_world [(1%nat, Terminal); (0%nat, Terminal); (2%nat, Terminal)]
         [(CallLogin, Some DevNull);
          (CallQuery (query_trade_dates (Some "2025-01-01") (Some "2025-01-28")),
           Some Terminal);
          (CallLogout, Some DevNull)] jan12)
    /\ String.leb r "2025-01-12" = true
    /\ ((forall d, flagged_up_to "2025-01-12" calendar_frame d -> d = "") ->
        r = "2025-01-12")
    /\ ((exists d, flagged_up_to "2025-01-12" calendar_frame d /\ d <> "") ->
        flagged_up_to "2025-01-12" calendar_frame r
        /\ forall d, flagged_up_to "2025-01-12" calendar_frame d ->
                     String.leb d r = true).
Proof.
  apply (latest_trading_date_is_greatest_up_to_today calendar_source
           calendar_frame (initial_world jan12)); vm_compute; reflexivity.
Defined.

Example latest_trading_date_example :
  fst (get_latest_trading_date calendar_source (initial_world jan12))
  = Return "2025-01-10".
Proof. vm_compute. reflexivity. Qed.

(* ===================================================================== *)
(** ** The months of [get_market_analysis_timeframe] *)

Lemma eqb_cases : forall period,
  (String.eqb period "recent" = true /\ period = "recent")
  \/ (String.eqb period "recent" = false
      /\ ((String.eqb period "quarter" = true /\ period = "quarter")
          \/ (String.eqb period "quarter" = false
              /\ ((String.eqb period "half_year" = true /\ period = "half_year")
                  \/ (String.eqb period "half_year" = false
                      /\ ((String.eqb period "year" = true /\ period = "year")
                          \/ String.eqb period "year" = false)))))).
Proof.
  intros period.
  destruct (String.eqb_spec period "recent"); [left; tauto|right; split; [reflexivity|]].
  destruct (String.eqb_spec period "quarter"); [left; tauto|right; split; [reflexivity|]].
  destruct (String.eqb_spec period "half_year"); [left; tauto|right; split; [reflexivity|]].
  destruct (String.eqb_spec period "year"); [left; tauto|right; reflexivity].
Qed.

(** X8.  For every period and every reading of the clock after year 1 the
    start and the middle of the range are first days of months of the
    calendar; the start month lies [months_back] months before the current
    month and the middle month [middle_after] months after the start
    month, across the turn of the year.  The months back are 3, 6 and 12
    for a quarter, half a year and a year, and 1 for any other word; for
    ["recent"] they are 1 from the 15th on and 2 before it, but in
    February 1 before the 15th as well.  Nothing is raised. *)
Theorem timeframe_months_are_whole_months_back :
  forall (period : string) (w : world),
    valid_date (clock w) = true ->
    MINYEAR < year (clock w) ->
    exists start middle label,
      timeframe_months (clock w) period = Return (start, middle)
      /\ get_market_analysis_timeframe period w = (Return label, w)
      /\ valid_date start = true /\ day start = 1
      /\ valid_date middle = true /\ day middle = 1
      /\ month_index (clock w) - month_index start = months_back (clock w) period
      /\ month_index middle - month_index start = middle_after (clock w) period.
Proof.
  intros period w Hv Hy. set (now := clock w) in *.
  destruct (valid_date_inv now Hv) as [Hyear [Hmonth _]].
  unfold MINYEAR, MAXYEAR in *.
  assert (Hfirst : forall y m, 1 <= y <= 9999 -> 1 <= m <= 12 ->
            datetime y m 1 = Return (mk_date y m 1)
            /\ valid_date (mk_date y m 1) = true).
  { intros y m H1 H2. split; [apply datetime_first; unfold MINYEAR, MAXYEAR; lia|].
    pose proof (days_in_month_bounds y m).
    unfold valid_date, MINYEAR, MAXYEAR. cbn [year month day].
    repeat (apply andb_true_iff; split); apply Z.leb_le; lia. }
  assert (Hgoal : exists start middle,
      timeframe_months now period = Return (start, middle)
      /\ valid_date start = true /\ day start = 1
      /\ valid_date middle = true /\ day middle = 1
      /\ month_index now - month_index start = months_back now period
      /\ month_index middle - month_index start = middle_after now period).
  { unfold timeframe_months, months_back, middle_after, month_index.
    destruct (eqb_cases period)
      as [[E _]|[E [[E1 _]|[E1 [[E2 _]|[E2 [[E3 _]|E3]]]]]]];
      rewrite ?E, ?E1, ?E2, ?E3.
    - (* recent *)
      destruct (Z.ltb_spec (day now) 15) as [Hd|Hd].
      + destruct (Z.eqb_spec (month now) 1) as [M1|M1].
        * destruct (Hfirst (year now - 1) 11) as [D1 V1]; try lia.
          destruct (Hfirst (year now - 1) 12) as [D2 V2]; try lia.
          rewrite D1, D2. do 2 eexists. split; [reflexivity|].
          rewrite M1. cbn [year month day]. cbn [Z.eqb Pos.eqb].
          repeat split; try assumption; lia.
        * destruct (Z.eqb_spec (month now) 2) as [M2|M2].
          -- destruct (Hfirst (year now) 1) as [D1 V1]; try lia.
             rewrite D1. do 2 eexists. split; [reflexivity|].
             cbn [year month day]. repeat split; try assumption; lia.
          -- destruct (Hfirst (year now) (month now - 2)) as [D1 V1]; try lia.
             destruct (Hfirst (year now) (month now - 1)) as [D2 V2]; try lia.
             rewrite D1, D2. do 2 eexists. split; [reflexivity|].
             cbn [year month day]. repeat split; try assumption; lia.
      + destruct (Z.eqb_spec (month now) 1) as [M1|M1].
        * destruct (Hfirst (year now - 1) 12) as [D1 V1]; try lia.
          rewrite D1. do 2 eexists. split; [reflexivity|].
          cbn [year month day]. repeat split; try assumption; lia.
        * destruct (Hfirst (year now) (month now - 1)) as [D1 V1]; try lia.
          rewrite D1. do 2 eexists. split; [reflexivity|].
          cbn [year month day]. repeat split; try assumption; lia.
    - (* quarter *)
      destruct (Z.leb_spec (month now) 3) as [Hm|Hm].
      + destruct (Hfirst (year now - 1) (month now + 9)) as [D1 V1]; try lia.
        rewrite D1. do 2 eexists. split; [reflexivity|].
        cbn [year month day]. repeat split; try assumption; lia.
      + destruct (Hfirst (year now) (month now - 3)) as [D1 V1]; try lia.
        rewrite D1. do 2 eexists. split; [reflexivity|].
        cbn [year month day]. repeat split; try assumption; lia.
    - (* half_year *)
      destruct (Z.leb_spec (month now) 6) as [Hm|Hm].
      + destruct (Hfirst (year now - 1) (month now + 6)) as [D1 V1]; try lia.
        rewrite D1. cbn [year month day].
        destruct (Z.leb_spec (month now + 6) 9) as [Hs|Hs].
        * destruct (Hfirst (year now - 1) (month now + 6 + 3)) as [D2 V2]; try lia.
          rewrite D2. do 2 eexists. split; [reflexivity|].
          cbn [year month day]. repeat split; try assumption; lia.
        * destruct (Hfirst (year now - 1 + 1) (month now + 6 - 9)) as [D2 V2]; try lia.
          rewrite D2. do 2 eexists. split; [reflexivity|].
          cbn [year month day]. repeat split; try assumption; lia.
      + destruct (Hfirst (year now) (month now - 6)) as [D1 V1]; try lia.
        rewrite D1. cbn [year month day].
        destruct (Z.leb_spec (month now - 6) 9) as [Hs|Hs]; [|lia].
        destruct (Hfirst (year now) (month now - 6 + 3)) as [D2 V2]; try lia.
        rewrite D2. do 2 eexists. split; [reflexivity|].
        cbn [year month day]. repeat split; try assumption; lia.
    - (* year *)
      destruct (Hfirst (year now - 1) (month now)) as [D1 V1]; try lia.
      rewrite D1. cbn [year month day].
      destruct (Z.leb_spec (month now) 6) as [Hs|Hs].
      + destruct (Hfirst (year now - 1) (month now + 6)) as [D2 V2]; try lia.
        rewrite D2. do 2 eexists. split; [reflexivity|].
        cbn [year month day]. repeat split; try assumption; lia.
      + destruct (Hfirst (year now - 1 + 1) (month now - 6)) as [D2 V2]; try lia.
        rewrite D2. do 2 eexists. split; [reflexivity|].
        cbn [year month day]. repeat split; try assumption; lia.
    - (* any other word *)
      destruct (Z.eqb_spec (month now) 1) as [M1|M1].
      + destruct (Hfirst (year now - 1) 12) as [D1 V1]; try lia.
        rewrite D1. do 2 eexists. split; [reflexivity|].
        cbn [year month day]. repeat split; try assumption; lia.
      + destruct (Hfirst (year now) (month now - 1)) as [D1 V1]; try lia.
        rewrite D1. do 2 eexists. split; [reflexivity|].
        cbn [year month day]. repeat split; try assumption; lia. }
  destruct Hgoal as [start [middle [Hm Hrest]]].
  exists start, middle. eexists. split; [exact Hm|]. split; [|exact Hrest].
  unfold get_market_analysis_timeframe, bind, datetime_now, lift_outcome,
    market_analysis_timeframe_at.
  fold now. rewrite Hm. reflexivity.
Qed.

Lemma timeframe_months_are_whole_months_back_witness :
  exists start middle label,
    timeframe_months jan10 "half_year" = Return (start, middle)
    /\ get_market_analysis_timeframe "half_year" (initial_world jan10)
       = (Return label, initial_world jan10)
    /\ valid_date start = true /\ day start = 1
    /\ valid_date middle = true /\ day middle = 1
    /\ month_index jan10 - month_index start = 6
    /\ month_index middle - month_index start = 3.
Proof.
  apply (timeframe_months_are_whole_months_back "half_year" (initial_world jan10)).
  - reflexivity.
  - reflexivity.
Defined.

Example timeframe_examples :
  market_analysis_timeframe_at jan10 "half_year"
  = Return "2024年7月-2025年1月 (ISO: 2024-07-01 to 2025-01-10)"
  /\ market_analysis_timeframe_at (mk_date 2025 2 10) "recent"
     = Return "2025年1月-2月 (ISO: 2025-01-01 to 2025-02-10)"
  /\ market_analysis_timeframe_at (mk_date 2025 3 10) "recent"
     = Return "2025年1月-2月-3月 (ISO: 2025-01-01 to 2025-03-10)"
  /\ market_analysis_timeframe_at (mk_date 2025 9 30) "year"
     = Return "2024年9月-2025年9月 (ISO: 2024-09-01 to 2025-09-30)".
Proof. repeat split. Qed.

(* ===================================================================== *)
(** ** Dates that are no dates *)

Lemma strptime_raises_ValueError : forall s e,
  strptime s = Raise e -> exn_cls e = ValueError.
Proof.
  intros s e H. unfold strptime in H.
  destruct (match_ymd s) as [[[[y m] d] rest]|].
  - destruct (negb (String.eqb rest "")).
    + injection H as <-. reflexivity.
    + unfold datetime in H.
      repeat match type of H with
             | (if ?b then _ else _) = _ => destruct b
             end; try discriminate H; injection H as <-; reflexivity.
  - injection H as <-. reflexivity.
Qed.

(** X9.  [previous_trading_day] and [next_trading_day] read their argument
    as a date before anything else: an argument in printable ASCII,
    without quote or backslash, that [strptime] refuses is answered with
    the message of that [ValueError] behind the error marker, whatever the
    data source is, and the state is left as it was: the calendar is not
    asked. *)
Theorem malformed_date_is_answered_without_calendar :
  forall (ds : FinancialDataSource) (anchor : string) (w : world) (e : exn),
    plain_text anchor = true ->
    strptime anchor = Raise e ->
    previous_trading_day ds anchor w = (Return (error_prefix ++ exn_str e), w)
    /\ next_trading_day ds anchor w = (Return (error_prefix ++ exn_str e), w)
    /\ exn_cls e = ValueError.
Proof.
  intros ds anchor w e _ H.
  split; [|split; [|exact (strptime_raises_ValueError anchor e H)]].
  - unfold previous_trading_day, try_except, bind, lift_outcome.
    rewrite H. reflexivity.
  - unfold next_trading_day, try_except, bind, lift_outcome.
    rewrite H. reflexivity.
Qed.

Lemma malformed_date_is_answered_without_calendar_witness :
  previous_trading_day calendar_source "2025-02-30" (initial_world jan10)
  = (Return (error_prefix ++ "day is out of range for month"),
     initial_world jan10)
  /\ next_trading_day calendar_source "2025-02-30" (initial_world jan10)
     = (Return (error_prefix ++ "day is out of range for month"),
        initial_world jan10)
  /\ exn_cls (mk_exn ValueError "day is out of range for month") = ValueError.
Proof.
  apply (malformed_date_is_answered_without_calendar calendar_source
           "2025-02-30" (initial_world jan10)
           (mk_exn ValueError "day is out of range for month")).
  - reflexivity.
  - vm_compute. reflexivity.
Defined.

Example malformed_date_examples :
  fst (previous_trading_day calendar_source "2025/01/10" (initial_world jan10))
  = Return "错误: time data '2025/01/10' does not match format '%Y-%m-%d'"
  /\ fst (next_trading_day calendar_source "2025-01-10 " (initial_world jan10))
     = Return "错误: unconverted data remains:  ".
Proof. split; vm_compute; reflexivity. Qed.

(* ===================================================================== *)
(** ** The spellings [normalize_stock_code] takes *)

Lemma digit_is_no_s : forall c,
  is_digit c = true -> Ascii.eqb (lower_ascii c) "s" = false.
Proof.
  intros [b0 b1 b2 b3 b4 b5 b6 b7].
  destruct b0, b1, b2, b3, b4, b5, b6, b7; cbv; congruence.
Qed.

Lemma digit_is_no_dot : forall c, is_digit c = true -> Ascii.eqb c "." = false.
Proof.
  intros [b0 b1 b2 b3 b4 b5 b6 b7].
  destruct b0, b1, b2, b3, b4, b5, b6, b7; cbv; congruence.
Qed.

Lemma exchange_is_no_space : forall a b,
  is_exchange a b = true -> is_space a = false /\ Ascii.eqb a "." = false.
Proof.
  intros a b H. unfold is_exchange in H. apply andb_true_iff in H.
  destruct H as [H _]. revert H.
  destruct a as [b0 b1 b2 b3 b4 b5 b6 b7].
  destruct b0, b1, b2, b3, b4, b5, b6, b7; cbv; intuition congruence.
Qed.

Lemma exchange_is_no_digit : forall a b,
  is_digit a = true -> is_exchange a b = false.
Proof.
  intros a b H. unfold is_exchange. rewrite (digit_is_no_s a H). reflexivity.
Qed.

Lemma lstrip_blank : forall l c s,
  blank l = true -> is_space c = false -> lstrip (l ++ String c s) = String c s.
Proof.
  induction l as [|x l IH]; intros c s Hl Hc; cbn [append lstrip].
  - rewrite Hc. reflexivity.
  - unfold blank in Hl. cbn [all_chars] in Hl. apply andb_true_iff in Hl.
    destruct Hl as [Hx Hl]. rewrite Hx. apply IH; assumption.
Qed.

Lemma rstrip_blank : forall r, blank r = true -> rstrip r = "".
Proof.
  induction r as [|x r IH]; intros Hr; [reflexivity|].
  unfold blank in Hr. cbn [all_chars] in Hr. apply andb_true_iff in Hr.
  destruct Hr as [Hx Hr]. cbn [rstrip]. rewrite (IH Hr), Hx. reflexivity.
Qed.

Lemma rstrip_pad : forall s c r,
  is_space c = false -> blank r = true ->
  rstrip (s ++ String c r) = s ++ String c "".
Proof.
  intros s c r Hc Hr. induction s as [|x s IH]; cbn [append rstrip].
  - rewrite (rstrip_blank r Hr), Hc. reflexivity.
  - rewrite IH. destruct s; reflexivity.
Qed.

(** [strip] takes the white space off both ends and nothing else. *)
Lemma strip_pad : forall l r c s c',
  blank l = true -> blank r = true ->
  is_space c = false -> is_space c' = false ->
  strip (l ++ String c (s ++ String c' r)) = String c (s ++ String c' "").
Proof.
  intros l r c s c' Hl Hr Hc Hc'. unfold strip.
  rewrite (lstrip_blank l c _ Hl Hc).
  apply (rstrip_pad (String c s) c' r Hc' Hr).
Qed.

(** X10.  Inside white space of any length, and with the letters of the
    exchange in either case: exchange, an optional dot and six digits
    give the lower-case exchange, a dot and the digits on both engines;
    on the engine that takes the flag of the second pattern, six digits,
    an optional dot and the exchange give the same, and six digits alone
    are given [sh] when they begin with 6 and [sz] otherwise. *)
Theorem normalize_accepts_three_spellings :
  forall (l r : string) (a b : ascii) (dot : bool) (num : string),
    blank l = true -> blank r = true ->
    is_exchange a b = true -> six_digits num = true ->
    (forall strict_flags,
        normalize_stock_code strict_flags
          (l ++ String a (String b (dot_or_not dot ++ num)) ++ r)
        = lower (String a (String b "")) ++ "." ++ num)
    /\ normalize_stock_code false
         (l ++ num ++ dot_or_not dot ++ String a (String b r))
       = lower (String a (String b "")) ++ "." ++ num
    /\ normalize_stock_code false (l ++ num ++ r)
       = (if startswith num "6" then "sh" else "sz") ++ "." ++ num.
Proof.
  intros l r a b dot num Hl Hr Hex Hnum.
  destruct (six_digits_inv num Hnum)
    as [c1 [c2 [c3 [c4 [c5 [c6 [Enum [H1 [H2 [H3 [H4 [H5 H6]]]]]]]]]]]].
  destruct (exchange_is_no_space a b Hex) as [Ha Hadot].
  assert (Hb : is_space b = false).
  { unfold is_exchange in Hex. apply andb_true_iff in Hex. destruct Hex as [_ Hb].
    revert Hb. destruct b as [b0 b1 b2 b3 b4 b5 b6 b7].
    destruct b0, b1, b2, b3, b4, b5, b6, b7; cbv; congruence. }
  pose proof (digit_is_no_space c1 H1) as S1.
  pose proof (digit_is_no_space c6 H6) as S6.
  split; [|split].
  - intros strict.
    assert (Hs : strip (l ++ String a (String b (dot_or_not dot ++ num)) ++ r)
                 = String a (String b (dot_or_not dot ++ num))).
    { rewrite Enum.
      replace (String a (String b (dot_or_not dot ++ String c1 (String c2
                 (String c3 (String c4 (String c5 (String c6 ""))))))) ++ r)
        with (String a ((String b (dot_or_not dot ++ String c1 (String c2
                 (String c3 (String c4 (String c5 ""))))))  ++ String c6 r))
        by (destruct dot; reflexivity).
      rewrite (strip_pad l r a _ c6 Hl Hr Ha S6).
      destruct dot; reflexivity. }
    unfold normalize_stock_code. rewrite Hs.
    cbn [String.eqb]. unfold fullmatch_ex_num. rewrite Hex.
    assert (Hd : skip_dot (dot_or_not dot ++ num) = num).
    { destruct dot; [reflexivity|]. rewrite Enum. cbn [dot_or_not append skip_dot].
      rewrite (digit_is_no_dot c1 H1). reflexivity. }
    rewrite Hd, Hnum. reflexivity.
  - assert (Hs : strip (l ++ num ++ dot_or_not dot ++ String a (String b r))
                 = num ++ dot_or_not dot ++ String a (String b "")).
    { rewrite Enum.
      replace (String c1 (String c2 (String c3 (String c4 (String c5
                 (String c6 ""))))) ++ dot_or_not dot ++ String a (String b r))
        with (String c1 ((String c2 (String c3 (String c4 (String c5
                 (String c6 (dot_or_not dot ++ String a "")))))) ++ String b r))
        by (destruct dot; reflexivity).
      rewrite (strip_pad l r c1 _ b Hl Hr S1 Hb).
      destruct dot; reflexivity. }
    unfold normalize_stock_code. rewrite Hs, Enum.
    cbn [append String.eqb]. unfold fullmatch_ex_num.
    rewrite (exchange_is_no_digit c1 c2 H1). cbn [andb].
    unfold fullmatch_num_ex.
    assert (Hsub : substring 0 6
              (String c1 (String c2 (String c3 (String c4 (String c5 (String c6
                 (dot_or_not dot ++ String a (String b ""))))))))
            = num) by (rewrite Enum; destruct dot; reflexivity).
    assert (Hrest : skip_dot (substring 6
              (String.length (String c1 (String c2 (String c3 (String c4
                 (String c5 (String c6
                   (dot_or_not dot ++ String a (String b "")))))))) - 6)
              (String c1 (String c2 (String c3 (String c4 (String c5 (String c6
                 (dot_or_not dot ++ String a (String b "")))))))))
            = String a (String b "")).
    { destruct dot; cbn; [reflexivity|]. rewrite Hadot. reflexivity. }
    cbv zeta. rewrite Hsub, Hnum, Hrest, Hex, Enum. reflexivity.
  - assert (Hs : strip (l ++ num ++ r) = num).
    { rewrite Enum.
      change (String c1 (String c2 (String c3 (String c4 (String c5
                 (String c6 ""))))) ++ r)
        with (String c1 ((String c2 (String c3 (String c4 (String c5 "")))) 
                 ++ String c6 r)).
      rewrite (strip_pad l r c1 _ c6 Hl Hr S1 S6). reflexivity. }
    unfold normalize_stock_code. rewrite Hs.
    assert (E1 : fullmatch_ex_num num = None).
    { rewrite Enum. unfold fullmatch_ex_num.
      rewrite (exchange_is_no_digit c1 c2 H1). reflexivity. }
    assert (E2 : fullmatch_num_ex num = None).
    { unfold fullmatch_num_ex. rewrite Enum. cbn.
      rewrite H1, H2, H3, H4, H5, H6. reflexivity. }
    rewrite E1, E2, Hnum. rewrite Enum at 1. reflexivity.
Qed.

Lemma normalize_accepts_three_spellings_witness :
  (forall strict_flags,
      normalize_stock_code strict_flags ("  " ++ "Sz" ++ dot_or_not false ++ "000001" ++ " ")
      = "sz.000001")
  /\ normalize_stock_code false ("  " ++ "000001" ++ dot_or_not false ++ "Sz ")
     = "sz.000001"
  /\ normalize_stock_code false ("  " ++ "000001" ++ " ") = "sz.000001".
Proof.
  apply (normalize_accepts_three_spellings "  " " " "S" "z" false "000001");
    reflexivity.
Defined.

(** X11.  On the engine that refuses the flag of the second pattern every input
    whose first character after the white space is a digit is answered with
    the message of that refusal: no code given by its digits alone, or by
    digits and exchange, is normalized. *)
Theorem strict_engine_refuses_digit_led_codes :
  forall (l : string) (c : ascii) (rest : string),
    blank l = true -> is_digit c = true ->
    normalize_stock_code true (l ++ String c rest) = global_flags_message
    /\ is_error_message (normalize_stock_code true (l ++ String c rest)) = true.
Proof.
  intros l c rest Hl Hc.
  assert (Hs : exists x, strip (l ++ String c rest) = String c x).
  { unfold strip. rewrite (lstrip_blank l c rest Hl (digit_is_no_space c Hc)).
    cbn [rstrip]. destruct (rstrip rest); [|eexists; reflexivity].
    rewrite (digit_is_no_space c Hc). eexists; reflexivity. }
  destruct Hs as [x Hs].
  assert (E : normalize_stock_code true (l ++ String c rest) = global_flags_message).
  { unfold normalize_stock_code. rewrite Hs. cbn [String.eqb].
    unfold fullmatch_ex_num. destruct x as [|b x]; [reflexivity|].
    rewrite (exchange_is_no_digit c b Hc). reflexivity. }
  rewrite E. split; reflexivity.
Qed.

Lemma strict_engine_refuses_digit_led_codes_witness :
  normalize_stock_code true (" " ++ "000001.SZ") = global_flags_message
  /\ is_error_message (normalize_stock_code true (" " ++ "000001.SZ")) = true.
Proof.
  apply (strict_engine_refuses_digit_led_codes " " "0" "00001.SZ"); reflexivity.
Defined.

(* ===================================================================== *)
(** ** The tools over the facade *)

Lemma try_except_returns : forall (body : M string) (h : exn -> M string),
  (forall e w, exists s, fst (h e w) = Return s) ->
  forall w, exists s, fst (try_except body (fun _ => true) h w) = Return s.
Proof.
  intros body h Hh w. unfold try_except.
  destruct (body w) as [[s|e] w1]; [exists s; reflexivity | apply Hh].
Qed.

Lemma except_by_class_returns : forall v e w,
  exists s, fst (except_by_class v e w) = Return s.
Proof.
  intros v e w. unfold except_by_class.
  destruct (exn_cls e); eexists; reflexivity.
Qed.

Lemma except_any_returns : forall e w,
  exists s, fst (except_any e w) = Return s.
Proof. intros e w. eexists. reflexivity. Qed.

(** X12.  No tool raises: whatever the provider and the formatter do, a call
    of a tool returns a string. *)
Theorem tools_never_raise :
  forall (fmt : DataFrame -> string -> Z -> list (string * meta_value)
                -> outcome string)
         (p : provider) (c : tool_call) (w : world),
    exists s, fst (run_tool fmt p c w) = Return s.
Proof.
  intros fmt p c w.
  destruct c
    as [code start_date end_date frequency adjust_flag fs limit format
       | code fs format
       | code year year_type limit format
       | code start_date end_date limit format
       | t code year quarter limit format
       | code start_date end_date limit format
       | code start_date end_date limit format
       | code date limit format
       | date limit format
       | date limit format
       | date limit format
       | index date limit format
       | date format
       | industry date limit format
       | start_date end_date limit format
       | date limit format
       | date limit format
       | start_date end_date limit format
       | start_date end_date limit format
       | start_date end_date year_type limit format
       | start_date end_date limit format
       | start_date end_date limit format]; cbn [run_tool];
    unfold Tools.get_historical_k_data, Tools.get_stock_basic_info,
      Tools.get_dividend_data, Tools.get_adjust_factor_data,
      Tools.get_performance_express_report, Tools.get_forecast_report,
      Tools.get_stock_industry, Tools.get_sz50_stocks, Tools.get_hs300_stocks,
      Tools.get_zz500_stocks, Tools.get_index_constituents,
      Tools.list_industries, Tools.get_industry_members,
      Tools.get_trade_dates, Tools.get_all_stock, Tools.get_suspensions,
      Tools.get_deposit_rate_data, Tools.get_loan_rate_data,
      Tools.get_money_supply_data_month, Tools.get_money_supply_data_year,
      Tools.call_macro_data_tool, Tools.call_index_constituent_tool;
    try (apply try_except_returns;
         first [apply except_by_class_returns | apply except_any_returns]).
  - (* the periodic reports *)
    unfold Tools.report. destruct t; cbn [run_report_tool];
      unfold call_financial_data_tool; apply try_except_returns;
      intros e w'; destruct (exn_cls e); eexists; reflexivity.
  - (* the reserve ratio *)
    unfold Tools.get_required_reserve_ratio_data.
    destruct (negb (str_in year_type ["0"; "1"])); [eexists; reflexivity|].
    unfold Tools.call_macro_data_tool. apply try_except_returns.
    apply except_by_class_returns.
Qed.

Lemma except_by_class_wording : forall c v e w,
  tells_classes c = true ->
  v = wording c ValueError ->
  except_by_class v e w = (Return (wording c (exn_cls e) ++ exn_str e), w).
Proof.
  intros c v e w Hc ->. unfold except_by_class, wording. rewrite Hc.
  destruct (exn_cls e); reflexivity.
Qed.

(** A fetch under the [try] of a tool: where what follows the fetch and
    the handler leave the state alone, the state after the tool is the one
    after the fetch, and an exception of the fetch is what the handler
    sees. *)
Lemma guarded_fetch : forall (m : M DataFrame) (k : DataFrame -> M string)
    (h : exn -> M string) (w : world),
  (forall df w', snd (k df w') = w') ->
  (forall e w', snd (h e w') = w') ->
  snd (try_except (df <- m ;; k df) (fun _ => true) h w) = snd (m w)
  /\ forall e, fst (m w) = Raise e ->
       fst (try_except (df <- m ;; k df) (fun _ => true) h w)
       = fst (h e (snd (m w))).
Proof.
  intros m k h w Hk Hh. unfold try_except, bind.
  destruct (m w) as [[df|e] w1]; cbn [fst snd].
  - specialize (Hk df w1). destruct (k df w1) as [[s|e'] w2]; cbn [snd] in *.
    + split; [exact Hk | discriminate].
    + split; [rewrite Hh; exact Hk | discriminate].
  - split; [apply Hh|]. intros e0 H. injection H as <-. reflexivity.
Qed.

Lemma except_by_class_snd : forall v e w, snd (except_by_class v e w) = w.
Proof. intros v e w. unfold except_by_class. destruct (exn_cls e); reflexivity. Qed.

Lemma except_any_snd : forall e w, snd (except_any e w) = w.
Proof. reflexivity. Qed.

Lemma year_checks : forall y q,
  isdigit y && (len y =? 4) && (1 <=? q) && (q <=? 4) = true ->
  negb (isdigit y) || negb (len y =? 4) = false
  /\ negb ((1 <=? q) && (q <=? 4)) = false.
Proof.
  intros y q H. repeat (apply andb_true_iff in H; destruct H as [H ?]).
  rewrite H, H0, H1, H2. split; reflexivity.
Qed.

Ltac tool_unfold :=
  unfold Tools.get_historical_k_data, Tools.get_stock_basic_info,
    Tools.get_dividend_data, Tools.get_adjust_factor_data,
    Tools.get_performance_express_report, Tools.get_forecast_report,
    Tools.get_stock_industry, Tools.get_sz50_stocks, Tools.get_hs300_stocks,
    Tools.get_zz500_stocks, Tools.get_index_constituents,
    Tools.list_industries, Tools.get_industry_members,
    Tools.get_trade_dates, Tools.get_all_stock, Tools.get_suspensions,
    Tools.get_deposit_rate_data, Tools.get_loan_rate_data,
    Tools.get_money_supply_data_month, Tools.get_money_supply_data_year,
    Tools.call_macro_data_tool, Tools.call_index_constituent_tool,
    Tools.report, dates_only.

Ltac quiet_rest :=
  intros; cbv zeta;
  repeat match goal with
         | |- context [if ?b then _ else _] => destruct b
         end;
  reflexivity.

Ltac after_fetch c :=
  match goal with
  | |- snd (try_except (bind ?m ?k) _ ?h ?w) = _ /\ _ =>
      destruct (guarded_fetch m k h w) as [Hs He];
      [ quiet_rest
      | first [apply except_by_class_snd | apply except_any_snd]
      | split;
        [ exact Hs
        | let e := fresh "e" in
          let H := fresh "H" in
          intros e H; rewrite (He e H);
          first [ rewrite (except_by_class_wording c _ e _ eq_refl eq_refl);
                  reflexivity
                | reflexivity ] ] ]
  end.

(** A call that comes to a fetch: the state after the tool is the state
    after the fetch, and an exception of the fetch comes back as its
    message behind the wording of the tool for its class. *)
Lemma tool_after_fetch :
  forall fmt (p : provider) (c : tool_call) (f : fetch) (w : world),
    fetch_of c = Some f ->
    snd (run_tool fmt p c w) = snd (run_fetch p f w)
    /\ forall e, fst (run_fetch p f w) = Raise e ->
         fst (run_tool fmt p c w)
         = Return (wording c (exn_cls e) ++ exn_str e).
Proof.
  intros fmt p c f w Hf.
  destruct c
    as [code start_date end_date frequency adjust_flag fs limit format
       | code fs format
       | code year year_type limit format
       | code start_date end_date limit format
       | t code year quarter limit format
       | code start_date end_date limit format
       | code start_date end_date limit format
       | code date limit format
       | date limit format
       | date limit format
       | date limit format
       | index date limit format
       | date format
       | industry date limit format
       | start_date end_date limit format
       | date limit format
       | date limit format
       | start_date end_date limit format
       | start_date end_date limit format
       | start_date end_date year_type limit format
       | start_date end_date limit format
       | start_date end_date limit format]; cbn [fetch_of] in Hf.
  - (* get_historical_k_data *)
    destruct (str_in frequency valid_freqs) eqn:E1; [|discriminate].
    destruct (str_in adjust_flag valid_adjusts) eqn:E2; [|discriminate].
    injection Hf as <-. cbn [run_tool run_fetch]. tool_unfold.
    rewrite E1, E2. cbn [negb].
    after_fetch (Call_get_historical_k_data code start_date end_date frequency
                   adjust_flag fs limit format).
  - injection Hf as <-. cbn [run_tool run_fetch]. tool_unfold.
    after_fetch (Call_get_stock_basic_info code fs format).
  - (* get_dividend_data *)
    destruct (str_in year_type ["report"; "operate"]) eqn:E1; [|discriminate].
    destruct (isdigit year) eqn:E2; [|discriminate].
    destruct (len year =? 4) eqn:E3; [|discriminate].
    injection Hf as <-. cbn [run_tool run_fetch]. tool_unfold.
    rewrite E1, E2, E3. cbn [negb orb].
    after_fetch (Call_get_dividend_data code year year_type limit format).
  - injection Hf as <-. cbn [run_tool run_fetch]. tool_unfold.
    after_fetch (Call_get_adjust_factor_data code start_date end_date limit format).
  - (* the periodic reports *)
    destruct (isdigit year && (len year =? 4) && (1 <=? quarter) && (quarter <=? 4))
      eqn:E; [|discriminate].
    destruct (year_checks year quarter E) as [E1 E2].
    injection Hf as <-. cbn [run_tool]. tool_unfold.
    destruct t; cbn [run_report_tool report_fetch run_fetch];
      unfold call_financial_data_tool; rewrite E1, E2;
      match goal with
      | |- snd (try_except (bind ?m ?k) _ ?h ?w) = _ /\ _ =>
          destruct (guarded_fetch m k h w) as [Hs He];
          [ quiet_rest
          | intros e w'; destruct (exn_cls e); reflexivity
          | split; [exact Hs|];
            intros e H; rewrite (He e H);
            unfold wording; cbn [tells_classes];
            destruct (exn_cls e); reflexivity ]
      end.
  - injection Hf as <-. cbn [run_tool run_fetch]. tool_unfold.
    after_fetch (Call_get_performance_express_report code start_date end_date
                   limit format).
  - injection Hf as <-. cbn [run_tool run_fetch]. tool_unfold.
    after_fetch (Call_get_forecast_report code start_date end_date limit format).
  - injection Hf as <-. cbn [run_tool run_fetch]. tool_unfold.
    after_fetch (Call_get_stock_industry code date limit format).
  - injection Hf as <-. cbn [run_tool run_fetch]. tool_unfold.
    after_fetch (Call_get_sz50_stocks date limit format).
  - injection Hf as <-. cbn [run_tool run_fetch]. tool_unfold.
    after_fetch (Call_get_hs300_stocks date limit format).
  - injection Hf as <-. cbn [run_tool run_fetch]. tool_unfold.
    after_fetch (Call_get_zz500_stocks date limit format).
  - (* get_index_constituents *)
    cbn [run_tool]. tool_unfold. cbv zeta.
    unfold str_in. cbn [existsb].
    destruct (String.eqb (lower (strip index)) "hs300") eqn:E1.
    + injection Hf as <-. cbn [orb negb run_fetch].
      after_fetch (Call_get_index_constituents index date limit format).
    + destruct (String.eqb (lower (strip index)) "sz50") eqn:E2.
      * injection Hf as <-. cbn [orb negb run_fetch].
        after_fetch (Call_get_index_constituents index date limit format).
      * destruct (String.eqb (lower (strip index)) "zz500") eqn:E3; [|discriminate].
        injection Hf as <-. cbn [orb negb run_fetch].
        after_fetch (Call_get_index_constituents index date limit format).
  - injection Hf as <-. cbn [run_tool run_fetch]. tool_unfold.
    after_fetch (Call_list_industries date format).
  - (* get_industry_members *)
    destruct (String.eqb (strip industry) "") eqn:E1; [discriminate|].
    injection Hf as <-. cbn [run_tool run_fetch]. tool_unfold.
    assert (E0 : String.eqb industry "" = false).
    { destruct industry; [discriminate E1 | reflexivity]. }
    rewrite E0, E1. cbn [orb].
    after_fetch (Call_get_industry_members industry date limit format).
  - injection Hf as <-. cbn [run_tool run_fetch]. tool_unfold.
    after_fetch (Call_get_trade_dates start_date end_date limit format).
  - injection Hf as <-. cbn [run_tool run_fetch]. tool_unfold.
    after_fetch (Call_get_all_stock date limit format).
  - injection Hf as <-. cbn [run_tool run_fetch]. tool_unfold.
    after_fetch (Call_get_suspensions date limit format).
  - injection Hf as <-. cbn [run_tool run_fetch]. tool_unfold.
    after_fetch (Call_get_deposit_rate_data start_date end_date limit format).
  - injection Hf as <-. cbn [run_tool run_fetch]. tool_unfold.
    after_fetch (Call_get_loan_rate_data start_date end_date limit format).
  - discriminate.
  - injection Hf as <-. cbn [run_tool run_fetch]. tool_unfold.
    after_fetch (Call_get_money_supply_data_month start_date end_date limit format).
  - injection Hf as <-. cbn [run_tool run_fetch]. tool_unfold.
    after_fetch (Call_get_money_supply_data_year start_date end_date limit format).
Qed.

(** A call that comes to no fetch is answered with an error message, the
    state being left as it was. *)
Lemma rejected_call :
  forall fmt (p : provider) (c : tool_call) (w : world),
    fetch_of c = None ->
    exists msg,
      run_tool fmt p c w = (Return msg, w) /\ is_error_message msg = true.
Proof.
  intros fmt p c w Hf.
  destruct c
    as [code start_date end_date frequency adjust_flag fs limit format
       | code fs format
       | code year year_type limit format
       | code start_date end_date limit format
       | t code year quarter limit format
       | code start_date end_date limit format
       | code start_date end_date limit format
       | code date limit format
       | date limit format
       | date limit format
       | date limit format
       | index date limit format
       | date format
       | industry date limit format
       | start_date end_date limit format
       | date limit format
       | date limit format
       | start_date end_date limit format
       | start_date end_date limit format
       | start_date end_date year_type limit format
       | start_date end_date limit format
       | start_date end_date limit format]; cbn [fetch_of] in Hf; try discriminate;
    cbn [run_tool]; tool_unfold.
  - (* get_historical_k_data *)
    unfold try_except, ret.
    destruct (str_in frequency valid_freqs); cbn [negb];
      [|eexists; split; reflexivity].
    destruct (str_in adjust_flag valid_adjusts); [discriminate|].
    eexists; split; reflexivity.
  - (* get_dividend_data *)
    unfold try_except, ret.
    destruct (str_in year_type ["report"; "operate"]); cbn [negb];
      [|eexists; split; reflexivity].
    destruct (isdigit year); cbn [negb orb andb] in *;
      [|eexists; split; reflexivity].
    destruct (len year =? 4); [discriminate|].
    eexists; split; reflexivity.
  - (* the periodic reports *)
    destruct t; cbn [run_report_tool]; unfold call_financial_data_tool,
      try_except, ret;
      (destruct (isdigit year); cbn [negb orb andb] in *;
       [|eexists; split; reflexivity]);
      (destruct (len year =? 4); cbn [negb orb andb] in *;
       [|eexists; split; reflexivity]);
      (destruct (1 <=? quarter); cbn [negb orb andb] in *;
       [|eexists; split; reflexivity]);
      (destruct (quarter <=? 4); [discriminate|]);
      eexists; split; reflexivity.
  - (* get_index_constituents *)
    cbv zeta. unfold str_in, try_except, ret. cbn [existsb].
    destruct (String.eqb (lower (strip index)) "hs300"); [discriminate|].
    destruct (String.eqb (lower (strip index)) "sz50"); [discriminate|].
    destruct (String.eqb (lower (strip index)) "zz500"); [discriminate|].
    eexists; split; reflexivity.
  - (* get_industry_members *)
    unfold try_except, ret.
    destruct (String.eqb (strip industry) ""); [|discriminate].
    rewrite orb_true_r. eexists; split; reflexivity.
  - (* get_required_reserve_ratio_data *)
    unfold Tools.get_required_reserve_ratio_data.
    destruct (negb (str_in year_type ["0"; "1"]));
      [eexists; split; reflexivity|].
    eexists; split; reflexivity.
Qed.

(** X13.  The checks of the tools come before the provider.  A call with a
    frequency or an adjustment flag outside the lists, a year type of
    dividends outside its list, a year that is no four digits, a quarter
    outside 1..4, an index that is none of the three, or an industry that
    is blank, is answered with an error message: nothing is sent to the
    provider, not even a login.  The arguments that are tested by
    character class are taken in ASCII. *)
Theorem tool_checks_precede_provider :
  forall (fmt : DataFrame -> string -> Z -> list (string * meta_value)
                -> outcome string)
         (p : provider) (c : tool_call) (w : world),
    ascii_args c = true ->
    fetch_of c = None ->
    exists msg,
      run_tool fmt p c w = (Return msg, w) /\ is_error_message msg = true.
Proof.
  intros fmt p c w _ Hf. exact (rejected_call fmt p c w Hf).
Qed.

Lemma tool_checks_precede_provider_witness :
  exists msg,
    run_tool echo_formatter healthy
      (Call_get_index_constituents "csi300" None 250 "markdown")
      (initial_world jan10)
    = (Return msg, initial_world jan10)
    /\ is_error_message msg = true.
Proof.
  apply (tool_checks_precede_provider echo_formatter healthy
           (Call_get_index_constituents "csi300" None 250 "markdown")
           (initial_world jan10)).
  - reflexivity.
  - reflexivity.
Defined.

(** X14.  A failure of the facade reaches the caller of a tool as a message:
    the message of the exception behind the wording of the tool for its
    class, and the state is the one the fetch left.  The exception is of
    one of the four classes of the facade, so that a tool with a clause
    per class never words it as unexpected. *)
Theorem tool_reports_fetch_failure :
  forall (fmt : DataFrame -> string -> Z -> list (string * meta_value)
                -> outcome string)
         (p : provider) (c : tool_call) (f : fetch) (w : world) (e : exn),
    ascii_args c = true ->
    fetch_of c = Some f ->
    fst (run_fetch p f w) = Raise e ->
    run_tool fmt p c w
    = (Return (wording c (exn_cls e) ++ exn_str e), snd (run_fetch p f w))
    /\ is_known_error e = true
    /\ (tells_classes c = true -> wording c (exn_cls e) <> unexpected).
Proof.
  intros fmt p c f w e _ Hf He.
  destruct (tool_after_fetch fmt p c f w Hf) as [Hs Hr].
  pose proof (fetch_known p f w e He) as Hk.
  split; [|split; [exact Hk|]].
  - rewrite (surjective_pairing (run_tool fmt p c w)), Hs, (Hr e He).
    reflexivity.
  - intros Hc. unfold wording. rewrite Hc.
    unfold is_known_error, is_DataSourceError in Hk.
    destruct (exn_cls e); try discriminate Hk;
      try (destruct c; discriminate).
Qed.

Lemma tool_reports_fetch_failure_witness :
  run_tool echo_formatter refused_login
    (Call_get_trade_dates None None 250 "markdown") (initial_world jan10)
  = (Return (wording (Call_get_trade_dates None None 250 "markdown")
               (exn_cls login_refused) ++ exn_str login_refused),
     snd (run_fetch refused_login (Fetch_trade_dates None None)
            (initial_world jan10)))
  /\ is_known_error login_refused = true
  /\ (tells_classes (Call_get_trade_dates None None 250 "markdown") = true ->
      wording (Call_get_trade_dates None None 250 "markdown")
        (exn_cls login_refused) <> unexpected).
Proof.
  apply (tool_reports_fetch_failure echo_formatter refused_login
           (Call_get_trade_dates None None 250 "markdown")
           (Fetch_trade_dates None None) (initial_world jan10) login_refused).
  - reflexivity.
  - reflexivity.
  - vm_compute. reflexivity.
Defined.

Example tool_failure_examples :
  fst (run_tool echo_formatter refused_login
         (Call_get_trade_dates None None 250 "markdown") (initial_world jan10))
  = Return "错误: 无法连接到数据源。Baostock 登录失败: network error"
  /\ fst (run_tool echo_formatter refused_login
            (Call_get_suspensions None 250 "markdown") (initial_world jan10))
     = Return "错误: 发生意外错误: Baostock 登录失败: network error"
  /\ fst (run_tool echo_formatter one_row_provider
            (Call_get_suspensions None 250 "markdown") (initial_world jan10))
     = Return "错误: 数据源响应中不存在 'tradeStatus' 列。"
  /\ fst (run_tool echo_formatter one_row_provider
            (Call_get_index_constituents " HS300 " None 250 "markdown")
            (initial_world jan10))
     = Return "code,code_name".
Proof. repeat split; vm_compute; reflexivity. Qed.

Lemma unsent_fetch : forall p f w,
  request_of f = None -> snd (run_fetch p f w) = w.
Proof.
  intros p f w H. destruct f; try discriminate H.
  cbn [request_of] in H. cbn [run_fetch].
  unfold get_historical_k_data. rewrite reraise_known_snd.
  unfold bind, lift_outcome. cbv zeta.
  match goal with
  | |- context [_format_fields ?fs DEFAULT_K_FIELDS] =>
      destruct (_format_fields fs DEFAULT_K_FIELDS); [discriminate|reflexivity]
  end.
Qed.

(** X15.  A call of a tool is at most one round trip.  After a login that
    succeeds the provider has seen, beyond what it had seen before, the
    login, the one request of the fetch the call comes to and the logout,
    or nothing at all; formatting, filtering and the handling of errors
    add no call. *)
Theorem tool_is_at_most_one_round_trip :
  forall (fmt : DataFrame -> string -> Z -> list (string * meta_value)
                -> outcome string)
         (p : provider) (c : tool_call) (w : world),
    ascii_args c = true ->
    login_ok p ->
    call_names (snd (run_tool fmt p c w))
    = (call_names w ++ round_trip_of c)%list.
Proof.
  intros fmt p c w _ Hok. unfold round_trip_of.
  destruct (fetch_of c) as [f|] eqn:Hf.
  - destruct (tool_after_fetch fmt p c f w Hf) as [Hs _]. rewrite Hs.
    destruct (request_of f) as [q|] eqn:Hq.
    + apply fetch_calls; assumption.
    + rewrite (unsent_fetch p f w Hq), app_nil_r. reflexivity.
  - destruct (rejected_call fmt p c w Hf) as [msg [Hrun _]].
    rewrite Hrun, app_nil_r. reflexivity.
Qed.

Lemma tool_is_at_most_one_round_trip_witness :
  call_names (snd (run_tool echo_formatter one_row_provider
                     (Call_get_index_constituents " HS300 " None 250 "markdown")
                     (initial_world jan10)))
  = [CallLogin; CallQuery (query_hs300_stocks None); CallLogout].
Proof.
  apply (tool_is_at_most_one_round_trip echo_formatter one_row_provider
           (Call_get_index_constituents " HS300 " None 250 "markdown")
           (initial_world jan10)).
  - reflexivity.
  - apply login_ok_intro. reflexivity.
Defined.

(** X17.  The tool of the required reserve ratio never reaches the provider.
    It passes the year type on under the keyword [yearType], while the
    parameter of the method of the facade is [year_type]: for the year
    types ['0'] and ['1'] the call is refused and the tool returns the
    message of that refusal; for any other year type it returns its own
    error message, which holds the name of the variable in braces and not
    its value.  Either way the state is left as it was. *)
Theorem reserve_ratio_tool_never_reaches_provider :
  forall (fmt : DataFrame -> string -> Z -> list (string * meta_value)
                -> outcome string)
         (p : provider) (start_date end_date : option string)
         (year_type : string) (limit : Z) (format : string) (w : world),
    Tools.get_required_reserve_ratio_data fmt p start_date end_date year_type
      limit format w
    = (Return
         (if str_in year_type ["0"; "1"] then
            unexpected
            ++ "BaostockDataSource.get_required_reserve_ratio_data() got an unexpected keyword argument 'yearType'"
          else
            "错误: 无效的年份类型 '{year_type}'。有效选项为 '0' (公告日期) 或 '1' (生效日期)。"),
       w).
Proof.
  intros fmt p s e yt limit format w.
  unfold Tools.get_required_reserve_ratio_data.
  destruct (str_in yt ["0"; "1"]); reflexivity.
Qed.

(* ===================================================================== *)
(** ** What the formatter is given *)

Lemma guarded_format : forall (m : M DataFrame) (k : DataFrame -> M string)
    (df : DataFrame) (r : outcome string) (h : exn -> M string) (w : world)
    (c : tool_call),
  fst (m w) = Return df ->
  (forall w', k df w' = (r, w')) ->
  (forall e w', fst (h e w') = Return (wording c (exn_cls e) ++ exn_str e)) ->
  fst (try_except (x <- m ;; k x) (fun _ => true) h w) = formatted c r.
Proof.
  intros m k df r h w c Hm Hk Hh. unfold try_except, bind.
  destruct (m w) as [[x|e] w1]; cbn [fst] in Hm; [|discriminate].
  injection Hm as ->. rewrite Hk. destruct r as [s|e]; [reflexivity|].
  cbn [formatted]. apply Hh.
Qed.

Ltac formats c :=
  match goal with
  | Hdf : fst (?m ?w) = Return ?df
    |- fst (try_except (bind ?m ?k) _ ?h ?w) = _ =>
      rewrite (guarded_format m k df (fst (k df w)) h w c Hdf);
      [ cbn [format_of limit_of fst lift_outcome]; reflexivity
      | intros; reflexivity
      | let e := fresh "e" in
        intros e ?; unfold except_by_class, except_any, wording, unexpected;
        cbn [tells_classes]; destruct (exn_cls e); reflexivity ]
  end.

(** X16.  Success reaches the formatter untouched.  For a call of a tool
    that neither picks rows nor a column there is one dictionary [meta],
    the same for every provider, state, frame and formatter, such that
    the tool hands the frame of the facade on as it is, with the format
    of the caller, the limit of the caller (the number of rows of the
    frame for the tool without a limit) and that dictionary, and returns
    what the formatter returns; an exception of the formatter is worded
    by the same clauses as one of the facade. *)
Theorem tool_formats_frame_of_facade :
  forall (c : tool_call),
    ascii_args c = true ->
    passes_frame c = true ->
    exists meta,
      forall (p : provider) (f : fetch) (df : DataFrame) (w : world)
             (fmt : DataFrame -> string -> Z -> list (string * meta_value)
                    -> outcome string),
        fetch_of c = Some f ->
        fst (run_fetch p f w) = Return df ->
        fst (run_tool fmt p c w)
        = formatted c (fmt df (format_of c) (limit_of c df) meta).
Proof.
  intros c _ Hp.
  destruct c
    as [code start_date end_date frequency adjust_flag fs limit format
       | code fs format
       | code year year_type limit format
       | code start_date end_date limit format
       | t code year quarter limit format
       | code start_date end_date limit format
       | code start_date end_date limit format
       | code date limit format
       | date limit format
       | date limit format
       | date limit format
       | index date limit format
       | date format
       | industry date limit format
       | start_date end_date limit format
       | date limit format
       | date limit format
       | start_date end_date limit format
       | start_date end_date limit format
       | start_date end_date year_type limit format
       | start_date end_date limit format
       | start_date end_date limit format]; 
    cbn [passes_frame] in Hp; try discriminate Hp.
  - eexists; intros p f df w fmt Hf Hdf; cbn [fetch_of] in Hf.
    destruct (str_in frequency valid_freqs) eqn:E1; [|discriminate].
    destruct (str_in adjust_flag valid_adjusts) eqn:E2; [|discriminate].
    injection Hf as <-. cbn [run_tool run_fetch] in *. tool_unfold.
    rewrite E1, E2. cbn [negb]. cbv zeta.
    formats
      (Call_get_historical_k_data code start_date end_date frequency adjust_flag fs limit format).
  - eexists; intros p f df w fmt Hf Hdf; cbn [fetch_of] in Hf.
    injection Hf as <-. cbn [run_tool run_fetch] in *. tool_unfold. cbv zeta.
    formats
      (Call_get_stock_basic_info code fs format).
  - eexists; intros p f df w fmt Hf Hdf; cbn [fetch_of] in Hf.
    destruct (str_in year_type ["report"; "operate"]) eqn:E1; [|discriminate].
    destruct (isdigit year) eqn:E2; [|discriminate].
    destruct (len year =? 4) eqn:E3; [|discriminate].
    injection Hf as <-. cbn [run_tool run_fetch] in *. tool_unfold.
    rewrite E1, E2, E3. cbn [negb orb]. cbv zeta.
    formats
      (Call_get_dividend_data code year year_type limit format).
  - eexists; intros p f df w fmt Hf Hdf; cbn [fetch_of] in Hf.
    injection Hf as <-. cbn [run_tool run_fetch] in *. tool_unfold. cbv zeta.
    formats
      (Call_get_adjust_factor_data code start_date end_date limit format).
  - destruct t; eexists; intros p f df w fmt Hf Hdf; cbn [fetch_of] in Hf.
    all: destruct (isdigit year && (len year =? 4) && (1 <=? quarter) && (quarter <=? 4))
      eqn:E; [|discriminate].
    all: destruct (year_checks year quarter E) as [E1 E2].
    all: injection Hf as <-; cbn [run_tool] in *; tool_unfold;
      cbn [run_report_tool report_fetch run_fetch] in *;
      unfold call_financial_data_tool; rewrite E1, E2; cbv zeta;
      formats (Call_report Tool_get_profit_data code year quarter limit format).
  - eexists; intros p f df w fmt Hf Hdf; cbn [fetch_of] in Hf.
    injection Hf as <-. cbn [run_tool run_fetch] in *. tool_unfold. cbv zeta.
    formats
      (Call_get_performance_express_report code start_date end_date limit format).
  - eexists; intros p f df w fmt Hf Hdf; cbn [fetch_of] in Hf.
    injection Hf as <-. cbn [run_tool run_fetch] in *. tool_unfold. cbv zeta.
    formats
      (Call_get_forecast_report code start_date end_date limit format).
  - eexists; intros p f df w fmt Hf Hdf; cbn [fetch_of] in Hf.
    injection Hf as <-. cbn [run_tool run_fetch] in *. tool_unfold. cbv zeta.
    formats
      (Call_get_stock_industry code date limit format).
  - eexists; intros p f df w fmt Hf Hdf; cbn [fetch_of] in Hf.
    injection Hf as <-. cbn [run_tool run_fetch] in *. tool_unfold. cbv zeta.
    formats
      (Call_get_sz50_stocks date limit format).
  - eexists; intros p f df w fmt Hf Hdf; cbn [fetch_of] in Hf.
    injection Hf as <-. cbn [run_tool run_fetch] in *. tool_unfold. cbv zeta.
    formats
      (Call_get_hs300_stocks date limit format).
  - eexists; intros p f df w fmt Hf Hdf; cbn [fetch_of] in Hf.
    injection Hf as <-. cbn [run_tool run_fetch] in *. tool_unfold. cbv zeta.
    formats
      (Call_get_zz500_stocks date limit format).
  - eexists; intros p f df w fmt Hf Hdf; cbn [fetch_of] in Hf.
    cbn [run_tool]. tool_unfold. cbv zeta. unfold str_in. cbn [existsb].
    destruct (String.eqb (lower (strip index)) "hs300") eqn:E1.
    + injection Hf as <-. cbn [orb negb run_fetch] in *.
      formats
      (Call_get_index_constituents index date limit format).
    + destruct (String.eqb (lower (strip index)) "sz50") eqn:E2.
      * injection Hf as <-. cbn [orb negb run_fetch] in *.
        formats
      (Call_get_index_constituents index date limit format).
      * destruct (String.eqb (lower (strip index)) "zz500") eqn:E3; [|discriminate].
        injection Hf as <-. cbn [orb negb run_fetch] in *.
        formats
      (Call_get_index_constituents index date limit format).
  - eexists; intros p f df w fmt Hf Hdf; cbn [fetch_of] in Hf.
    injection Hf as <-. cbn [run_tool run_fetch] in *. tool_unfold. cbv zeta.
    formats
      (Call_get_trade_dates start_date end_date limit format).
  - eexists; intros p f df w fmt Hf Hdf; cbn [fetch_of] in Hf.
    injection Hf as <-. cbn [run_tool run_fetch] in *. tool_unfold. cbv zeta.
    formats
      (Call_get_all_stock date limit format).
  - eexists; intros p f df w fmt Hf Hdf; cbn [fetch_of] in Hf.
    injection Hf as <-. cbn [run_tool run_fetch] in *. tool_unfold. cbv zeta.
    formats
      (Call_get_deposit_rate_data start_date end_date limit format).
  - eexists; intros p f df w fmt Hf Hdf; cbn [fetch_of] in Hf.
    injection Hf as <-. cbn [run_tool run_fetch] in *. tool_unfold. cbv zeta.
    formats
      (Call_get_loan_rate_data start_date end_date limit format).
  - exists []. intros p f df w fmt Hf Hdf. discriminate Hf.
  - eexists; intros p f df w fmt Hf Hdf; cbn [fetch_of] in Hf.
    injection Hf as <-. cbn [run_tool run_fetch] in *. tool_unfold. cbv zeta.
    formats
      (Call_get_money_supply_data_month start_date end_date limit format).
  - eexists; intros p f df w fmt Hf Hdf; cbn [fetch_of] in Hf.
    injection Hf as <-. cbn [run_tool run_fetch] in *. tool_unfold. cbv zeta.
    formats
      (Call_get_money_supply_data_year start_date end_date limit format).
Qed.

Lemma tool_formats_frame_of_facade_witness :
  exists meta,
    forall (p : provider) (f : fetch) (df : DataFrame) (w : world)
           (fmt : DataFrame -> string -> Z -> list (string * meta_value)
                  -> outcome string),
      fetch_of (Call_get_stock_basic_info "sh.600000" None "json") = Some f ->
      fst (run_fetch p f w) = Return df ->
      fst (run_tool fmt p (Call_get_stock_basic_info "sh.600000" None "json") w)
      = formatted (Call_get_stock_basic_info "sh.600000" None "json")
          (fmt df "json" (shape0 df) meta).
Proof.
  apply (tool_formats_frame_of_facade
           (Call_get_stock_basic_info "sh.600000" None "json")).
  - reflexivity.
  - reflexivity.
Defined.

Example tool_formats_example :
  fst (run_tool first_cells_formatter one_row_provider
         (Call_get_stock_basic_info "sh.600000" None "json")
         (initial_world jan10))
  = Return "sh.600000;1;code".
Proof. vm_compute. reflexivity. Qed.

(* ===================================================================== *)
(** ** [list_industries] *)

Lemma drop_seen_In : forall rows seen x,
  In x (drop_seen seen rows) <-> In x rows /\ ~ In x seen.
Proof.
  induction rows as [|r rows IH]; intros seen x; cbn [drop_seen].
  - cbn. tauto.
  - destruct (in_dec (list_eq_dec string_dec) r seen) as [Hin|Hout].
    + rewrite IH. cbn [In]. split.
      * intros [H1 H2]. tauto.
      * intros [[<-|H1] H2]; [contradiction | tauto].
    + cbn [In]. rewrite IH. cbn [In]. split.
      * intros [<-|[H1 H2]]; [tauto|]. split; [tauto|]. intros H. apply H2. tauto.
      * intros [[<-|H1] H2]; [tauto|].
        destruct (list_eq_dec string_dec r x) as [E|E]; [tauto|].
        right. split; [exact H1|]. intros [H|H]; contradiction.
Qed.

Lemma drop_seen_NoDup : forall rows seen, NoDup (drop_seen seen rows).
Proof.
  induction rows as [|r rows IH]; intros seen; cbn [drop_seen]; [constructor|].
  destruct (in_dec (list_eq_dec string_dec) r seen); [apply IH|].
  constructor; [|apply IH].
  rewrite drop_seen_In. intros [_ H]. apply H. left. reflexivity.
Qed.

Lemma leb_distinct_ltb : forall a b,
  String.leb a b = true -> a <> b -> String.ltb a b = true.
Proof.
  intros a b H Hne. unfold String.leb in H. unfold String.ltb.
  destruct (String.compare a b) eqn:E; try discriminate; [|reflexivity].
  apply String.compare_eq_iff in E. contradiction.
Qed.

Lemma sorted_distinct_strict : forall l,
  StronglySorted (fun a b => String.leb a b = true) l -> NoDup l ->
  strictly_ascending l.
Proof.
  intros l Hs. induction Hs as [|x l Hs IH Hall]; intros Hnd; [constructor|].
  inversion Hnd as [|? ? Hx Hl]; subst.
  constructor; [apply IH, Hl|].
  rewrite Forall_forall in *. intros y Hy.
  apply leb_distinct_ltb; [apply Hall, Hy|]. intros ->. contradiction.
Qed.

Lemma sorted_map_key : forall key l,
  StronglySorted (key_le key) l ->
  StronglySorted (fun a b => String.leb a b = true) (map key l).
Proof.
  intros key l Hs. induction Hs as [|x l Hs IH Hall]; cbn; [constructor|].
  constructor; [exact IH|].
  rewrite Forall_forall in *. intros y Hy.
  apply in_map_iff in Hy. destruct Hy as [r [<- Hr]]. apply Hall, Hr.
Qed.

(** The frame of [list_industries] and what the tool does with it, read
    off the definitions. *)
Lemma industries_frame_spec :
  forall (fmt : DataFrame -> string -> Z -> list (string * meta_value)
                -> outcome string)
         (p : provider) (date : option string) (format : string)
         (df : DataFrame) (w : world),
    fst (run_fetch p (Fetch_stock_industry None date) w) = Return df ->
    df_empty df = false ->
    NoDup (columns df) ->
    fst (Tools.list_industries fmt p date format w)
    = match fmt (industries df) format (shape0 (industries df))
              (plain [("as_of", PyStr (or_else date "latest"));
                      ("count", PyInt (shape0 (industries df)))]) with
      | Return s => Return s
      | Raise e => Return (unexpected ++ exn_str e)
      end
    /\ columns (industries df) = ["industry"]
    /\ df_rows (industries df)
       = map (fun v => [v]) (column_values (industries df) "industry")
    /\ strictly_ascending (column_values (industries df) "industry")
    /\ forall v, In v (column_values (industries df) "industry")
                 <-> In v (column_values df (industry_column df)).
Proof.
  intros fmt p date format df w Hfetch Hne _.
  split.
  { unfold Tools.list_industries, try_except, bind. cbn [run_fetch] in Hfetch.
    destruct (get_stock_industry p None date w) as [[df'|e] w1]; cbn [fst] in Hfetch;
      [|discriminate].
    injection Hfetch as ->. rewrite Hne. cbv zeta. unfold lift_outcome.
    destruct (fmt _ _ _ _); reflexivity. }
  set (col := industry_column df).
  set (rows0 := map (fun row => [cell df col row]) (df_rows df)).
  set (rows1 := drop_seen [] rows0).
  set (key := fun r : list string => nth 0 r "").
  assert (Hkey : forall rows r, cell (mk_df [col] rows) col r = key r).
  { intros rows r. unfold cell. cbn [columns index_of].
    rewrite String.eqb_refl. reflexivity. }
  assert (Hout : industries df
                 = mk_df ["industry"] (sort_rows (cell (mk_df [col] rows1) col) rows1)).
  { unfold industries, rename, sort_values, drop_duplicates, df_select.
    fold col. cbn [columns df_rows map]. rewrite String.eqb_refl. reflexivity. }
  assert (Hsort : sort_rows (cell (mk_df [col] rows1) col) rows1 = sort_rows key rows1).
  { generalize rows1 at 2 3. intros l. induction l as [|r l IH]; [reflexivity|].
    cbn [sort_rows fold_right]. unfold sort_rows in IH. rewrite IH.
    generalize (fold_right (insert_by key) [] l). intros l'.
    induction l' as [|r' l' IH']; [reflexivity|].
    cbn [insert_by]. rewrite !Hkey, IH'. reflexivity. }
  rewrite Hsort in Hout. set (rows2 := sort_rows key rows1) in *.
  assert (Hperm : Permutation rows1 rows2) by apply sort_rows_perm.
  assert (Hone0 : forall r, In r rows0 -> r = [key r]).
  { intros r Hr. apply in_map_iff in Hr. destruct Hr as [row [<- _]]. reflexivity. }
  assert (Hone1 : forall r, In r rows1 -> r = [key r]).
  { intros r Hr. apply Hone0. apply drop_seen_In in Hr. tauto. }
  assert (Hone2 : forall r, In r rows2 -> r = [key r]).
  { intros r Hr. apply Hone1. eapply Permutation_in; [apply Permutation_sym, Hperm|exact Hr]. }
  assert (Hvals : column_values (industries df) "industry" = map key rows2).
  { rewrite Hout. unfold column_values. cbn [df_rows].
    apply map_ext. intros r. unfold cell. cbn [columns index_of]. reflexivity. }
  rewrite Hvals, Hout. cbn [columns df_rows].
  split; [reflexivity|]. split; [|split].
  - rewrite map_map. rewrite <- (map_id rows2) at 1.
    apply map_ext_in. intros r Hr. apply Hone2, Hr.
  - apply sorted_distinct_strict.
    + apply sorted_map_key, sort_rows_sorted.
    + assert (Hnd1 : NoDup rows1) by apply drop_seen_NoDup.
      assert (Hnd2 : NoDup rows2).
      { eapply Permutation_NoDup; [exact Hperm | exact Hnd1]. }
      clear - Hnd2 Hone2. induction Hnd2 as [|r l Hr Hl IH]; cbn; [constructor|].
      constructor.
      * intros Hin. apply in_map_iff in Hin. destruct Hin as [r' [E Hr']].
        apply Hr. rewrite (Hone2 r (or_introl eq_refl)).
        rewrite <- E. rewrite <- (Hone2 r' (or_intror Hr')). exact Hr'.
      * apply IH. intros r' Hr'. apply Hone2. right. exact Hr'.
  - intros v. unfold column_values. rewrite !in_map_iff. split.
    + intros [r [<- Hr]].
      assert (Hr1 : In r rows1).
      { eapply Permutation_in; [apply Permutation_sym, Hperm|exact Hr]. }
      apply drop_seen_In in Hr1. destruct Hr1 as [Hr0 _].
      apply in_map_iff in Hr0. destruct Hr0 as [row [<- Hrow]].
      exists row. split; [reflexivity | exact Hrow].
    + intros [row [<- Hrow]].
      exists [cell df col row]. split; [reflexivity|].
      eapply Permutation_in; [exact Hperm|].
      apply drop_seen_In. split; [|intros []].
      apply in_map_iff. exists row. split; [reflexivity | exact Hrow].
Qed.

(** X18.  For a frame of the facade that is not empty and has columns of
    distinct names, the frame that [list_industries] hands to the
    formatter has the one column [industry]; its rows hold one cell each;
    the cells are in ascending order of their characters, none twice; and
    they are the cells of the column named [industry] of the frame of the
    facade, or of its last column when none has that name: each is a
    member of the one exactly when it is a member of the other.  The
    limit passed with it and the count in [meta] are its number of rows,
    so that nothing is cut, and an exception of the formatter comes back
    as a message. *)
Theorem list_industries_names_each_industry_once :
  forall (fmt : DataFrame -> string -> Z -> list (string * meta_value)
                -> outcome string)
         (p : provider) (date : option string) (format : string)
         (df : DataFrame) (w : world),
    fst (run_fetch p (Fetch_stock_industry None date) w) = Return df ->
    df_empty df = false ->
    NoDup (columns df) ->
    exists out,
      fst (Tools.list_industries fmt p date format w)
      = match fmt out format (Z.of_nat (List.length (df_rows out)))
                (plain [("as_of", PyStr (or_else date "latest"));
                        ("count",
                         PyInt (Z.of_nat (List.length (df_rows out))))]) with
        | Return s => Return s
        | Raise e => Return ("错误: 发生意外错误: " ++ exn_str e)
        end
      /\ columns out = ["industry"]
      /\ df_rows out = map (fun v => [v]) (column_values out "industry")
      /\ strictly_ascending (column_values out "industry")
      /\ (In "industry" (columns df) ->
          forall v, In v (column_values out "industry")
                    <-> In v (column_values df "industry"))
      /\ (~ In "industry" (columns df) ->
          forall v, In v (column_values out "industry")
                    <-> In v (column_values df (last (columns df) ""))).
Proof.
  intros fmt p date format df w Hfetch Hne Hnd.
  destruct (industries_frame_spec fmt p date format df w Hfetch Hne Hnd)
    as [Hrun [Hcols [Hrows [Hsorted Hmem]]]].
  exists (industries df).
  split; [exact Hrun|]. split; [exact Hcols|]. split; [exact Hrows|].
  split; [exact Hsorted|]. split.
  - intros Hin v. rewrite (Hmem v). unfold industry_column.
    apply has_column_In in Hin. rewrite Hin. tauto.
  - intros Hout v. rewrite (Hmem v). unfold industry_column, last_column.
    destruct (has_column df "industry") eqn:E; [|tauto].
    apply has_column_In in E. contradiction.
Qed.

Lemma list_industries_names_each_industry_once_witness :
  exists out,
    fst (Tools.list_industries first_cells_formatter industry_provider None
           "markdown" (initial_world jan10))
    = match first_cells_formatter out "markdown"
              (Z.of_nat (List.length (df_rows out)))
              (plain [("as_of", PyStr (or_else None "latest"));
                      ("count",
                       PyInt (Z.of_nat (List.length (df_rows out))))]) with
      | Return s => Return s
      | Raise e => Return ("错误: 发生意外错误: " ++ exn_str e)
      end
    /\ columns out = ["industry"]
    /\ df_rows out = map (fun v => [v]) (column_values out "industry")
    /\ strictly_ascending (column_values out "industry")
    /\ (In "industry" (columns industry_frame) ->
        forall v, In v (column_values out "industry")
                  <-> In v (column_values industry_frame "industry"))
    /\ (~ In "industry" (columns industry_frame) ->
        forall v, In v (column_values out "industry")
                  <-> In v (column_values industry_frame
                              (last (columns industry_frame) ""))).
Proof.
  apply (list_industries_names_each_industry_once first_cells_formatter
           industry_provider None "markdown" industry_frame
           (initial_world jan10)).
  - vm_compute. reflexivity.
  - reflexivity.
  - repeat constructor; cbn; intuition discriminate.
Defined.

Example list_industries_example :
  fst (Tools.list_industries first_cells_formatter industry_provider None
         "markdown" (initial_world jan10))
  = Return ",C15,J66;3;as_of,count"
  /\ fst (Tools.list_industries first_cells_formatter one_row_provider None
            "markdown" (initial_world jan10))
     = Return "PF Bank;1;as_of,count".
Proof. split; vm_compute; reflexivity. Qed.
